(** * The AKS service target of azd: readiness, endpoint resolution, bootstrap

    A shallow embedding of [cli/azd/pkg/project/service_target_aks.go].

    - Go strings are [string], Go [int] is [Z] (no arithmetic is performed on
      it by this file of the program, so no wrap-around is ever reached).
    - A Go call returning [(T, error)] is a [result T]; a run-time panic
      (index out of range) is a third outcome that no caller recovers from.
    - Reads of the cluster are functions of the cluster's successive states;
      calls that act on a collaborator are recorded in a call log threaded
      through a small state monad. *)

From Stdlib Require Import ZArith String Ascii List Lia Bool DecimalString.
From stdpp Require Import base gmap strings list.
Import ListNotations.

(** ** Errors, panics and results *)

(** Go error values. [ErrResourceNotFound] is the sentinel
    [kubectl.ErrResourceNotFound]; [New] is an error without a cause
    ([errors.New], or [fmt.Errorf] without a wrapped error); [Wrap] is
    [fmt.Errorf("... %w", err)]: the text placed before the cause, and the
    cause. *)
Inductive error : Type :=
| ErrResourceNotFound
| New (msg : string)
| Wrap (msg : string) (cause : error).

#[global] Instance error_eq_dec : EqDecision error.
Proof. solve_decision. Defined.

(** [errors.Is]: the target is looked for along the chain of causes. *)
Fixpoint errors_Is (err target : error) : bool :=
  if decide (err = target) then true
  else match err with
       | Wrap _ cause => errors_Is cause target
       | _ => false
       end.

(** The run-time panic of [s[i]] with [i >= len(s)]. *)
Inductive panic : Type :=
| IndexOutOfRange (index : nat) (len : nat).

Inductive result (A : Type) : Type :=
| Ok (a : A)
| Err (e : error)
| Panic (p : panic).
Arguments Ok {A} a.
Arguments Err {A} e.
Arguments Panic {A} p.

(** ** The pieces of the Go library the target calls *)

(** [strings.Contains(s, substr)]. *)
Fixpoint strings_Contains (s substr : string) : bool :=
  String.prefix substr s
  || match s with
     | EmptyString => false
     | String _ s' => strings_Contains s' substr
     end.

(** [strings.Split(s, sep)] for a separator of at least one byte (the target
    only splits on a comma). [skip] counts the bytes of a separator just
    matched that are still to be passed over; [cur] is the piece read so
    far. *)
Fixpoint strings_Split_from (sep : string) (skip : nat) (cur s : string)
  : list string :=
  match s with
  | EmptyString => [cur]
  | String c s' =>
      match skip with
      | S k => strings_Split_from sep k cur s'
      | O =>
          if String.prefix sep s
          then cur :: strings_Split_from sep (String.length sep - 1) EmptyString s'
          else strings_Split_from sep O (cur +:+ String c EmptyString) s'
      end
  end.

Definition strings_Split (s sep : string) : list string :=
  strings_Split_from sep O EmptyString s.

(** The verb [%d] of [fmt.Sprintf] on an [int]. *)
Definition fmt_d (n : Z) : string := NilZero.string_of_int (Z.to_int n).

(** ** The kubectl package: resource snapshots and the poller *)

Module kubectl.

Definition ServiceType := string.

(** Modelled from the spec: the two service types the target tells apart
    are declared in the kubectl package, outside this file of the program;
    their values are the Kubernetes names the spec uses. *)
Definition ServiceTypeLoadBalancer : ServiceType := "LoadBalancer".
Definition ServiceTypeClusterIp : ServiceType := "ClusterIP".

Record ResourceMetadata := { Name : string }.

Record LoadBalancerIngress := { Ip : string }.
Record LoadBalancer := { Ingress_ : list LoadBalancerIngress }.

(** Deployment *)
Record DeploymentSpec := { Replicas : Z }.
Record DeploymentStatus := { AvailableReplicas : Z }.
Record Deployment := {
  d_Metadata : ResourceMetadata;
  d_Spec : DeploymentSpec;
  d_Status : DeploymentStatus }.

(** Service *)
Record Port := { Port_ : Z }.
Record ServiceSpec := {
  Type_ : ServiceType;
  ClusterIps : list string;
  Ports : list Port }.
Record ServiceStatus := { s_LoadBalancer : LoadBalancer }.
Record Service := {
  s_Metadata : ResourceMetadata;
  s_Spec : ServiceSpec;
  s_Status : ServiceStatus }.

(** Ingress. The entries of [Spec.Tls] are never inspected by the target,
    only counted. [Host] is a [*string]: [None] is the nil pointer. *)
Inductive IngressTls := mkIngressTls.
Record IngressRule := { Host : option string }.
Record IngressSpec := {
  Tls : list IngressTls;
  Rules : list IngressRule }.
Record IngressStatus := { i_LoadBalancer : LoadBalancer }.
Record Ingress := {
  i_Metadata : ResourceMetadata;
  i_Spec : IngressSpec;
  i_Status : IngressStatus }.

(** The kubeconfig document, as far as the target touches it: its
    contexts and the namespace of each. *)
Record KubeContext := {
  kc_Name : string;
  kc_Namespace : string }.
Record KubeConfig := { Contexts : list KubeContext }.

(** Modelled from the spec: the error of a poll whose deadline passes
    while a matching resource exists but is never ready; kubectl's poller
    and its errors are declared outside this file of the program. The spec
    only says that it is not the resource-not-found condition. *)
Definition ErrDeadline : error := New "timed out waiting for resource".

(** Modelled from the spec: [kubectl.WaitForResource] is declared outside
    this file of the program. Spec 4.1: on each poll cycle the current resources of
    the kind are fetched and filtered by the match predicate; with no
    match polling continues; otherwise the first ready match is returned.
    If no match ever appears before the deadline the poll fails with the
    resource-not-found condition. [cycles] lists what each poll cycle up
    to the deadline fetches; [seen] records that some earlier cycle had a
    match. *)
Fixpoint WaitForResource_from {T : Type} (seen : bool) (cycles : list (list T))
    (resourceFilter readyStatusFilter : T -> bool) : result T :=
  match cycles with
  | [] => Err (if seen then ErrDeadline else ErrResourceNotFound)
  | items :: later =>
      let matching := List.filter resourceFilter items in
      match List.find readyStatusFilter matching with
      | Some r => Ok r
      | None =>
          WaitForResource_from
            (seen || negb (Nat.eqb (length matching) 0)) later
            resourceFilter readyStatusFilter
      end
  end.

Definition WaitForResource {T : Type} (cycles : list (list T))
    (resourceFilter readyStatusFilter : T -> bool) : result T :=
  WaitForResource_from false cycles resourceFilter readyStatusFilter.

(** What the cluster shows to the successive poll cycles of one run, per
    resource kind. Each kind is polled at most once per run. *)
Record Cluster := {
  Deployments : list (list Deployment);
  Services : list (list Service);
  Ingresses : list (list Ingress) }.

End kubectl.

(** ** Configuration of a service (service_target_aks.go, lines 28-56) *)

Record AksIngressOptions := {
  io_Name : string;
  io_RelativePath : string }.

Record AksDeploymentOptions := { do_Name : string }.

Record AksServiceOptions := { so_Name : string }.

Record AksOptions := {
  Namespace : string;
  DeploymentPath : string;
  Ingress : AksIngressOptions;
  Deployment : AksDeploymentOptions;
  Service : AksServiceOptions }.

(** The fields of [ServiceConfig] and of its project that the target reads. *)
Record ProjectConfig := { p_Name : string }.

Record ServiceConfig := {
  Project : ProjectConfig;
  Name : string;
  RelativePath : string;
  K8s : AksOptions }.

(** ** Readiness predicates (lines 388-470) *)

(** The name filter shared by the three waits. *)
Definition nameFilter (name filter : string) : bool :=
  strings_Contains name filter.

(** The ready predicate of [waitForDeployment], line 400. *)
Definition deploymentReady (deployment : kubectl.Deployment) : bool :=
  Z.eqb (kubectl.AvailableReplicas (kubectl.d_Status deployment))
        (kubectl.Replicas (kubectl.d_Spec deployment)).

(** The loop of lines 459-465: the first non-empty IP, or the empty string. *)
Fixpoint firstIp (ipAddress : string) (ingress : list kubectl.LoadBalancerIngress)
  : string :=
  match ingress with
  | [] => ipAddress
  | config :: rest =>
      if negb (String.eqb (kubectl.Ip config) "")
      then kubectl.Ip config
      else firstIp ipAddress rest
  end.

(** The ready predicate of [waitForService], lines 452-468. *)
Definition serviceReady (service : kubectl.Service) : bool :=
  if negb (String.eqb (kubectl.Type_ (kubectl.s_Spec service))
                      kubectl.ServiceTypeLoadBalancer)
  then true
  else
    let ipAddress :=
      firstIp "" (kubectl.Ingress_ (kubectl.s_LoadBalancer (kubectl.s_Status service))) in
    negb (String.eqb ipAddress "").

(** The ready predicate of [waitForIngress], lines 429-437. *)
Fixpoint anyIp (ingress : list kubectl.LoadBalancerIngress) : bool :=
  match ingress with
  | [] => false
  | config :: rest =>
      if negb (String.eqb (kubectl.Ip config) "") then true else anyIp rest
  end.

Definition ingressReady (ingress : kubectl.Ingress) : bool :=
  anyIp (kubectl.Ingress_ (kubectl.i_LoadBalancer (kubectl.i_Status ingress))).

Definition waitForIngress (k : kubectl.Cluster) (ingressNameFilter : string)
  : result kubectl.Ingress :=
  kubectl.WaitForResource (kubectl.Ingresses k)
    (fun ingress => nameFilter (kubectl.Name (kubectl.i_Metadata ingress)) ingressNameFilter)
    ingressReady.

Definition waitForService (k : kubectl.Cluster) (serviceNameFilter : string)
  : result kubectl.Service :=
  kubectl.WaitForResource (kubectl.Services k)
    (fun service => nameFilter (kubectl.Name (kubectl.s_Metadata service)) serviceNameFilter)
    serviceReady.

(** ** Service endpoints (lines 474-496) *)

Definition loadBalancerEndpoint (resource : kubectl.LoadBalancerIngress) : string :=
  "http://" +:+ kubectl.Ip resource +:+ ", (Service, Type: LoadBalancer)".

Definition clusterIpEndpoint (ip : string) (port : kubectl.Port) : string :=
  "http://" +:+ ip +:+ ":" +:+ fmt_d (kubectl.Port_ port)
    +:+ ", (Service, Type: ClusterIP)".

(** The loop of lines 486-488. *)
Definition loadBalancerLoop (ingress : list kubectl.LoadBalancerIngress)
    (endpoints : list string) : list string :=
  fold_left (fun endpoints resource => endpoints ++ [loadBalancerEndpoint resource])
            ingress endpoints.

(** The loop of lines 490-492; [ports[index]] panics out of range. *)
Fixpoint clusterIpLoop (ports : list kubectl.Port) (index : nat)
    (ips : list string) (endpoints : list string) : result (list string) :=
  match ips with
  | [] => Ok endpoints
  | ip :: rest =>
      match ports !! index with
      | None => Panic (IndexOutOfRange index (length ports))
      | Some port =>
          clusterIpLoop ports (S index) rest (endpoints ++ [clusterIpEndpoint ip port])
      end
  end.

(** Lines 484-495, once the service has been found. *)
Definition serviceEndpointsOf (service : kubectl.Service) : result (list string) :=
  let spec := kubectl.s_Spec service in
  if String.eqb (kubectl.Type_ spec) kubectl.ServiceTypeLoadBalancer then
    Ok (loadBalancerLoop
          (kubectl.Ingress_ (kubectl.s_LoadBalancer (kubectl.s_Status service))) [])
  else if String.eqb (kubectl.Type_ spec) kubectl.ServiceTypeClusterIp then
    clusterIpLoop (kubectl.Ports spec) O (kubectl.ClusterIps spec) []
  else Ok [].

Definition getServiceEndpoints (k : kubectl.Cluster) (serviceConfig : ServiceConfig)
    (serviceNameFilter : string) : result (list string) :=
  match waitForService k serviceNameFilter with
  | Err err => Err err
  | Panic p => Panic p
  | Ok service => serviceEndpointsOf service
  end.

(** ** Cloud resources and collaborators' data *)

Record TargetResource := {
  SubscriptionId : string;
  ResourceGroupName : string;
  ResourceName : string }.

(** [armcontainerservice.CredentialResult]; [Value] is a [[]byte]. *)
Record CredentialResult := {
  cr_Name : string;
  Value : string }.

(** The methods of [*environment.Environment] that the target calls. The
    environment package is declared outside this file of the program: the
    target is verified for every environment that offers them. *)
Class EnvironmentOps (Environment : Type) := {
  Getenv : Environment -> string -> string;
  LookupEnv : Environment -> string -> string * bool;
  Dotenv : Environment -> gmap string string;
  GetSubscriptionId : Environment -> string;
  SetServiceProperty : Environment -> string -> string -> string -> Environment }.

(** A collaborator's answer to a call returning [(T, error)]. *)
Definition reply (A : Type) : Type := (A + error)%type.

Definition called {A : Type} (r : reply A) : result A :=
  match r with
  | inl a => Ok a
  | inr err => Err err
  end.

(** ** Instances of the library functions and of the environment

    The theorems below hold for every [url.JoinPath], [filepath.Join] and
    environment. To run the target on concrete inputs, here is one of each. *)

Module Instances.

(** [path.Clean] on a rooted path, by segments: empty segments and [.]
    are dropped, [..] drops the segment before it (and nothing at the
    root). [kept] holds the segments kept so far, last first. *)
Fixpoint cleanSegments (kept segments : list string) : list string :=
  match segments with
  | [] => rev kept
  | segment :: rest =>
      if String.eqb segment "" || String.eqb segment "." then cleanSegments kept rest
      else if String.eqb segment ".." then cleanSegments (tail kept) rest
      else cleanSegments (segment :: kept) rest
  end.

Definition cleanRooted (p : string) : string :=
  "/" +:+ String.concat "/" (cleanSegments [] (strings_Split p "/")).

Definition isLower (c : ascii) : bool :=
  let n := nat_of_ascii c in ((97 <=? n) && (n <=? 122))%nat.

Definition isLetter (c : ascii) : bool :=
  let n := nat_of_ascii c in isLower c || ((65 <=? n) && (n <=? 90))%nat.

Definition isDigit (c : ascii) : bool :=
  let n := nat_of_ascii c in ((48 <=? n) && (n <=? 57))%nat.

(** Bytes that net/url neither escapes nor unescapes in a host. *)
Definition isHostByte (c : ascii) : bool :=
  isLetter c || isDigit c || Ascii.eqb c "-" || Ascii.eqb c ".".

(** Bytes that net/url neither escapes nor unescapes in a path. *)
Definition isPathByte (c : ascii) : bool :=
  isHostByte c || Ascii.eqb c "_" || Ascii.eqb c "~" || Ascii.eqb c "/".

Definition all (f : ascii -> bool) (s : string) : bool :=
  forallb f (list_ascii_of_string s).

Definition endsWithSlash (s : string) : bool :=
  match rev (list_ascii_of_string s) with
  | c :: _ => Ascii.eqb c "/"
  | [] => false
  end.

(** [url.JoinPath] on a base [scheme://host] without path, query or
    fragment, whose scheme is made of lower-case letters and whose host
    and elements need no escaping: the elements are joined below the
    root and cleaned, and a trailing slash of the last element is kept.
    Other inputs are declined by this instance. *)
Definition url_JoinPath (base : string) (elem : list string) : reply string :=
  match strings_Split base "://" with
  | [scheme; host] =>
      if negb (String.eqb scheme "") && all isLower scheme
         && negb (String.eqb host "") && all isHostByte host
         && forallb (all isPathByte) elem
      then
        let joined := cleanRooted (String.concat "/" ("/" :: elem)) in
        let p := substring 1 (String.length joined - 1) joined in
        let p := if endsWithSlash (List.last elem "/") && negb (endsWithSlash p)
                 then p +:+ "/" else p in
        inl (if String.eqb p "" || String.prefix "/" p
             then base +:+ p else base +:+ "/" +:+ p)
      else inr (New "url.JoinPath: input not covered by this instance")
  | _ => inr (New "url.JoinPath: input not covered by this instance")
  end.

(** [filepath.Join] on elements that are already clean: the non-empty
    ones, separated by a slash. *)
Definition filepath_Join (elem : list string) : string :=
  String.concat "/" (List.filter (fun e => negb (String.eqb e "")) elem).

(** An environment held in two maps: its variables, and the properties
    of its services. *)
Record Environment := {
  variables : gmap string string;
  properties : gmap (string * string) string }.

#[global] Instance environment_ops : EnvironmentOps Environment := {
  Getenv e key := default "" (variables e !! key);
  LookupEnv e key :=
    match variables e !! key with
    | Some value => (value, true)
    | None => ("", false)
    end;
  Dotenv e := variables e;
  GetSubscriptionId e := default "" (variables e !! "AZURE_SUBSCRIPTION_ID");
  SetServiceProperty e serviceName propertyName value :=
    {| variables := variables e;
       properties := <[(serviceName, propertyName) := value]> (properties e) |} }.

Definition KubernetesServiceRID (subscriptionId resourceGroupName clusterName : string)
  : string :=
  "/subscriptions/" +:+ subscriptionId +:+ "/resourceGroups/" +:+ resourceGroupName
    +:+ "/providers/Microsoft.ContainerService/managedClusters/" +:+ clusterName.

End Instances.

(** ** Concrete clusters and configurations *)

Module Examples.

Definition service (name : string) (type : kubectl.ServiceType)
    (clusterIps : list string) (ports : list Z) (ingressIps : list string)
  : kubectl.Service :=
  {| kubectl.s_Metadata := {| kubectl.Name := name |};
     kubectl.s_Spec := {| kubectl.Type_ := type;
                          kubectl.ClusterIps := clusterIps;
                          kubectl.Ports := List.map kubectl.Build_Port ports |};
     kubectl.s_Status :=
       {| kubectl.s_LoadBalancer :=
            {| kubectl.Ingress_ := List.map kubectl.Build_LoadBalancerIngress ingressIps |} |} |}.

Definition ingress (name : string) (tls : nat) (hosts : list (option string))
    (ingressIps : list string) : kubectl.Ingress :=
  {| kubectl.i_Metadata := {| kubectl.Name := name |};
     kubectl.i_Spec := {| kubectl.Tls := repeat kubectl.mkIngressTls tls;
                          kubectl.Rules := List.map kubectl.Build_IngressRule hosts |};
     kubectl.i_Status :=
       {| kubectl.i_LoadBalancer :=
            {| kubectl.Ingress_ := List.map kubectl.Build_LoadBalancerIngress ingressIps |} |} |}.

Definition deployment (name : string) (replicas available : Z) : kubectl.Deployment :=
  {| kubectl.d_Metadata := {| kubectl.Name := name |};
     kubectl.d_Spec := {| kubectl.Replicas := replicas |};
     kubectl.d_Status := {| kubectl.AvailableReplicas := available |} |}.

(** A cluster that shows the same resources to every poll, here to one. *)
Definition steady (deployments : list kubectl.Deployment)
    (services : list kubectl.Service) (ingresses : list kubectl.Ingress)
  : kubectl.Cluster :=
  {| kubectl.Deployments := [deployments];
     kubectl.Services := [services];
     kubectl.Ingresses := [ingresses] |}.

(** A service [web] of the project [shop], with the relative path [/app]. *)
Definition web (ingressName : string) : ServiceConfig :=
  {| Project := {| p_Name := "shop" |};
     Name := "web";
     RelativePath := "src/web";
     K8s := {| Namespace := "";
               DeploymentPath := "";
               Ingress := {| io_Name := ingressName; io_RelativePath := "/app" |};
               Deployment := {| do_Name := "" |};
               Service := {| so_Name := "" |} |} |}.

(** A load balancer whose first entry has no IP yet and whose second has. *)
Definition halfProvisioned : kubectl.Service :=
  service "web" kubectl.ServiceTypeLoadBalancer [] [] [""; "1.2.3.4"].

Definition internal : kubectl.Service :=
  service "web" kubectl.ServiceTypeClusterIp ["10.0.0.5"] [8080%Z] [].

(** Two cluster IPs and a single port. *)
Definition shortOfPorts : kubectl.Service :=
  service "web" kubectl.ServiceTypeClusterIp ["10.0.0.5"; "10.0.0.6"] [8080%Z] [].

Definition hosted : kubectl.Ingress :=
  ingress "web" 0 [Some "example.com"] ["1.2.3.4"].

Definition secured : kubectl.Ingress :=
  ingress "web" 1 [None] ["1.2.3.4"].

(** A load-balancer entry and no rule. *)
Definition shortOfRules : kubectl.Ingress :=
  ingress "web" 0 [] ["1.2.3.4"].

Definition environment (variables : list (string * string)) : Instances.Environment :=
  {| Instances.variables := list_to_map variables;
     Instances.properties := ∅ |}.

Definition resourceGroup : TargetResource :=
  {| SubscriptionId := "sub"; ResourceGroupName := "rg"; ResourceName := "aks" |}.

End Examples.

(** ** Everything below depends on library functions and constants that are
    declared outside this file of the program; they are taken as given. *)

Section Target.

Set Default Proof Using "Type".

(** [url.JoinPath(base, elem...)] of Go's net/url. *)
Variable url_JoinPath : string -> list string -> reply string.

(** [filepath.Join(elem...)] of Go's path/filepath. *)
Variable filepath_Join : list string -> string.

(** [kubectl.KubeConfigEnvVarName] and [environment.AksClusterEnvVarName]. *)
Variable KubeConfigEnvVarName : string.
Variable AksClusterEnvVarName : string.

(** [azure.KubernetesServiceRID] and the target kind [AksTarget]. *)
Variable KubernetesServiceRID : string -> string -> string -> string.
Variable AksTarget : string.

(** The environment and the package result handed to the target. *)
Context {Environment : Type} `{EnvironmentOps Environment}.
Variable ServicePackageResult : Type.

(** ** Ingress endpoints (lines 500-535) *)

(** Lines 511-516: one protocol for the whole ingress. *)
Definition ingressProtocol (ingress : kubectl.Ingress) : string :=
  if Nat.eqb (length (kubectl.Tls (kubectl.i_Spec ingress))) 0
  then "http" else "https".

(** Lines 519-524: the base URL of one load-balancer entry and its rule. *)
Definition ingressBaseUrl (protocol : string) (rule : kubectl.IngressRule)
    (resource : kubectl.LoadBalancerIngress) : string :=
  match kubectl.Host rule with
  | None => protocol +:+ "://" +:+ kubectl.Ip resource
  | Some host => protocol +:+ "://" +:+ host
  end.

Definition ingressEndpoint (endpointUrl : string) : string :=
  endpointUrl +:+ ", (Ingress, Type: LoadBalancer)".

(** The loop of lines 518-532; [Rules[index]] panics out of range, and a
    failed join returns at once. *)
Fixpoint ingressLoop (protocol : string) (rules : list kubectl.IngressRule)
    (relativePath : string) (index : nat)
    (lb : list kubectl.LoadBalancerIngress) (endpoints : list string)
  : result (list string) :=
  match lb with
  | [] => Ok endpoints
  | resource :: rest =>
      match rules !! index with
      | None => Panic (IndexOutOfRange index (length rules))
      | Some rule =>
          let baseUrl := ingressBaseUrl protocol rule resource in
          match url_JoinPath baseUrl [relativePath] with
          | inr err => Err (Wrap "failed constructing service endpoints, " err)
          | inl endpointUrl =>
              ingressLoop protocol rules relativePath (S index) rest
                          (endpoints ++ [ingressEndpoint endpointUrl])
          end
      end
  end.

(** Lines 510-534, once the ingress has been found. *)
Definition ingressEndpointsOf (serviceConfig : ServiceConfig)
    (ingress : kubectl.Ingress) : result (list string) :=
  ingressLoop (ingressProtocol ingress)
              (kubectl.Rules (kubectl.i_Spec ingress))
              (io_RelativePath (Ingress (K8s serviceConfig)))
              O
              (kubectl.Ingress_ (kubectl.i_LoadBalancer (kubectl.i_Status ingress)))
              [].

Definition getIngressEndpoints (k : kubectl.Cluster) (serviceConfig : ServiceConfig)
    (resourceFilter : string) : result (list string) :=
  match waitForIngress k resourceFilter with
  | Err err => Err err
  | Panic p => Panic p
  | Ok ingress => ingressEndpointsOf serviceConfig ingress
  end.

(** ** Endpoints (lines 229-261) *)

(** Lines 234-237. *)
Definition serviceName (serviceConfig : ServiceConfig) : string :=
  let serviceName := so_Name (Service (K8s serviceConfig)) in
  if String.eqb serviceName "" then Name serviceConfig else serviceName.

(** Lines 239-242: the ingress filter is read from the same field. *)
Definition ingressName (serviceConfig : ServiceConfig) : string :=
  let ingressName := so_Name (Service (K8s serviceConfig)) in
  if String.eqb ingressName "" then Name serviceConfig else ingressName.

(** [err != nil && !errors.Is(err, kubectl.ErrResourceNotFound)], for an
    [err] that is not nil. *)
Definition fatal (err : error) : bool :=
  negb (errors_Is err ErrResourceNotFound).

Definition Endpoints (k : kubectl.Cluster) (serviceConfig : ServiceConfig)
    (targetResource : TargetResource) : result (list string) :=
  let serviceName := serviceName serviceConfig in
  let ingressName := ingressName serviceConfig in
  let afterService (serviceEndpoints : list string) : result (list string) :=
    let afterIngress (ingressEndpoints : list string) : result (list string) :=
      Ok (serviceEndpoints ++ ingressEndpoints) in
    match getIngressEndpoints k serviceConfig ingressName with
    | Panic p => Panic p
    | Err err =>
        if fatal err
        then Err (Wrap "failed retrieving ingress endpoints, " err)
        else afterIngress []
    | Ok ingressEndpoints => afterIngress ingressEndpoints
    end in
  match getServiceEndpoints k serviceConfig serviceName with
  | Panic p => Panic p
  | Err err =>
      if fatal err
      then Err (Wrap "failed retrieving service endpoints, " err)
      else afterService []
  | Ok serviceEndpoints => afterService serviceEndpoints
  end.

(** ** The target, its state and its calls *)

(** What the collaborators held by [aksTarget] answer during one run. Each
    of them is called at most once per run with given arguments, so an
    answer per call describes every possible collaborator. *)
Record aksTarget := {
  (* kubectl *)
  cluster : kubectl.Cluster;
  kubectl_Apply : string -> reply unit;
  kubectl_CreateNamespace : string -> reply string;
  kubectl_ApplyWithStdIn : string -> reply unit;
  kubectl_ConfigUseContext : string -> reply unit;
  kubectl_RolloutStatus : string -> reply unit;
  kubectl_NewKubeConfigManager : reply unit;
  kubectl_ParseKubeConfig : string -> reply kubectl.KubeConfig;
  kubeConfigManager_AddOrUpdateContext : string -> kubectl.KubeConfig -> reply string;
  (* managedClustersService *)
  managedClustersService_GetUserCredentials :
    string -> string -> string -> reply (list CredentialResult);
  (* resourceManager *)
  resourceManager_GetTargetResource : string -> ServiceConfig -> reply TargetResource;
  (* envManager *)
  envManager_Save : Environment -> reply unit;
  (* containerHelper: the progress its deploy task reports *)
  containerHelper_Progress : list string }.

(** A call made on a collaborator, with its arguments. *)
Inductive Call : Type :=
| CallSetEnv (dotenv : gmap string string)
| CallSetKubeConfig (kubeConfigPath : string)
| CallApply (path : string)
| CallCreateNamespace (namespace : string)
| CallApplyWithStdIn (input : string)
| CallConfigUseContext (name : string)
| CallRolloutStatus (name : string)
| CallNewKubeConfigManager
| CallParseKubeConfig (raw : string)
| CallAddOrUpdateContext (name : string) (kubeConfig : kubectl.KubeConfig)
| CallGetUserCredentials (subscriptionId resourceGroupName clusterName : string)
| CallGetTargetResource (subscriptionId : string) (serviceConfig : ServiceConfig)
| CallSave (env : Environment)
| CallContainerDeploy (serviceConfig : ServiceConfig) (packageOutput : ServicePackageResult)
                      (targetResource : TargetResource)
| CallSetProgress (message : string)
| CallMessage (message : string)
| CallPrintf (message : string).

(** The mutable state of a run: [t.env], and the calls made so far. *)
Record State := {
  env : Environment;
  calls : list Call }.

Definition M (A : Type) : Type := State -> result A * State.

Definition ret {A : Type} (a : A) : M A := fun st => (Ok a, st).

Definition bind {A B : Type} (m : M A) (f : A -> M B) : M B :=
  fun st =>
    match m st with
    | (Ok a, st') => f a st'
    | (Err err, st') => (Err err, st')
    | (Panic p, st') => (Panic p, st')
    end.

Notation "x <- m ;; k" := (bind m (fun x => k))
  (at level 100, m at next level, right associativity).

(** [return ..., err]. *)
Definition fail {A : Type} (err : error) : M A := fun st => (Err err, st).

Definition lift {A : Type} (r : result A) : M A := fun st => (r, st).

(** [x, err := f(...)] whose [err] is inspected by the caller. *)
Definition attempt {A : Type} (m : M A) : M (A + error) :=
  fun st =>
    match m st with
    | (Ok a, st') => (Ok (inl a), st')
    | (Err err, st') => (Ok (inr err), st')
    | (Panic p, st') => (Panic p, st')
    end.

(** [if err != nil { return ..., fmt.Errorf(msg + "%w", err) }]. *)
Definition wrapped {A : Type} (msg : string) (m : M A) : M A :=
  fun st =>
    match m st with
    | (Err err, st') => (Err (Wrap msg err), st')
    | other => other
    end.

(** A call on a collaborator: logged, then answered. *)
Definition invoke {A : Type} (c : Call) (answer : reply A) : M A :=
  fun st => (called answer, {| env := env st; calls := calls st ++ [c] |}).

Definition getEnv : M Environment := fun st => (Ok (env st), st).

Definition setEnv (e : Environment) : M unit :=
  fun st => (Ok tt, {| env := e; calls := calls st |}).

(** [s[i]]. *)
Definition at_index {A : Type} (s : list A) (i : nat) : M A :=
  match s !! i with
  | Some a => ret a
  | None => lift (Panic (IndexOutOfRange i (length s)))
  end.

Definition SetProgress (message : string) : M unit :=
  invoke (CallSetProgress message) (inl tt).

(** ** Deploy (lines 139-226) *)

Definition defaultDeploymentPath : string := "manifests".

(** Lines 263-273. *)
Definition validateTargetResource (serviceConfig : ServiceConfig)
    (targetResource : TargetResource) : reply unit :=
  if String.eqb (ResourceGroupName targetResource) ""
  then inr (New ("missing resource group name: " +:+ ResourceGroupName targetResource))
  else inl tt.

(** Lines 388-416. *)
Definition waitForDeployment (t : aksTarget) (deploymentNameFilter : string)
  : M kubectl.Deployment :=
  deployment <- lift (kubectl.WaitForResource (kubectl.Deployments (cluster t))
       (fun deployment =>
          nameFilter (kubectl.Name (kubectl.d_Metadata deployment)) deploymentNameFilter)
       deploymentReady) ;;
  let name := kubectl.Name (kubectl.d_Metadata deployment) in
  _ <- invoke (CallRolloutStatus name) (kubectl_RolloutStatus t name) ;;
  ret deployment.

Record ServiceDeployResult := {
  Package : ServicePackageResult;
  TargetResourceId : string;
  Kind : string;
  Details : option kubectl.Deployment;
  Endpoints_ : list string }.

(** [syncProgress]: the progress of the container task is passed on. *)
Fixpoint syncProgress (progress : list string) : M unit :=
  match progress with
  | [] => ret tt
  | message :: rest => _ <- SetProgress message ;; syncProgress rest
  end.

(** Lines 202-212. *)
Definition saveEndpoint (t : aksTarget) (serviceConfig : ServiceConfig)
    (endpoints : list string) : M unit :=
  if Nat.ltb 0 (length endpoints) then
    last_endpoint <- at_index endpoints (length endpoints - 1) ;;
    let endpointParts := strings_Split last_endpoint "," in
    url <- at_index endpointParts 0 ;;
    e <- getEnv ;;
    _ <- setEnv (SetServiceProperty e (Name serviceConfig) "ENDPOINT_URL" url) ;;
    e <- getEnv ;;
    wrapped "failed updating environment with endpoint url, "
            (invoke (CallSave e) (envManager_Save t e))
  else ret tt.

(** Lines 166-169 and 173: where the manifests are applied from. *)
Definition manifestsPath (serviceConfig : ServiceConfig) : string :=
  let deploymentPath :=
    if String.eqb (DeploymentPath (K8s serviceConfig)) ""
    then defaultDeploymentPath
    else DeploymentPath (K8s serviceConfig) in
  filepath_Join [RelativePath serviceConfig; deploymentPath].

(** Lines 181-184. *)
Definition deploymentName (serviceConfig : ServiceConfig) : string :=
  let deploymentName := do_Name (Deployment (K8s serviceConfig)) in
  if String.eqb deploymentName "" then Name serviceConfig else deploymentName.

Definition Deploy (t : aksTarget) (serviceConfig : ServiceConfig)
    (packageOutput : option ServicePackageResult) (targetResource : TargetResource)
  : M ServiceDeployResult :=
  match validateTargetResource serviceConfig targetResource with
  | inr err => fail (Wrap "validating target resource: " err)
  | inl _ =>
  match packageOutput with
  | None => fail (New "missing package output")
  | Some package =>
      (* Login, tag & push container image to ACR *)
      _ <- invoke (CallContainerDeploy serviceConfig package targetResource) (inl tt) ;;
      _ <- syncProgress (containerHelper_Progress t) ;;
      (* Sync environment *)
      e <- getEnv ;;
      _ <- invoke (CallSetEnv (Dotenv e)) (inl tt) ;;
      _ <- SetProgress "Applying k8s manifests" ;;
      let path := manifestsPath serviceConfig in
      _ <- wrapped "failed applying kube manifests: "
                   (invoke (CallApply path) (kubectl_Apply t path)) ;;
      let deploymentName := deploymentName serviceConfig in
      (* It is not a requirement for a AZD deploy to contain a deployment object *)
      _ <- SetProgress "Verifying deployment" ;;
      found <- attempt (waitForDeployment t deploymentName) ;;
      deployment <- match found with
                    | inl deployment => ret (Some deployment)
                    | inr err => if fatal err then fail err else ret None
                    end ;;
      _ <- SetProgress "Fetching endpoints for AKS service" ;;
      endpoints <- lift (Endpoints (cluster t) serviceConfig targetResource) ;;
      _ <- saveEndpoint t serviceConfig endpoints ;;
      ret {| Package := package;
             TargetResourceId :=
               KubernetesServiceRID (SubscriptionId targetResource)
                                    (ResourceGroupName targetResource)
                                    (ResourceName targetResource);
             Kind := AksTarget;
             Details := deployment;
             Endpoints_ := endpoints |}
  end
  end.

(** ** Cluster context bootstrap (lines 275-383, 537-580) *)

(** Lines 326-346. *)
Definition ensureNamespace (t : aksTarget) (namespace : string) : M unit :=
  namespaceResult <- wrapped "failed creating kube namespace: "
      (invoke (CallCreateNamespace namespace) (kubectl_CreateNamespace t namespace)) ;;
  _ <- wrapped "failed applying kube namespace: "
      (invoke (CallApplyWithStdIn namespaceResult)
              (kubectl_ApplyWithStdIn t namespaceResult)) ;;
  ret tt.

(** Line 369: [kubeConfig.Contexts[0].Context.Namespace = namespace]. *)
Definition setDefaultNamespace (kubeConfig : kubectl.KubeConfig) (namespace : string)
  : M kubectl.KubeConfig :=
  first <- at_index (kubectl.Contexts kubeConfig) 0 ;;
  ret {| kubectl.Contexts :=
           {| kubectl.kc_Name := kubectl.kc_Name first;
              kubectl.kc_Namespace := namespace |}
           :: tail (kubectl.Contexts kubeConfig) |}.

(** Lines 348-383. *)
Definition configureK8sContext (t : aksTarget) (clusterName namespace : string)
    (credentialResult : CredentialResult) : M string :=
  _ <- invoke CallNewKubeConfigManager (kubectl_NewKubeConfigManager t) ;;
  kubeConfig <- wrapped "failed parsing kube config. Ensure your configuration is valid yaml. "
      (invoke (CallParseKubeConfig (Value credentialResult))
              (kubectl_ParseKubeConfig t (Value credentialResult))) ;;
  (* Set default namespace for the context *)
  kubeConfig <- setDefaultNamespace kubeConfig namespace ;;
  kubeConfigPath <- wrapped "failed adding/updating kube context, "
      (invoke (CallAddOrUpdateContext clusterName kubeConfig)
              (kubeConfigManager_AddOrUpdateContext t clusterName kubeConfig)) ;;
  _ <- wrapped ("failed setting kube context '" +:+ clusterName
                  +:+ "'. Ensure the specified context exists. ")
      (invoke (CallConfigUseContext clusterName) (kubectl_ConfigUseContext t clusterName)) ;;
  ret kubeConfigPath.

(** The error of lines 289-292. *)
Definition errNoCluster : error :=
  New ("could not determine AKS cluster, ensure " +:+ AksClusterEnvVarName
         +:+ " is set as an output of your infrastructure").

(** The error of lines 310-313, whose wrapped [err] is nil at that point. *)
Definition errNoCredentials : error :=
  New ("cluster credentials is empty. "
         +:+ "Ensure your cluster has been configured to support admin credentials. , "
         +:+ "%!w(<nil>)").

(** Lines 275-324. *)
Definition ensureClusterContext (t : aksTarget) (serviceConfig : ServiceConfig)
    (targetResource : TargetResource) (defaultNamespace : string) : M string :=
  e <- getEnv ;;
  let kubeConfigPath := Getenv e KubeConfigEnvVarName in
  if negb (String.eqb kubeConfigPath "") then ret kubeConfigPath
  else
    (* Login to AKS cluster *)
    let (clusterName, has) := LookupEnv e AksClusterEnvVarName in
    if negb has then fail errNoCluster
    else
      _ <- invoke (CallPrintf ("getting AKS credentials for cluster '" +:+ clusterName
                                 +:+ "'" +:+ String (ascii_of_nat 10) EmptyString))
                  (inl tt) ;;
      Kubeconfigs <- wrapped ("failed retrieving cluster admin credentials. "
            +:+ "Ensure your cluster has been configured to support admin credentials, ")
          (invoke (CallGetUserCredentials (SubscriptionId targetResource)
                                          (ResourceGroupName targetResource) clusterName)
                  (managedClustersService_GetUserCredentials t
                     (SubscriptionId targetResource)
                     (ResourceGroupName targetResource) clusterName)) ;;
      if Nat.eqb (length Kubeconfigs) 0 then fail errNoCredentials
      else
        first <- at_index Kubeconfigs 0 ;;
        configureK8sContext t clusterName defaultNamespace first.

(** Lines 537-544. *)
Definition getK8sNamespace (serviceConfig : ServiceConfig) : string :=
  let namespace := Namespace (K8s serviceConfig) in
  if String.eqb namespace "" then p_Name (Project serviceConfig) else namespace.

(** Lines 546-580. *)
Definition setK8sContext (t : aksTarget) (serviceConfig : ServiceConfig)
    (eventName : string) : M unit :=
  e <- getEnv ;;
  _ <- invoke (CallSetEnv (Dotenv e)) (inl tt) ;;
  (* If a KUBECONFIG env var is set, use it. *)
  let kubeConfigPath := Getenv e KubeConfigEnvVarName in
  hasCustomKubeConfig <-
    (if negb (String.eqb kubeConfigPath "")
     then _ <- invoke (CallSetKubeConfig kubeConfigPath) (inl tt) ;; ret true
     else ret false) ;;
  targetResource <-
    invoke (CallGetTargetResource (GetSubscriptionId e) serviceConfig)
           (resourceManager_GetTargetResource t (GetSubscriptionId e) serviceConfig) ;;
  let defaultNamespace := getK8sNamespace serviceConfig in
  _ <- ensureClusterContext t serviceConfig targetResource defaultNamespace ;;
  _ <- ensureNamespace t defaultNamespace ;;
  _ <- (if hasCustomKubeConfig && String.eqb eventName "predeploy"
        then invoke (CallMessage ("Using KUBECONFIG @ " +:+ kubeConfigPath
                                    +:+ String (ascii_of_nat 10) EmptyString))
                    (inl tt)
        else ret tt) ;;
  ret tt.

(** ** Notions used to state the properties *)

(** What a branch of [Endpoints] contributes when it does not abort the
    resolution: its endpoints, or none when it reports that the resource
    was not found. *)
Definition contributes (branch : result (list string)) (endpoints : list string) : Prop :=
  branch = Ok endpoints
  \/ (endpoints = []
      /\ exists err, branch = Err err /\ errors_Is err ErrResourceNotFound = true).

(** The same configuration with another [K8s.Ingress.Name]. *)
Definition withIngressName (serviceConfig : ServiceConfig) (name : string)
  : ServiceConfig :=
  let k8s := K8s serviceConfig in
  {| Project := Project serviceConfig;
     Name := Name serviceConfig;
     RelativePath := RelativePath serviceConfig;
     K8s := {| Namespace := Namespace k8s;
               DeploymentPath := DeploymentPath k8s;
               Ingress := {| io_Name := name;
                             io_RelativePath := io_RelativePath (Ingress k8s) |};
               Deployment := Deployment k8s;
               Service := Service k8s |} |}.

(** [url] is the text of [s] before its first comma: all of [s] when it has
    no comma. *)
Definition beforeFirstComma (s url : string) : Prop :=
  strings_Contains url "," = false
  /\ (s = url \/ exists rest, s = url +:+ "," +:+ rest).

(** Calls among which the environment is not saved. *)
Definition saveFree (made : list Call) : Prop := forall e, ~ In (CallSave e) made.

(** A deploy reaches the resolution of endpoints when the target resource
    is valid, the manifests are applied, and the deployment is verified or
    reported as not found. *)
Definition reachesEndpoints (t : aksTarget) (serviceConfig : ServiceConfig)
    (targetResource : TargetResource) : Prop :=
  validateTargetResource serviceConfig targetResource = inl tt
  /\ kubectl_Apply t (manifestsPath serviceConfig) = inl tt
  /\ forall st,
       match fst (waitForDeployment t (deploymentName serviceConfig) st) with
       | Ok _ => True
       | Err err => fatal err = false
       | Panic _ => False
       end.

(** The calls of the bootstrap that fetch credentials or touch a
    kubeconfig context. *)
Definition isContextCall (c : Call) : bool :=
  match c with
  | CallGetUserCredentials _ _ _
  | CallNewKubeConfigManager
  | CallParseKubeConfig _
  | CallAddOrUpdateContext _ _
  | CallConfigUseContext _ => true
  | _ => false
  end.

(** A target whose collaborators all succeed, in front of the cluster [k]. *)
Definition cooperative (k : kubectl.Cluster) : aksTarget :=
  {| cluster := k;
     kubectl_Apply := fun _ => inl tt;
     kubectl_CreateNamespace := fun namespace => inl ("kind: Namespace, name: " +:+ namespace);
     kubectl_ApplyWithStdIn := fun _ => inl tt;
     kubectl_ConfigUseContext := fun _ => inl tt;
     kubectl_RolloutStatus := fun _ => inl tt;
     kubectl_NewKubeConfigManager := inl tt;
     kubectl_ParseKubeConfig := fun _ =>
       inl {| kubectl.Contexts :=
                [{| kubectl.kc_Name := "aks"; kubectl.kc_Namespace := "default" |}] |};
     kubeConfigManager_AddOrUpdateContext := fun _ _ => inl "/home/dev/.azd/kube/config";
     managedClustersService_GetUserCredentials := fun _ _ _ =>
       inl [{| cr_Name := "clusterUser"; Value := "apiVersion: v1" |}];
     resourceManager_GetTargetResource := fun _ _ => inl Examples.resourceGroup;
     envManager_Save := fun _ => inl tt;
     containerHelper_Progress := ["Pushing container image"] |}.

(** ** Initialize (lines 98-124) *)

(** Who a lifecycle handler is attached to: the project of the service
    (line 102) or the service itself (line 115). *)
Inductive HandlerOwner : Type :=
| OfProject
| OfService.

(** A call of [AddHandler]: the owner, the event, and the handler passed. *)
Record Handler := {
  h_owner : HandlerOwner;
  h_event : string;
  h_run : M unit }.

(** [AddHandler] answers with an error or nil. [Initialize] returns its
    error, here with the handlers it has passed to [AddHandler], in order. *)
Definition Initialize (AddHandler : HandlerOwner -> string -> reply unit)
    (t : aksTarget) (serviceConfig : ServiceConfig) : list Handler * option error :=
  let postprovision :=
    {| h_owner := OfProject;
       h_event := "postprovision";
       h_run := setK8sContext t serviceConfig "postprovision" |} in
  match AddHandler OfProject "postprovision" with
  | inr err => ([postprovision], Some (Wrap "failed adding postprovision handler, " err))
  | inl _ =>
      let predeploy :=
        {| h_owner := OfService;
           h_event := "predeploy";
           h_run := setK8sContext t serviceConfig "predeploy" |} in
      match AddHandler OfService "predeploy" with
      | inr err =>
          ([postprovision; predeploy], Some (Wrap "failed adding predeploy handler, " err))
      | inl _ => ([postprovision; predeploy], None)
      end
  end.

(** ** Further notions used to state the properties *)

(** The provenance tags that end an endpoint. *)
Definition endpointTags : list string :=
  [", (Service, Type: LoadBalancer)";
   ", (Service, Type: ClusterIP)";
   ", (Ingress, Type: LoadBalancer)"].

Definition tagged (endpoint : string) : Prop :=
  exists url tag, In tag endpointTags /\ endpoint = url +:+ tag.

(** [m] leaves the environment as it is and makes only calls that
    [allowed] accepts. *)
Definition confined {A : Type} (allowed : Call -> bool) (m : M A) : Prop :=
  forall st,
    env (snd (m st)) = env st
    /\ exists made, calls (snd (m st)) = calls st ++ made /\ forallb allowed made = true.

(** The calls of the bootstrap: everything but the calls of a deploy. *)
Definition bootstrapCall (c : Call) : bool :=
  match c with
  | CallApply _
  | CallRolloutStatus _
  | CallSave _
  | CallContainerDeploy _ _ _
  | CallSetProgress _ => false
  | _ => true
  end.

(** The warning of lines 575-577. *)
Definition isMessage (c : Call) : bool :=
  match c with
  | CallMessage _ => true
  | _ => false
  end.

(** The calls that name a namespace name [namespace]: the one that
    creates it, and the one that merges a kubeconfig, whose first context
    is then in it. *)
Definition inNamespace (namespace : string) (c : Call) : bool :=
  match c with
  | CallCreateNamespace created => String.eqb created namespace
  | CallAddOrUpdateContext _ kubeConfig =>
      match kubectl.Contexts kubeConfig with
      | first :: _ => String.eqb (kubectl.kc_Namespace first) namespace
      | [] => false
      end
  | _ => true
  end.

(** The target [t] with another answer of one collaborator. *)
Definition withApply (t : aksTarget) (answer : string -> reply unit) : aksTarget :=
  {| cluster := cluster t;
     kubectl_Apply := answer;
     kubectl_CreateNamespace := kubectl_CreateNamespace t;
     kubectl_ApplyWithStdIn := kubectl_ApplyWithStdIn t;
     kubectl_ConfigUseContext := kubectl_ConfigUseContext t;
     kubectl_RolloutStatus := kubectl_RolloutStatus t;
     kubectl_NewKubeConfigManager := kubectl_NewKubeConfigManager t;
     kubectl_ParseKubeConfig := kubectl_ParseKubeConfig t;
     kubeConfigManager_AddOrUpdateContext := kubeConfigManager_AddOrUpdateContext t;
     managedClustersService_GetUserCredentials :=
       managedClustersService_GetUserCredentials t;
     resourceManager_GetTargetResource := resourceManager_GetTargetResource t;
     envManager_Save := envManager_Save t;
     containerHelper_Progress := containerHelper_Progress t |}.

Definition withRolloutStatus (t : aksTarget) (answer : string -> reply unit) : aksTarget :=
  {| cluster := cluster t;
     kubectl_Apply := kubectl_Apply t;
     kubectl_CreateNamespace := kubectl_CreateNamespace t;
     kubectl_ApplyWithStdIn := kubectl_ApplyWithStdIn t;
     kubectl_ConfigUseContext := kubectl_ConfigUseContext t;
     kubectl_RolloutStatus := answer;
     kubectl_NewKubeConfigManager := kubectl_NewKubeConfigManager t;
     kubectl_ParseKubeConfig := kubectl_ParseKubeConfig t;
     kubeConfigManager_AddOrUpdateContext := kubeConfigManager_AddOrUpdateContext t;
     managedClustersService_GetUserCredentials :=
       managedClustersService_GetUserCredentials t;
     resourceManager_GetTargetResource := resourceManager_GetTargetResource t;
     envManager_Save := envManager_Save t;
     containerHelper_Progress := containerHelper_Progress t |}.

Definition withParseKubeConfig (t : aksTarget)
    (answer : string -> reply kubectl.KubeConfig) : aksTarget :=
  {| cluster := cluster t;
     kubectl_Apply := kubectl_Apply t;
     kubectl_CreateNamespace := kubectl_CreateNamespace t;
     kubectl_ApplyWithStdIn := kubectl_ApplyWithStdIn t;
     kubectl_ConfigUseContext := kubectl_ConfigUseContext t;
     kubectl_RolloutStatus := kubectl_RolloutStatus t;
     kubectl_NewKubeConfigManager := kubectl_NewKubeConfigManager t;
     kubectl_ParseKubeConfig := answer;
     kubeConfigManager_AddOrUpdateContext := kubeConfigManager_AddOrUpdateContext t;
     managedClustersService_GetUserCredentials :=
       managedClustersService_GetUserCredentials t;
     resourceManager_GetTargetResource := resourceManager_GetTargetResource t;
     envManager_Save := envManager_Save t;
     containerHelper_Progress := containerHelper_Progress t |}.

Definition withTargetResource (t : aksTarget)
    (answer : string -> ServiceConfig -> reply TargetResource) : aksTarget :=
  {| cluster := cluster t;
     kubectl_Apply := kubectl_Apply t;
     kubectl_CreateNamespace := kubectl_CreateNamespace t;
     kubectl_ApplyWithStdIn := kubectl_ApplyWithStdIn t;
     kubectl_ConfigUseContext := kubectl_ConfigUseContext t;
     kubectl_RolloutStatus := kubectl_RolloutStatus t;
     kubectl_NewKubeConfigManager := kubectl_NewKubeConfigManager t;
     kubectl_ParseKubeConfig := kubectl_ParseKubeConfig t;
     kubeConfigManager_AddOrUpdateContext := kubeConfigManager_AddOrUpdateContext t;
     managedClustersService_GetUserCredentials :=
       managedClustersService_GetUserCredentials t;
     resourceManager_GetTargetResource := answer;
     envManager_Save := envManager_Save t;
     containerHelper_Progress := containerHelper_Progress t |}.

Definition withCredentials (t : aksTarget)
    (answer : string -> string -> string -> reply (list CredentialResult)) : aksTarget :=
  {| cluster := cluster t;
     kubectl_Apply := kubectl_Apply t;
     kubectl_CreateNamespace := kubectl_CreateNamespace t;
     kubectl_ApplyWithStdIn := kubectl_ApplyWithStdIn t;
     kubectl_ConfigUseContext := kubectl_ConfigUseContext t;
     kubectl_RolloutStatus := kubectl_RolloutStatus t;
     kubectl_NewKubeConfigManager := kubectl_NewKubeConfigManager t;
     kubectl_ParseKubeConfig := kubectl_ParseKubeConfig t;
     kubeConfigManager_AddOrUpdateContext := kubeConfigManager_AddOrUpdateContext t;
     managedClustersService_GetUserCredentials := answer;
     resourceManager_GetTargetResource := resourceManager_GetTargetResource t;
     envManager_Save := envManager_Save t;
     containerHelper_Progress := containerHelper_Progress t |}.

Definition isSave (c : Call) : bool :=
  match c with
  | CallSave _ => true
  | _ => false
  end.

(** [m] either leaves the environment as it is and does not save it, or
    stores a value for the ENDPOINT_URL property of the service and hands
    the environment that holds it to Save, as its last call and after no
    other Save. *)
Definition storesEndpointOnly {A : Type} (serviceConfig : ServiceConfig) (m : M A) : Prop :=
  forall st,
    exists made,
      calls (snd (m st)) = calls st ++ made
      /\ ((env (snd (m st)) = env st /\ saveFree made)
          \/ exists url before,
               env (snd (m st))
               = SetServiceProperty (env st) (Name serviceConfig) "ENDPOINT_URL" url
               /\ made = before ++ [CallSave (env (snd (m st)))]
               /\ saveFree before).

(** * Properties *)

(** ** The poller *)

(** Whatever the poller returns matched the name filter and was ready, and
    was shown by the cluster in some poll cycle. *)
Lemma WaitForResource_from_Ok {T : Type} (resourceFilter readyStatusFilter : T -> bool) :
  forall (cycles : list (list T)) (seen : bool) (r : T),
    kubectl.WaitForResource_from seen cycles resourceFilter readyStatusFilter = Ok r ->
    resourceFilter r = true /\ readyStatusFilter r = true
    /\ exists items, In items cycles /\ In r items.
Proof.
  induction cycles as [|items later IH]; intros seen r; simpl.
  - discriminate.
  - destruct (find readyStatusFilter (List.filter resourceFilter items)) as [x|] eqn:Hfind.
    + intros [= ->].
      destruct (find_some _ _ Hfind) as [Hin Hready].
      apply filter_In in Hin as [Hin Hmatch].
      repeat split; try assumption.
      exists items; split; [now left | assumption].
    + intros Hlater.
      destruct (IH _ _ Hlater) as (Hm & Hr & items' & Hin & Hin').
      repeat split; try assumption.
      exists items'; split; [now right | assumption].
Qed.

Lemma WaitForResource_Ok {T : Type} (resourceFilter readyStatusFilter : T -> bool)
    (cycles : list (list T)) (r : T) :
  kubectl.WaitForResource cycles resourceFilter readyStatusFilter = Ok r ->
  resourceFilter r = true /\ readyStatusFilter r = true.
Proof.
  intros Hwait. apply WaitForResource_from_Ok in Hwait as (Hmatch & Hready & _).
  now split.
Qed.

(** The poller never panics. *)
Lemma WaitForResource_from_no_panic {T : Type} (resourceFilter readyStatusFilter : T -> bool) :
  forall (cycles : list (list T)) (seen : bool) (p : panic),
    kubectl.WaitForResource_from seen cycles resourceFilter readyStatusFilter <> Panic p.
Proof.
  induction cycles as [|items later IH]; intros seen p; simpl.
  - discriminate.
  - destruct (find _ _); [discriminate | apply IH].
Qed.

(** ** Readiness *)

Lemma firstIp_empty_iff (ingress : list kubectl.LoadBalancerIngress) :
  firstIp "" ingress = "" <-> Forall (fun config => kubectl.Ip config = "") ingress.
Proof.
  induction ingress as [|config rest IH]; simpl.
  - split; [constructor | reflexivity].
  - destruct (String.eqb_spec (kubectl.Ip config) "") as [Heq|Hne]; simpl.
    + rewrite IH. split.
      * intros Hall. now constructor.
      * intros Hall. now inversion Hall.
    + split; [contradiction |].
      intros Hall. inversion Hall; contradiction.
Qed.

(** A load-balancer service that is ready has an entry with an IP. *)
Lemma serviceReady_loadBalancer (service : kubectl.Service) :
  kubectl.Type_ (kubectl.s_Spec service) = kubectl.ServiceTypeLoadBalancer ->
  serviceReady service = true ->
  Exists (fun config => kubectl.Ip config <> "")
         (kubectl.Ingress_ (kubectl.s_LoadBalancer (kubectl.s_Status service))).
Proof.
  intros Htype. unfold serviceReady. rewrite Htype, String.eqb_refl. simpl.
  generalize (kubectl.Ingress_ (kubectl.s_LoadBalancer (kubectl.s_Status service))).
  intros ingress Hready. apply negb_true_iff in Hready.
  induction ingress as [|config rest IH]; simpl in Hready.
  - discriminate.
  - destruct (String.eqb_spec (kubectl.Ip config) "") as [Heq|Hne]; simpl in Hready.
    + right. now apply IH.
    + now left.
Qed.

(** ** The loops of getServiceEndpoints *)

Lemma loadBalancerLoop_map (ingress : list kubectl.LoadBalancerIngress) :
  forall endpoints,
    loadBalancerLoop ingress endpoints = endpoints ++ List.map loadBalancerEndpoint ingress.
Proof.
  unfold loadBalancerLoop.
  induction ingress as [|resource rest IH]; intros endpoints; simpl.
  - now rewrite app_nil_r.
  - rewrite IH, <- app_assoc. reflexivity.
Qed.

(** With enough ports from [index] on, the loop pairs each remaining
    cluster IP with the port at its position. *)
Lemma clusterIpLoop_Ok (ports : list kubectl.Port) :
  forall (ips : list string) (index : nat) (endpoints : list string),
    (index + length ips <= length ports)%nat ->
    exists produced,
      clusterIpLoop ports index ips endpoints = Ok (endpoints ++ produced)
      /\ length produced = length ips
      /\ forall i ip port,
           ips !! i = Some ip -> ports !! (index + i)%nat = Some port ->
           produced !! i = Some (clusterIpEndpoint ip port).
Proof.
  induction ips as [|ip rest IH]; intros index endpoints Hlen; simpl in *.
  - exists []. rewrite app_nil_r. repeat split. intros i ip port Hi. discriminate.
  - destruct (ports !! index) as [port|] eqn:Hport.
    + destruct (IH (S index) (endpoints ++ [clusterIpEndpoint ip port])) as (produced & Hloop & Hn & Hith);
        [lia |].
      exists (clusterIpEndpoint ip port :: produced).
      rewrite Hloop, <- app_assoc. simpl.
      split; [reflexivity | split; [lia |]].
      intros [|i] ip' port' Hip Hp; simpl in *.
      * rewrite Nat.add_0_r in Hp. congruence.
      * apply Hith; [assumption |].
        rewrite <- Hp. f_equal. lia.
    + apply lookup_ge_None in Hport. lia.
Qed.

(** With too few ports the loop panics on the first position that has none. *)
Lemma clusterIpLoop_Panic (ports : list kubectl.Port) :
  forall (ips : list string) (index : nat) (endpoints : list string),
    (index <= length ports)%nat ->
    (length ports < index + length ips)%nat ->
    clusterIpLoop ports index ips endpoints
    = Panic (IndexOutOfRange (length ports) (length ports)).
Proof.
  induction ips as [|ip rest IH]; intros index endpoints Hle Hlt; simpl in *.
  - lia.
  - destruct (ports !! index) as [port|] eqn:Hport.
    + apply lookup_lt_Some in Hport. apply IH; lia.
    + apply lookup_ge_None in Hport.
      replace index with (length ports) by lia. reflexivity.
Qed.

(** ** Service endpoints *)

Lemma getServiceEndpoints_found (k : kubectl.Cluster) (serviceConfig : ServiceConfig)
    (serviceNameFilter : string) (service : kubectl.Service) :
  waitForService k serviceNameFilter = Ok service ->
  getServiceEndpoints k serviceConfig serviceNameFilter = serviceEndpointsOf service.
Proof. intros Hwait. unfold getServiceEndpoints. now rewrite Hwait. Qed.

(** C1, as amended: for a service of type LoadBalancer that
    getServiceEndpoints found ready, one endpoint is produced per entry of
    Status.LoadBalancer.Ingress, whether its IP is empty or not; the i-th
    endpoint is "http://<ip>, (Service, Type: LoadBalancer)" for the IP of
    the i-th entry, and at least one entry has a non-empty IP. *)
Theorem loadBalancer_endpoint_per_entry (k : kubectl.Cluster)
    (serviceConfig : ServiceConfig) (serviceNameFilter : string)
    (service : kubectl.Service) :
  waitForService k serviceNameFilter = Ok service ->
  kubectl.Type_ (kubectl.s_Spec service) = kubectl.ServiceTypeLoadBalancer ->
  let ingress := kubectl.Ingress_ (kubectl.s_LoadBalancer (kubectl.s_Status service)) in
  exists endpoints,
    getServiceEndpoints k serviceConfig serviceNameFilter = Ok endpoints
    /\ length endpoints = length ingress
    /\ (forall i resource,
          ingress !! i = Some resource ->
          endpoints !! i
          = Some ("http://" +:+ kubectl.Ip resource +:+ ", (Service, Type: LoadBalancer)"))
    /\ Exists (fun config => kubectl.Ip config <> "") ingress.
Proof.
  intros Hwait Htype ingress.
  exists (List.map loadBalancerEndpoint ingress).
  rewrite (getServiceEndpoints_found _ _ _ _ Hwait).
  unfold serviceEndpointsOf. rewrite Htype, String.eqb_refl.
  rewrite loadBalancerLoop_map. simpl.
  split; [reflexivity |]. split; [apply length_map |]. split.
  - intros i resource Hi. rewrite list_lookup_fmap.
    fold ingress. now rewrite Hi.
  - apply serviceReady_loadBalancer; [assumption |].
    now apply WaitForResource_Ok in Hwait.
Qed.

(** C2: the ready predicate handed to the poller by waitForDeployment
    holds exactly when Status.AvailableReplicas equals Spec.Replicas; a
    deployment with more available replicas than desired is not ready, and
    every deployment waitForDeployment returns has the two counts equal. *)
Theorem rollout_ready_iff_equal (t : aksTarget) (deploymentNameFilter : string)
    (st : State) (d : kubectl.Deployment) :
  (deploymentReady d = true
   <-> kubectl.AvailableReplicas (kubectl.d_Status d) = kubectl.Replicas (kubectl.d_Spec d))
  /\ ((kubectl.AvailableReplicas (kubectl.d_Status d)
       > kubectl.Replicas (kubectl.d_Spec d))%Z ->
      deploymentReady d = false)
  /\ (fst (waitForDeployment t deploymentNameFilter st) = Ok d ->
      kubectl.AvailableReplicas (kubectl.d_Status d) = kubectl.Replicas (kubectl.d_Spec d)).
Proof.
  assert (Hiff : deploymentReady d = true
     <-> kubectl.AvailableReplicas (kubectl.d_Status d) = kubectl.Replicas (kubectl.d_Spec d))
    by apply Z.eqb_eq.
  split; [exact Hiff |]. split.
  - intros Hgt. unfold deploymentReady. apply Z.eqb_neq. lia.
  - unfold waitForDeployment, bind, lift, invoke.
    destruct (kubectl.WaitForResource _ _ _) as [found| |] eqn:Hwait; simpl;
      try discriminate.
    destruct (kubectl_RolloutStatus t _); simpl; try discriminate.
    intros [= ->]. apply Hiff. now apply WaitForResource_Ok in Hwait.
Qed.

(** C3: for a service of type ClusterIP with n cluster IPs and at least n
    ports, getServiceEndpoints produces exactly n endpoints, the i-th being
    "http://<ClusterIPs[i]>:<Ports[i].Port>, (Service, Type: ClusterIP)". *)
Theorem clusterIp_endpoint_per_ip (k : kubectl.Cluster)
    (serviceConfig : ServiceConfig) (serviceNameFilter : string)
    (service : kubectl.Service) :
  waitForService k serviceNameFilter = Ok service ->
  kubectl.Type_ (kubectl.s_Spec service) = kubectl.ServiceTypeClusterIp ->
  let ips := kubectl.ClusterIps (kubectl.s_Spec service) in
  let ports := kubectl.Ports (kubectl.s_Spec service) in
  (length ips <= length ports)%nat ->
  exists endpoints,
    getServiceEndpoints k serviceConfig serviceNameFilter = Ok endpoints
    /\ length endpoints = length ips
    /\ forall i ip port,
         ips !! i = Some ip -> ports !! i = Some port ->
         endpoints !! i
         = Some ("http://" +:+ ip +:+ ":" +:+ fmt_d (kubectl.Port_ port)
                   +:+ ", (Service, Type: ClusterIP)").
Proof.
  intros Hwait Htype ips ports Hlen.
  rewrite (getServiceEndpoints_found _ _ _ _ Hwait).
  unfold serviceEndpointsOf. rewrite Htype. simpl.
  destruct (clusterIpLoop_Ok ports ips 0 []) as (produced & Hloop & Hn & Hith);
    [simpl; lia |].
  exists produced. fold ips ports. rewrite Hloop. simpl.
  split; [reflexivity |]. split; [assumption |].
  intros i ip port Hip Hport. now apply Hith.
Qed.

(** ** The loop of getIngressEndpoints *)

Section IngressLoop.

Variables (protocol : string) (rules : list kubectl.IngressRule) (relativePath : string).

(** When the loop completes, every entry had a rule at its position and a
    base URL that the join accepted, and contributed one endpoint. *)
Lemma ingressLoop_Ok :
  forall (lb : list kubectl.LoadBalancerIngress) (index : nat) (endpoints result : list string),
    ingressLoop protocol rules relativePath index lb endpoints = Ok result ->
    exists produced,
      result = endpoints ++ produced
      /\ length produced = length lb
      /\ forall i resource,
           lb !! i = Some resource ->
           exists rule url,
             rules !! (index + i)%nat = Some rule
             /\ url_JoinPath (ingressBaseUrl protocol rule resource) [relativePath] = inl url
             /\ produced !! i = Some (ingressEndpoint url).
Proof.
  induction lb as [|resource rest IH]; intros index endpoints result; simpl.
  - intros [= <-]. exists []. rewrite app_nil_r.
    split; [reflexivity | split; [reflexivity |]]. intros i r Hi. discriminate.
  - destruct (rules !! index) as [rule|] eqn:Hrule; [| discriminate].
    destruct (url_JoinPath _ _) as [url|err] eqn:Hjoin; [| discriminate].
    intros Hloop. apply IH in Hloop as (produced & -> & Hn & Hith).
    exists (ingressEndpoint url :: produced). rewrite <- app_assoc. simpl.
    split; [reflexivity | split; [lia |]].
    intros [|i] r Hi; simpl in *.
    + injection Hi as <-. exists rule, url. rewrite Nat.add_0_r. now repeat split.
    + destruct (Hith i r Hi) as (rule' & url' & Hr & Hj & Hp).
      exists rule', url'. split; [| now split].
      rewrite <- Hr. f_equal. lia.
Qed.

(** The loop completes when every entry has a rule at its position and a
    base URL that the join accepts. *)
Lemma ingressLoop_total :
  forall (lb : list kubectl.LoadBalancerIngress) (index : nat) (endpoints : list string),
    (forall i resource,
        lb !! i = Some resource ->
        exists rule url,
          rules !! (index + i)%nat = Some rule
          /\ url_JoinPath (ingressBaseUrl protocol rule resource) [relativePath] = inl url) ->
    exists result, ingressLoop protocol rules relativePath index lb endpoints = Ok result.
Proof.
  induction lb as [|resource rest IH]; intros index endpoints Hall; simpl.
  - now exists endpoints.
  - destruct (Hall 0%nat resource eq_refl) as (rule & url & Hrule & Hjoin).
    rewrite Nat.add_0_r in Hrule. rewrite Hrule, Hjoin.
    apply IH. intros i r Hi.
    destruct (Hall (S i) r Hi) as (rule' & url' & Hr & Hj).
    exists rule', url'. split; [| assumption].
    rewrite <- Hr. f_equal. lia.
Qed.

(** The only panic of the loop is the read of a rule past the last one. *)
Lemma ingressLoop_Panic :
  forall (lb : list kubectl.LoadBalancerIngress) (index : nat) (endpoints : list string)
         (p : panic),
    (index <= length rules)%nat ->
    ingressLoop protocol rules relativePath index lb endpoints = Panic p ->
    (length rules < index + length lb)%nat
    /\ p = IndexOutOfRange (length rules) (length rules).
Proof.
  induction lb as [|resource rest IH]; intros index endpoints p Hle; simpl.
  - discriminate.
  - destruct (rules !! index) as [rule|] eqn:Hrule.
    + apply lookup_lt_Some in Hrule.
      destruct (url_JoinPath _ _) as [url|err]; [| discriminate].
      intros Hloop. apply IH in Hloop as [Hlt ->]; [| lia].
      split; [lia | reflexivity].
    + apply lookup_ge_None in Hrule. intros [= <-].
      replace index with (length rules) by lia.
      split; [lia | reflexivity].
Qed.

(** With fewer rules than entries, and joins that all succeed, the loop
    reaches the read past the last rule. *)
Lemma ingressLoop_reaches_Panic :
  (forall base, exists url, url_JoinPath base [relativePath] = inl url) ->
  forall (lb : list kubectl.LoadBalancerIngress) (index : nat) (endpoints : list string),
    (index <= length rules)%nat ->
    (length rules < index + length lb)%nat ->
    ingressLoop protocol rules relativePath index lb endpoints
    = Panic (IndexOutOfRange (length rules) (length rules)).
Proof.
  intros Hjoin.
  induction lb as [|resource rest IH]; intros index endpoints Hle Hlt; simpl in *.
  - lia.
  - destruct (rules !! index) as [rule|] eqn:Hrule.
    + apply lookup_lt_Some in Hrule.
      destruct (Hjoin (ingressBaseUrl protocol rule resource)) as [url ->].
      apply IH; lia.
    + apply lookup_ge_None in Hrule.
      replace index with (length rules) by lia. reflexivity.
Qed.

End IngressLoop.

Lemma getIngressEndpoints_found (k : kubectl.Cluster) (serviceConfig : ServiceConfig)
    (resourceFilter : string) (ingress : kubectl.Ingress) :
  waitForIngress k resourceFilter = Ok ingress ->
  getIngressEndpoints k serviceConfig resourceFilter
  = ingressEndpointsOf serviceConfig ingress.
Proof. intros Hwait. unfold getIngressEndpoints. now rewrite Hwait. Qed.

(** C4: the protocol chosen for an ingress is "https" exactly when
    Spec.Tls is not empty and "http" otherwise, and every endpoint produced
    for the ingress is the path-join of a base URL that starts with that one
    protocol, followed by the ingress tag. *)
Theorem ingress_protocol_uniform (k : kubectl.Cluster) (serviceConfig : ServiceConfig)
    (resourceFilter : string) (ingress : kubectl.Ingress) (endpoints : list string) :
  waitForIngress k resourceFilter = Ok ingress ->
  getIngressEndpoints k serviceConfig resourceFilter = Ok endpoints ->
  let protocol := ingressProtocol ingress in
  let tls := kubectl.Tls (kubectl.i_Spec ingress) in
  (protocol = "https" <-> (0 < length tls)%nat)
  /\ (protocol = "http" <-> length tls = 0%nat)
  /\ forall i endpoint,
       endpoints !! i = Some endpoint ->
       exists address url,
         url_JoinPath (protocol +:+ "://" +:+ address)
                      [io_RelativePath (Ingress (K8s serviceConfig))] = inl url
         /\ endpoint = url +:+ ", (Ingress, Type: LoadBalancer)".
Proof.
  intros Hwait Hrun protocol tls.
  split; [| split].
  - unfold protocol, ingressProtocol. fold tls.
    destruct (length tls); simpl; split; intros Hp;
      first [discriminate | reflexivity | lia].
  - unfold protocol, ingressProtocol. fold tls.
    destruct (length tls); simpl; split; intros Hp;
      first [discriminate | reflexivity].
  - rewrite (getIngressEndpoints_found _ _ _ _ Hwait) in Hrun.
    apply ingressLoop_Ok in Hrun as (produced & -> & Hn & Hith). simpl.
    intros i endpoint Hi.
    assert (Hlt : (i < length (kubectl.Ingress_
                     (kubectl.i_LoadBalancer (kubectl.i_Status ingress))))%nat).
    { rewrite <- Hn. now apply lookup_lt_Some in Hi. }
    apply lookup_lt_is_Some in Hlt as [resource Hres].
    destruct (Hith i resource Hres) as (rule & url & Hrule & Hjoin & Hp).
    rewrite Hi in Hp. injection Hp as ->.
    unfold ingressBaseUrl in Hjoin. fold protocol in Hjoin.
    destruct (kubectl.Host rule) as [host|].
    + now exists host, url.
    + now exists (kubectl.Ip resource), url.
Qed.

(** C5: for every index i into Status.LoadBalancer.Ingress, the i-th
    endpoint is the URL path-join of a base URL and the configured relative
    path, followed by the ingress tag; the base URL is built from the host
    of Spec.Rules[i] when it has one and from the IP of the i-th entry when
    it has none. The endpoints are produced whenever every entry has its
    rule and the join accepts its base URL. With a join that gives
    "http://example.com/app" for "http://example.com" and "/app", the
    ingress without TLS whose rule names example.com and whose entry has
    the IP 1.2.3.4 yields "http://example.com/app, (Ingress, Type:
    LoadBalancer)". *)
Theorem ingress_endpoint_base (k : kubectl.Cluster) (serviceConfig : ServiceConfig)
    (resourceFilter : string) (ingress : kubectl.Ingress) :
  waitForIngress k resourceFilter = Ok ingress ->
  let lb := kubectl.Ingress_ (kubectl.i_LoadBalancer (kubectl.i_Status ingress)) in
  let rules := kubectl.Rules (kubectl.i_Spec ingress) in
  let relativePath := io_RelativePath (Ingress (K8s serviceConfig)) in
  let base (rule : kubectl.IngressRule) (resource : kubectl.LoadBalancerIngress) :=
    ingressProtocol ingress +:+ "://"
      +:+ match kubectl.Host rule with
          | Some host => host
          | None => kubectl.Ip resource
          end in
  (forall endpoints,
      getIngressEndpoints k serviceConfig resourceFilter = Ok endpoints ->
      length endpoints = length lb
      /\ forall i resource,
           lb !! i = Some resource ->
           exists rule url,
             rules !! i = Some rule
             /\ url_JoinPath (base rule resource) [relativePath] = inl url
             /\ endpoints !! i = Some (url +:+ ", (Ingress, Type: LoadBalancer)"))
  /\ ((forall i resource,
          lb !! i = Some resource ->
          exists rule url,
            rules !! i = Some rule
            /\ url_JoinPath (base rule resource) [relativePath] = inl url) ->
      exists endpoints, getIngressEndpoints k serviceConfig resourceFilter = Ok endpoints)
  /\ (url_JoinPath "http://example.com" ["/app"] = inl "http://example.com/app" ->
      getIngressEndpoints (Examples.steady [] [] [Examples.hosted]) (Examples.web "") "web"
      = Ok ["http://example.com/app, (Ingress, Type: LoadBalancer)"]).
Proof.
  intros Hwait lb rules relativePath base.
  assert (Hbase : forall rule resource,
            ingressBaseUrl (ingressProtocol ingress) rule resource = base rule resource).
  { intros rule resource. unfold ingressBaseUrl, base. now destruct (kubectl.Host rule). }
  rewrite (getIngressEndpoints_found _ _ _ _ Hwait).
  split; [| split].
  - intros endpoints Hrun.
    apply ingressLoop_Ok in Hrun as (produced & -> & Hn & Hith). simpl.
    split; [exact Hn |].
    intros i resource Hi.
    destruct (Hith i resource Hi) as (rule & url & Hrule & Hjoin & Hp).
    exists rule, url. rewrite <- Hbase. now repeat split.
  - intros Hall. apply ingressLoop_total.
    intros i resource Hi.
    destruct (Hall i resource Hi) as (rule & url & Hrule & Hjoin).
    exists rule, url. rewrite Hbase. now split.
  - intros Hjoin. cbv. cbv in Hjoin. now rewrite Hjoin.
Qed.

(** ** Endpoints *)

(** C6: a branch that reports ResourceNotFound contributes no endpoint
    and does not abort: when each branch either succeeds or reports
    ResourceNotFound, Endpoints returns the service endpoints followed by
    the ingress endpoints. Any other error of the service branch, and any
    other error of the ingress branch once the service branch has been
    tolerated, makes Endpoints return an error that wraps it. *)
Theorem Endpoints_absence_policy (k : kubectl.Cluster) (serviceConfig : ServiceConfig)
    (targetResource : TargetResource) :
  let service := getServiceEndpoints k serviceConfig (serviceName serviceConfig) in
  let ingress := getIngressEndpoints k serviceConfig (ingressName serviceConfig) in
  (forall serviceEndpoints ingressEndpoints,
      contributes service serviceEndpoints ->
      contributes ingress ingressEndpoints ->
      Endpoints k serviceConfig targetResource = Ok (serviceEndpoints ++ ingressEndpoints))
  /\ (forall err,
         service = Err err ->
         errors_Is err ErrResourceNotFound = false ->
         Endpoints k serviceConfig targetResource
         = Err (Wrap "failed retrieving service endpoints, " err))
  /\ (forall serviceEndpoints err,
         contributes service serviceEndpoints ->
         ingress = Err err ->
         errors_Is err ErrResourceNotFound = false ->
         Endpoints k serviceConfig targetResource
         = Err (Wrap "failed retrieving ingress endpoints, " err)).
Proof.
  intros service ingress. unfold Endpoints, fatal. fold service ingress.
  split; [| split].
  - intros serviceEndpoints ingressEndpoints Hs Hi.
    destruct Hs as [-> | (-> & e1 & -> & ->)];
      destruct Hi as [-> | (-> & e2 & -> & ->)]; reflexivity.
  - intros err -> ->. reflexivity.
  - intros serviceEndpoints err Hs -> ->.
    destruct Hs as [-> | (-> & e1 & -> & ->)]; reflexivity.
Qed.

(** C10: the filter that selects the ingress is the service name filter,
    K8s.Service.Name or, when that is empty, the name of the service;
    Endpoints waits for the ingress with that filter, and the configured
    K8s.Ingress.Name has no effect on the filter or on the result. *)
Theorem ingress_filter_is_service_filter (k : kubectl.Cluster)
    (serviceConfig : ServiceConfig) (targetResource : TargetResource) (name : string) :
  ingressName serviceConfig = serviceName serviceConfig
  /\ ingressName serviceConfig
     = (if String.eqb (so_Name (Service (K8s serviceConfig))) ""
        then Name serviceConfig
        else so_Name (Service (K8s serviceConfig)))
  /\ Endpoints k serviceConfig targetResource
     = match getServiceEndpoints k serviceConfig (serviceName serviceConfig) with
       | Panic p => Panic p
       | Err err =>
           if fatal err then Err (Wrap "failed retrieving service endpoints, " err)
           else match getIngressEndpoints k serviceConfig (serviceName serviceConfig) with
                | Panic p => Panic p
                | Err err =>
                    if fatal err
                    then Err (Wrap "failed retrieving ingress endpoints, " err)
                    else Ok []
                | Ok ingressEndpoints => Ok ingressEndpoints
                end
       | Ok serviceEndpoints =>
           match getIngressEndpoints k serviceConfig (serviceName serviceConfig) with
           | Panic p => Panic p
           | Err err =>
               if fatal err
               then Err (Wrap "failed retrieving ingress endpoints, " err)
               else Ok (serviceEndpoints ++ [])
           | Ok ingressEndpoints => Ok (serviceEndpoints ++ ingressEndpoints)
           end
       end
  /\ ingressName (withIngressName serviceConfig name) = ingressName serviceConfig
  /\ Endpoints k (withIngressName serviceConfig name) targetResource
     = Endpoints k serviceConfig targetResource.
Proof.
  split; [reflexivity |]. split; [reflexivity |]. split; [reflexivity |].
  split; reflexivity.
Qed.

(** ** Positional indexing *)

(** C9: the ClusterIP branch of getServiceEndpoints reads Spec.Ports at
    every index of Spec.ClusterIps, and getIngressEndpoints reads Spec.Rules
    at every index of Status.LoadBalancer.Ingress, without a length check.
    With at least as many ports as cluster IPs, and at least as many rules
    as entries, no read is out of range; the service branch panics exactly
    when the ports are fewer, the ingress branch panics only when the rules
    are fewer, and does so whenever they are and the joins before succeed.
    There are inputs of both kinds on which the read is out of range. *)
Theorem positional_indexing_unvalidated :
  (forall k serviceConfig serviceNameFilter service,
      waitForService k serviceNameFilter = Ok service ->
      kubectl.Type_ (kubectl.s_Spec service) = kubectl.ServiceTypeClusterIp ->
      let ips := kubectl.ClusterIps (kubectl.s_Spec service) in
      let ports := kubectl.Ports (kubectl.s_Spec service) in
      ((length ips <= length ports)%nat
       <-> forall p, getServiceEndpoints k serviceConfig serviceNameFilter <> Panic p)
      /\ ((length ports < length ips)%nat ->
          getServiceEndpoints k serviceConfig serviceNameFilter
          = Panic (IndexOutOfRange (length ports) (length ports))))
  /\ (forall k serviceConfig resourceFilter ingress,
         waitForIngress k resourceFilter = Ok ingress ->
         let lb := kubectl.Ingress_ (kubectl.i_LoadBalancer (kubectl.i_Status ingress)) in
         let rules := kubectl.Rules (kubectl.i_Spec ingress) in
         ((length lb <= length rules)%nat ->
          forall p, getIngressEndpoints k serviceConfig resourceFilter <> Panic p)
         /\ (forall p,
                getIngressEndpoints k serviceConfig resourceFilter = Panic p ->
                (length rules < length lb)%nat
                /\ p = IndexOutOfRange (length rules) (length rules))
         /\ ((forall base,
                 exists url,
                   url_JoinPath base [io_RelativePath (Ingress (K8s serviceConfig))]
                   = inl url) ->
             (length rules < length lb)%nat ->
             getIngressEndpoints k serviceConfig resourceFilter
             = Panic (IndexOutOfRange (length rules) (length rules))))
  /\ (let k := Examples.steady [] [Examples.shortOfPorts] [] in
      waitForService k "web" = Ok Examples.shortOfPorts
      /\ length (kubectl.Ports (kubectl.s_Spec Examples.shortOfPorts)) = 1%nat
      /\ length (kubectl.ClusterIps (kubectl.s_Spec Examples.shortOfPorts)) = 2%nat
      /\ getServiceEndpoints k (Examples.web "") "web" = Panic (IndexOutOfRange 1 1))
  /\ (let k := Examples.steady [] [] [Examples.shortOfRules] in
      waitForIngress k "web" = Ok Examples.shortOfRules
      /\ length (kubectl.Rules (kubectl.i_Spec Examples.shortOfRules)) = 0%nat
      /\ length (kubectl.Ingress_ (kubectl.i_LoadBalancer
                                     (kubectl.i_Status Examples.shortOfRules))) = 1%nat
      /\ getIngressEndpoints k (Examples.web "") "web" = Panic (IndexOutOfRange 0 0)).
Proof.
  split; [| split; [| split]].
  - intros k serviceConfig serviceNameFilter service Hwait Htype ips ports.
    rewrite (getServiceEndpoints_found _ _ _ _ Hwait).
    unfold serviceEndpointsOf. rewrite Htype. simpl. fold ips ports.
    assert (Hpanic : (length ports < length ips)%nat ->
              clusterIpLoop ports 0 ips []
              = Panic (IndexOutOfRange (length ports) (length ports))).
    { intros Hlt. apply clusterIpLoop_Panic; simpl; lia. }
    split; [split |].
    + intros Hle p.
      destruct (clusterIpLoop_Ok ports ips 0 []) as (produced & -> & _);
        [simpl; lia | discriminate].
    + intros Hno. destruct (Nat.le_gt_cases (length ips) (length ports)) as [Hle|Hlt];
        [assumption |].
      exfalso. eapply Hno. now apply Hpanic.
    + exact Hpanic.
  - intros k serviceConfig resourceFilter ingress Hwait lb rules.
    rewrite (getIngressEndpoints_found _ _ _ _ Hwait).
    unfold ingressEndpointsOf. fold lb rules.
    split; [| split].
    + intros Hle p Hrun. apply ingressLoop_Panic in Hrun as [Hlt _]; simpl in *; lia.
    + intros p Hrun. apply ingressLoop_Panic in Hrun; [| lia]. exact Hrun.
    + intros Hjoin Hlt. apply ingressLoop_reaches_Panic; [assumption | lia | simpl; lia].
  - simpl. now repeat split.
  - simpl. now repeat split.
Qed.

(** ** Deploy *)

Lemma append_cons (c : ascii) (s1 s2 : string) :
  String c s1 +:+ s2 = String c (s1 +:+ s2).
Proof. reflexivity. Qed.

Lemma append_empty_r (s : string) : s +:+ "" = s.
Proof.
  induction s as [|c s IH]; [reflexivity |]. now rewrite append_cons, IH.
Qed.

Lemma append_assoc (s1 s2 s3 : string) : (s1 +:+ s2) +:+ s3 = s1 +:+ (s2 +:+ s3).
Proof.
  induction s1 as [|c s1 IH]; [reflexivity |]. now rewrite !append_cons, IH.
Qed.

Lemma prefix_comma_eq (s : string) : String.prefix "," (String "," s) = true.
Proof. destruct s; reflexivity. Qed.

Lemma prefix_comma_ne (c : ascii) (s : string) :
  c <> ","%char -> String.prefix "," (String c s) = false.
Proof.
  intros Hne.
  change (String.prefix "," (String c s))
    with (if ascii_dec "," c then String.prefix "" s else false).
  destruct (ascii_dec "," c) as [Heq|_]; [now subst | reflexivity].
Qed.

Lemma strings_Split_from_cons (sep cur : string) (c : ascii) (s : string) :
  strings_Split_from sep 0 cur (String c s)
  = if String.prefix sep (String c s)
    then cur :: strings_Split_from sep (String.length sep - 1) "" s
    else strings_Split_from sep 0 (cur +:+ String c "") s.
Proof. reflexivity. Qed.

Lemma strings_Contains_cons (c : ascii) (s substr : string) :
  strings_Contains (String c s) substr
  = String.prefix substr (String c s) || strings_Contains s substr.
Proof. reflexivity. Qed.

(** The first piece of a split on commas is the text before the first
    comma. *)
Lemma strings_Split_comma_from (s : string) :
  forall cur,
  exists url parts,
    strings_Split_from "," 0 cur s = (cur +:+ url) :: parts
    /\ beforeFirstComma s url.
Proof.
  induction s as [|c s IH]; intros cur.
  - exists "", []. rewrite append_empty_r.
    split; [reflexivity |]. split; [reflexivity | now left].
  - rewrite strings_Split_from_cons.
    destruct (ascii_dec c ",") as [->|Hne].
    + rewrite prefix_comma_eq.
      exists "". eexists. rewrite append_empty_r.
      split; [reflexivity |]. split; [reflexivity |]. right. now exists s.
    + rewrite (prefix_comma_ne _ _ Hne).
      destruct (IH (cur +:+ String c "")) as (url & parts & Hsplit & Hno & Hshape).
      exists (String c url), parts. rewrite Hsplit, append_assoc.
      split; [reflexivity |]. split.
      * rewrite strings_Contains_cons, (prefix_comma_ne _ _ Hne). exact Hno.
      * destruct Hshape as [-> | [rest ->]]; [now left |]. right. now exists rest.
Qed.

Lemma strings_Split_comma (s : string) :
  exists url parts, strings_Split s "," = url :: parts /\ beforeFirstComma s url.
Proof. exact (strings_Split_comma_from s ""). Qed.

Lemma lookup_last {A : Type} (l : list A) (d : A) :
  l <> [] -> l !! (length l - 1)%nat = Some (List.last l d).
Proof.
  induction l as [|a l IH]; [contradiction |]. intros _.
  destruct l as [|b l]; [reflexivity |].
  specialize (IH ltac:(discriminate)). simpl in *.
  now rewrite Nat.sub_0_r in IH.
Qed.

Lemma syncProgress_run (progress : list string) :
  forall st,
    syncProgress progress st
    = (Ok tt, {| env := env st;
                 calls := calls st ++ List.map CallSetProgress progress |}).
Proof.
  induction progress as [|message rest IH]; intros st; simpl.
  - rewrite app_nil_r. now destruct st.
  - unfold bind, SetProgress, invoke. simpl. rewrite IH. simpl.
    now rewrite <- app_assoc.
Qed.

(** Without endpoints nothing is stored and nothing is saved. *)
Lemma saveEndpoint_none (t : aksTarget) (serviceConfig : ServiceConfig) (st : State) :
  saveEndpoint t serviceConfig [] st = (Ok tt, st).
Proof. reflexivity. Qed.

(** With endpoints, the text before the first comma of the last one is
    stored, and the environment that holds it is handed to Save. *)
Lemma saveEndpoint_some (t : aksTarget) (serviceConfig : ServiceConfig)
    (endpoints : list string) (st : State) :
  endpoints <> [] ->
  exists url,
    beforeFirstComma (List.last endpoints "") url
    /\ let e := SetServiceProperty (env st) (Name serviceConfig) "ENDPOINT_URL" url in
       saveEndpoint t serviceConfig endpoints st
       = (match envManager_Save t e with
          | inl _ => Ok tt
          | inr err => Err (Wrap "failed updating environment with endpoint url, " err)
          end,
          {| env := e; calls := calls st ++ [CallSave e] |}).
Proof.
  intros Hne. unfold saveEndpoint.
  destruct endpoints as [|first others] eqn:Hendpoints; [contradiction |].
  rewrite <- Hendpoints in *.
  assert (Hlt : Nat.ltb 0 (length endpoints) = true) by now subst.
  rewrite Hlt. unfold at_index at 1. rewrite (lookup_last endpoints "" Hne).
  destruct (strings_Split_comma (List.last endpoints "")) as (url & parts & Hsplit & Hurl).
  exists url. split; [exact Hurl |].
  unfold bind, ret, getEnv, setEnv, wrapped, invoke. simpl.
  rewrite Hsplit. simpl.
  destruct (envManager_Save t _) as [[]|err]; reflexivity.
Qed.

Lemma saveFree_nil : saveFree [].
Proof. intros e []. Qed.

Lemma saveFree_app (l1 l2 : list Call) : saveFree l1 -> saveFree l2 -> saveFree (l1 ++ l2).
Proof. intros H1 H2 e Hin. apply in_app_or in Hin as [Hin|Hin]; [eapply H1 | eapply H2]; eauto. Qed.

Lemma saveFree_cons (c : Call) (l : list Call) :
  (forall e, c <> CallSave e) -> saveFree l -> saveFree (c :: l).
Proof. intros Hc Hl e [Heq|Hin]; [eapply Hc | eapply Hl]; eauto. Qed.

Lemma saveFree_progress (progress : list string) :
  saveFree (List.map CallSetProgress progress).
Proof.
  intros e Hin. apply in_map_iff in Hin as (message & Heq & _). discriminate.
Qed.

(** waitForDeployment leaves the environment alone and saves nothing. *)
Lemma waitForDeployment_run (t : aksTarget) (deploymentNameFilter : string) (st : State) :
  exists made,
    snd (waitForDeployment t deploymentNameFilter st)
    = {| env := env st; calls := calls st ++ made |}
    /\ saveFree made.
Proof.
  unfold waitForDeployment, bind, lift, invoke, ret.
  destruct (kubectl.WaitForResource _ _ _) as [deployment|err|p]; simpl.
  - exists [CallRolloutStatus (kubectl.Name (kubectl.d_Metadata deployment))].
    split; [now destruct (kubectl_RolloutStatus t _) |].
    apply saveFree_cons; [discriminate | apply saveFree_nil].
  - exists []. rewrite app_nil_r. split; [now destruct st | apply saveFree_nil].
  - exists []. rewrite app_nil_r. split; [now destruct st | apply saveFree_nil].
Qed.

(** A deploy that reaches the resolution of endpoints has saved nothing so
    far and has left the environment as it was; what remains is the
    storing of the endpoint and the result. *)
Lemma Deploy_reaches (t : aksTarget) (serviceConfig : ServiceConfig)
    (package : ServicePackageResult) (targetResource : TargetResource)
    (st : State) (endpoints : list string) :
  reachesEndpoints t serviceConfig targetResource ->
  Endpoints (cluster t) serviceConfig targetResource = Ok endpoints ->
  exists before deployment,
    saveFree before
    /\ Deploy t serviceConfig (Some package) targetResource st
       = match saveEndpoint t serviceConfig endpoints
                 {| env := env st; calls := calls st ++ before |} with
         | (Ok _, st') =>
             (Ok {| Package := package;
                    TargetResourceId :=
                      KubernetesServiceRID (SubscriptionId targetResource)
                                           (ResourceGroupName targetResource)
                                           (ResourceName targetResource);
                    Kind := AksTarget;
                    Details := deployment;
                    Endpoints_ := endpoints |}, st')
         | (Err err, st') => (Err err, st')
         | (Panic p, st') => (Panic p, st')
         end.
Proof.
  intros (Hvalid & Happly & Hfound) Hendpoints.
  unfold Deploy. rewrite Hvalid.
  unfold bind at 1. unfold invoke at 1. simpl.
  unfold bind at 1. rewrite syncProgress_run. simpl.
  unfold bind at 1. unfold getEnv at 1. simpl.
  unfold bind at 1. unfold invoke at 1. simpl.
  unfold bind at 1. unfold SetProgress at 1, invoke at 1. simpl.
  unfold bind at 1. unfold wrapped at 1, invoke at 1. rewrite Happly. simpl.
  unfold bind at 1. unfold SetProgress at 1, invoke at 1. simpl.
  unfold bind at 1. unfold attempt at 1.
  match goal with
  | |- context [waitForDeployment t ?f ?s] =>
      specialize (Hfound s);
      destruct (waitForDeployment_run t f s) as (made & Hst & Hmade);
      destruct (waitForDeployment t f s) as [found st1]
  end.
  simpl in Hfound, Hst. subst st1. simpl in Hmade.
  repeat rewrite <- app_assoc. simpl.
  destruct found as [deployment|err|p]; [| | contradiction].
  - exists ([CallContainerDeploy serviceConfig package targetResource]
            ++ List.map CallSetProgress (containerHelper_Progress t)
            ++ [CallSetEnv (Dotenv (env st)); CallSetProgress "Applying k8s manifests";
                CallApply (manifestsPath serviceConfig);
                CallSetProgress "Verifying deployment"]
            ++ made ++ [CallSetProgress "Fetching endpoints for AKS service"]),
      (Some deployment).
    split.
    + repeat first [ apply saveFree_app | apply saveFree_progress
                   | apply saveFree_cons; [discriminate |] | apply saveFree_nil
                   | assumption ].
    + unfold bind, ret, SetProgress, invoke, lift. simpl.
      rewrite Hendpoints. repeat rewrite <- app_assoc. simpl.
      repeat rewrite <- app_assoc. simpl.
      now destruct (saveEndpoint _ _ _ _) as [[| |] ?].
  - exists ([CallContainerDeploy serviceConfig package targetResource]
            ++ List.map CallSetProgress (containerHelper_Progress t)
            ++ [CallSetEnv (Dotenv (env st)); CallSetProgress "Applying k8s manifests";
                CallApply (manifestsPath serviceConfig);
                CallSetProgress "Verifying deployment"]
            ++ made ++ [CallSetProgress "Fetching endpoints for AKS service"]),
      None.
    split.
    + repeat first [ apply saveFree_app | apply saveFree_progress
                   | apply saveFree_cons; [discriminate |] | apply saveFree_nil
                   | assumption ].
    + unfold bind, ret, fail, SetProgress, invoke, lift. simpl. rewrite Hfound. simpl.
      rewrite Hendpoints. repeat rewrite <- app_assoc. simpl.
      repeat rewrite <- app_assoc. simpl.
      now destruct (saveEndpoint _ _ _ _) as [[| |] ?].
Qed.

(** C7: in a deploy that reaches the resolution of endpoints and gets a
    non-empty list, the text of the last endpoint before its first comma is
    stored as the ENDPOINT_URL property of the service, and the environment
    that holds it is handed to Save, once and as the last call; the deploy
    succeeds or fails as Save does. With an empty list the environment is
    left as it was, Save is not called, and the deploy succeeds. *)
Theorem Deploy_stores_last_endpoint (t : aksTarget) (serviceConfig : ServiceConfig)
    (package : ServicePackageResult) (targetResource : TargetResource)
    (st : State) (endpoints : list string) :
  reachesEndpoints t serviceConfig targetResource ->
  Endpoints (cluster t) serviceConfig targetResource = Ok endpoints ->
  let run := Deploy t serviceConfig (Some package) targetResource st in
  exists made,
    calls (snd run) = calls st ++ made
    /\ (endpoints <> [] ->
        exists url before,
          beforeFirstComma (List.last endpoints "") url
          /\ env (snd run)
             = SetServiceProperty (env st) (Name serviceConfig) "ENDPOINT_URL" url
          /\ made = before ++ [CallSave (env (snd run))]
          /\ saveFree before
          /\ (envManager_Save t (env (snd run)) = inl tt ->
              exists result, fst run = Ok result /\ Endpoints_ result = endpoints)
          /\ (forall err,
                 envManager_Save t (env (snd run)) = inr err ->
                 fst run
                 = Err (Wrap "failed updating environment with endpoint url, " err)))
    /\ (endpoints = [] ->
        env (snd run) = env st
        /\ saveFree made
        /\ exists result, fst run = Ok result /\ Endpoints_ result = []).
Proof.
  intros Hreach Hendpoints run.
  destruct (Deploy_reaches t serviceConfig package targetResource st endpoints
              Hreach Hendpoints) as (before & deployment & Hbefore & Hrun).
  destruct endpoints as [|first others].
  - exists before. unfold run. rewrite Hrun, saveEndpoint_none. simpl.
    split; [reflexivity |]. split; [intros Hne; now contradiction Hne |].
    intros _. split; [reflexivity |]. split; [assumption |].
    eexists. split; reflexivity.
  - destruct (saveEndpoint_some t serviceConfig (first :: others)
                {| env := env st; calls := calls st ++ before |})
      as (url & Hurl & Hsave); [discriminate |].
    simpl in Hsave.
    exists (before ++ [CallSave (SetServiceProperty (env st) (Name serviceConfig)
                                                  "ENDPOINT_URL" url)]).
    unfold run. rewrite Hrun, Hsave.
    destruct (envManager_Save t _) as [[]|err] eqn:Hanswer; simpl.
    + split; [now rewrite app_assoc |]. split; [| discriminate].
      intros _. exists url, before.
      split; [assumption |]. split; [reflexivity |]. split; [reflexivity |].
      split; [assumption |]. split.
      * intros _. eexists. split; reflexivity.
      * intros err Herr. rewrite Hanswer in Herr. discriminate.
    + split; [now rewrite app_assoc |]. split; [| discriminate].
      intros _. exists url, before.
      split; [assumption |]. split; [reflexivity |]. split; [reflexivity |].
      split; [assumption |]. split.
      * intros Hok. rewrite Hanswer in Hok. discriminate.
      * intros err' Herr. rewrite Hanswer in Herr. now injection Herr as ->.
Qed.

(** ** Bootstrap *)

(** With the override set, ensureClusterContext returns it and calls no
    collaborator, whatever else the environment holds. *)
Lemma ensureClusterContext_override (t : aksTarget) (serviceConfig : ServiceConfig)
    (targetResource : TargetResource) (defaultNamespace : string) (st : State) :
  Getenv (env st) KubeConfigEnvVarName <> "" ->
  ensureClusterContext t serviceConfig targetResource defaultNamespace st
  = (Ok (Getenv (env st) KubeConfigEnvVarName), st).
Proof.
  intros Hset. unfold ensureClusterContext, bind, getEnv, ret. simpl.
  destruct (String.eqb_spec (Getenv (env st) KubeConfigEnvVarName) "");
    [contradiction | reflexivity].
Qed.

(** Without the override and without the cluster name, it fails before
    calling any collaborator. *)
Lemma ensureClusterContext_no_cluster (t : aksTarget) (serviceConfig : ServiceConfig)
    (targetResource : TargetResource) (defaultNamespace : string) (st : State) :
  Getenv (env st) KubeConfigEnvVarName = "" ->
  snd (LookupEnv (env st) AksClusterEnvVarName) = false ->
  ensureClusterContext t serviceConfig targetResource defaultNamespace st
  = (Err errNoCluster, st).
Proof.
  intros Hunset Hmissing. unfold ensureClusterContext, bind, getEnv, fail. simpl.
  rewrite Hunset. simpl.
  destruct (LookupEnv (env st) AksClusterEnvVarName) as [clusterName has].
  simpl in Hmissing. now subst has.
Qed.

(** C8: when the kubeconfig override is set, ensureClusterContext returns
    it without calling any collaborator and without looking up the cluster
    name, and a bootstrap run fetches no credentials and parses, merges and
    activates no context. When the target resource is resolved, the run
    then performs the namespace-ensure step: its next call renders the
    namespace of the service with CreateNamespace, and the rendered output
    is handed to ApplyWithStdIn; the run fails with the wrapped error of the
    step that fails, and succeeds otherwise, after the warning for
    "predeploy". When the target resource is not resolved, the run returns
    the error of the resource manager and ensures no namespace. When the
    override is absent and the cluster name is missing, ensureClusterContext
    fails with the error that names the output to provide; the bootstrap
    fails, with that error when the target resource is resolved and with
    the error of the resource manager otherwise, and ensures no namespace. *)
Theorem bootstrap_override_and_missing_cluster (t : aksTarget)
    (serviceConfig : ServiceConfig) (eventName : string)
    (targetResource : TargetResource) (defaultNamespace : string) (st : State) :
  let kubeConfigPath := Getenv (env st) KubeConfigEnvVarName in
  let subscriptionId := GetSubscriptionId (env st) in
  let namespace := getK8sNamespace serviceConfig in
  let run := setK8sContext t serviceConfig eventName st in
  let after (made : list Call) := {| env := env st; calls := calls st ++ made |} in
  (kubeConfigPath <> "" ->
   let start := [CallSetEnv (Dotenv (env st));
                 CallSetKubeConfig kubeConfigPath;
                 CallGetTargetResource subscriptionId serviceConfig] in
   ensureClusterContext t serviceConfig targetResource defaultNamespace st
   = (Ok kubeConfigPath, st)
   /\ (exists made,
         calls (snd run) = calls st ++ made
         /\ Forall (fun c => isContextCall c = false) made)
   /\ match resourceManager_GetTargetResource t subscriptionId serviceConfig with
      | inr err => run = (Err err, after start)
      | inl _ =>
          match kubectl_CreateNamespace t namespace with
          | inr err =>
              run = (Err (Wrap "failed creating kube namespace: " err),
                     after (start ++ [CallCreateNamespace namespace]))
          | inl namespaceResult =>
              let ensured :=
                start ++ [CallCreateNamespace namespace;
                          CallApplyWithStdIn namespaceResult] in
              match kubectl_ApplyWithStdIn t namespaceResult with
              | inr err =>
                  run = (Err (Wrap "failed applying kube namespace: " err), after ensured)
              | inl _ =>
                  run = (Ok tt,
                         after (ensured
                                  ++ if String.eqb eventName "predeploy"
                                     then [CallMessage
                                             ("Using KUBECONFIG @ " +:+ kubeConfigPath
                                                +:+ String (ascii_of_nat 10) EmptyString)]
                                     else []))
              end
          end
      end)
  /\ (kubeConfigPath = "" ->
      snd (LookupEnv (env st) AksClusterEnvVarName) = false ->
      ensureClusterContext t serviceConfig targetResource defaultNamespace st
      = (Err errNoCluster, st)
      /\ run = (match resourceManager_GetTargetResource t subscriptionId serviceConfig with
                | inr err => Err err
                | inl _ => Err errNoCluster
                end,
                after [CallSetEnv (Dotenv (env st));
                       CallGetTargetResource subscriptionId serviceConfig])).
Proof.
  intros kubeConfigPath subscriptionId namespace run after. split.
  - intros Hset start.
    split; [now apply ensureClusterContext_override |].
    unfold run, after, start, setK8sContext, bind, getEnv, invoke, ret. simpl.
    fold kubeConfigPath subscriptionId namespace.
    destruct (String.eqb_spec kubeConfigPath "") as [|_]; [contradiction |]. simpl.
    destruct (resourceManager_GetTargetResource t subscriptionId serviceConfig)
      as [resolved|err]; simpl.
    + rewrite ensureClusterContext_override by (simpl; exact Hset).
      unfold ensureNamespace, bind, wrapped, invoke, ret. simpl.
      destruct (kubectl_CreateNamespace t namespace) as [namespaceResult|err]; simpl;
        [destruct (kubectl_ApplyWithStdIn t namespaceResult) as [[]|err]; simpl;
         [destruct (String.eqb eventName "predeploy"); simpl |] |];
        (split;
         [eexists; split; [repeat rewrite <- app_assoc; reflexivity | repeat constructor]
         | repeat rewrite <- app_assoc; reflexivity]).
    + split; [| repeat rewrite <- app_assoc; reflexivity].
      eexists. split; [repeat rewrite <- app_assoc; reflexivity | repeat constructor].
  - intros Hunset Hmissing.
    split; [now apply ensureClusterContext_no_cluster |].
    unfold run, after, setK8sContext, bind, getEnv, invoke, ret. simpl.
    fold kubeConfigPath subscriptionId. rewrite Hunset. simpl.
    destruct (resourceManager_GetTargetResource t subscriptionId serviceConfig)
      as [resolved|err]; simpl.
    + rewrite ensureClusterContext_no_cluster by (simpl; assumption).
      now repeat rewrite <- app_assoc.
    + now repeat rewrite <- app_assoc.
Qed.

(** * Further properties of the target *)

(** ** Readiness and matching *)

Lemma anyIp_iff (ingress : list kubectl.LoadBalancerIngress) :
  anyIp ingress = true <-> Exists (fun config => kubectl.Ip config <> "") ingress.
Proof.
  induction ingress as [|config rest IH]; simpl.
  - split; [discriminate | intros Hex; inversion Hex].
  - destruct (String.eqb_spec (kubectl.Ip config) "") as [Heq|Hne]; simpl.
    + rewrite IH. split; [now right |].
      intros Hex. inversion Hex as [? ? Hhead|? ? Htail]; [congruence | assumption].
    + split; [now left | reflexivity].
Qed.

Lemma firstIp_anyIp (ingress : list kubectl.LoadBalancerIngress) :
  negb (String.eqb (firstIp "" ingress) "") = anyIp ingress.
Proof.
  induction ingress as [|config rest IH]; simpl; [reflexivity |].
  destruct (String.eqb_spec (kubectl.Ip config) "") as [Heq|Hne]; simpl; [exact IH |].
  now destruct (String.eqb_spec (kubectl.Ip config) "").
Qed.

(** X1: a service is ready exactly when it is not a load balancer, or
    when some entry of Status.LoadBalancer.Ingress has a non-empty IP. *)
Theorem serviceReady_iff (service : kubectl.Service) :
  serviceReady service = true
  <-> kubectl.Type_ (kubectl.s_Spec service) <> kubectl.ServiceTypeLoadBalancer
      \/ Exists (fun config => kubectl.Ip config <> "")
                (kubectl.Ingress_ (kubectl.s_LoadBalancer (kubectl.s_Status service))).
Proof.
  unfold serviceReady. rewrite firstIp_anyIp, <- anyIp_iff.
  destruct (String.eqb_spec (kubectl.Type_ (kubectl.s_Spec service))
                            kubectl.ServiceTypeLoadBalancer) as [Heq|Hne]; simpl.
  - split; [now right |]. intros [Hne|Hany]; [contradiction | assumption].
  - split; [now left | reflexivity].
Qed.

(** X2: an ingress is ready exactly when some entry of
    Status.LoadBalancer.Ingress has a non-empty IP, whatever its rules and
    TLS entries are. *)
Theorem ingressReady_iff (ingress : kubectl.Ingress) :
  ingressReady ingress = true
  <-> Exists (fun config => kubectl.Ip config <> "")
             (kubectl.Ingress_ (kubectl.i_LoadBalancer (kubectl.i_Status ingress))).
Proof. apply anyIp_iff. Qed.

Lemma prefix_empty (s : string) : String.prefix "" s = true.
Proof. now destruct s. Qed.

Lemma prefix_cons (a b : ascii) (s1 s2 : string) :
  String.prefix (String a s1) (String b s2)
  = if ascii_dec a b then String.prefix s1 s2 else false.
Proof. reflexivity. Qed.

Lemma prefix_iff (s1 : string) :
  forall s2, String.prefix s1 s2 = true <-> exists rest, s2 = s1 +:+ rest.
Proof.
  induction s1 as [|a s1 IH]; intros s2.
  - rewrite prefix_empty. split; [intros _; now exists s2 | reflexivity].
  - destruct s2 as [|b s2].
    + split; [discriminate | intros [rest Heq]; discriminate].
    + rewrite prefix_cons. destruct (ascii_dec a b) as [<-|Hne].
      * rewrite IH. split; intros [rest Heq]; exists rest.
        -- now rewrite append_cons, Heq.
        -- rewrite append_cons in Heq. now injection Heq.
      * split; [discriminate |]. intros [rest Heq].
        rewrite append_cons in Heq. injection Heq as Hab _. congruence.
Qed.

Lemma strings_Contains_iff (s substr : string) :
  strings_Contains s substr = true
  <-> exists before rest, s = before +:+ substr +:+ rest.
Proof.
  revert substr. intros filter. induction s as [|c name IH].
  - change (strings_Contains "" filter) with (String.prefix filter "" || false).
    rewrite orb_false_r, prefix_iff. split.
    + intros [rest Heq]. now exists "", rest.
    + intros (before & rest & Heq). destruct before as [|b before]; [| discriminate].
      now exists rest.
  - rewrite strings_Contains_cons. split.
    + intros Hc. apply orb_true_iff in Hc as [Hp|Hc].
      * apply prefix_iff in Hp as [rest Heq]. now exists "", rest.
      * apply IH in Hc as (before & rest & ->). now exists (String c before), rest.
    + intros (before & rest & Heq). apply orb_true_iff.
      destruct before as [|b before].
      * left. apply prefix_iff. now exists rest.
      * right. apply IH. rewrite append_cons in Heq. injection Heq as _ Heq.
        now exists before, rest.
Qed.

(** X3: the match predicate of the three waits selects the resources
    whose name has the filter as a substring; in particular the empty
    filter selects every resource. *)
Theorem nameFilter_substring (name filter : string) :
  (nameFilter name filter = true
   <-> exists before rest, name = before +:+ filter +:+ rest)
  /\ nameFilter name "" = true.
Proof.
  split; [apply strings_Contains_iff |].
  apply strings_Contains_iff. now exists "", name.
Qed.

(** ** Endpoints *)

(** X4: when the join fails for an entry of the load balancer, no
    endpoint is returned at all, not even those already built for the
    entries before it: the result is the error of the join, wrapped. *)
Theorem getIngressEndpoints_join_failure (k : kubectl.Cluster)
    (serviceConfig : ServiceConfig) (resourceFilter : string)
    (ingress : kubectl.Ingress) (j : nat) (rule : kubectl.IngressRule)
    (resource : kubectl.LoadBalancerIngress) (err : error) :
  waitForIngress k resourceFilter = Ok ingress ->
  let lb := kubectl.Ingress_ (kubectl.i_LoadBalancer (kubectl.i_Status ingress)) in
  let rules := kubectl.Rules (kubectl.i_Spec ingress) in
  let relativePath := io_RelativePath (Ingress (K8s serviceConfig)) in
  let join r e := url_JoinPath (ingressBaseUrl (ingressProtocol ingress) r e) [relativePath] in
  lb !! j = Some resource ->
  rules !! j = Some rule ->
  join rule resource = inr err ->
  (forall i e, (i < j)%nat -> lb !! i = Some e ->
               exists r url, rules !! i = Some r /\ join r e = inl url) ->
  getIngressEndpoints k serviceConfig resourceFilter
  = Err (Wrap "failed constructing service endpoints, " err).
Proof.
  intros Hwait lb rules relativePath join Hres Hrule Hjoin Hbefore.
  rewrite (getIngressEndpoints_found _ _ _ _ Hwait).
  unfold ingressEndpointsOf. fold lb rules relativePath.
  assert (Hloop : forall l index endpoints,
             l !! j = Some resource ->
             rules !! (index + j)%nat = Some rule ->
             (forall i e, (i < j)%nat -> l !! i = Some e ->
                          exists r url, rules !! (index + i)%nat = Some r
                                        /\ join r e = inl url) ->
             ingressLoop (ingressProtocol ingress) rules relativePath index l endpoints
             = Err (Wrap "failed constructing service endpoints, " err)).
  { clear Hres Hrule Hbefore. revert Hjoin. generalize j. clear j.
    intros j Hjoin. induction j as [|j IH]; intros l index endpoints Hl Hr Hb.
    - destruct l as [|e l]; [discriminate |]. simpl in Hl. injection Hl as ->.
      simpl. rewrite Nat.add_0_r in Hr. rewrite Hr.
      unfold join in Hjoin. now rewrite Hjoin.
    - destruct l as [|e l]; [discriminate |]. simpl in Hl. simpl.
      destruct (Hb 0%nat e) as (r & url & Hr0 & Hj0); [lia | reflexivity |].
      rewrite Nat.add_0_r in Hr0. rewrite Hr0. unfold join in Hj0. rewrite Hj0.
      apply IH; [assumption | |].
      + rewrite <- Hr. f_equal. lia.
      + intros i e' Hi He'. destruct (Hb (S i) e') as (r' & url' & Hr' & Hj');
          [lia | assumption |].
        exists r', url'. split; [| assumption]. rewrite <- Hr'. f_equal. lia. }
  apply Hloop; assumption.
Qed.

Lemma loadBalancerEndpoint_tagged (resource : kubectl.LoadBalancerIngress) :
  tagged (loadBalancerEndpoint resource).
Proof.
  exists ("http://" +:+ kubectl.Ip resource), ", (Service, Type: LoadBalancer)".
  split; [now left |]. unfold loadBalancerEndpoint. now rewrite append_assoc.
Qed.

Lemma clusterIpEndpoint_tagged (ip : string) (port : kubectl.Port) :
  tagged (clusterIpEndpoint ip port).
Proof.
  exists ("http://" +:+ ip +:+ ":" +:+ fmt_d (kubectl.Port_ port)),
         ", (Service, Type: ClusterIP)".
  split; [right; now left |]. unfold clusterIpEndpoint. now rewrite !append_assoc.
Qed.

Lemma ingressEndpoint_tagged (endpointUrl : string) : tagged (ingressEndpoint endpointUrl).
Proof.
  exists endpointUrl, ", (Ingress, Type: LoadBalancer)".
  split; [right; right; now left | reflexivity].
Qed.

Lemma clusterIpLoop_tagged (ports : list kubectl.Port) :
  forall (ips : list string) (index : nat) (endpoints result : list string),
    clusterIpLoop ports index ips endpoints = Ok result ->
    Forall tagged endpoints -> Forall tagged result.
Proof.
  induction ips as [|ip rest IH]; intros index endpoints result; simpl.
  - now intros [= <-].
  - destruct (ports !! index) as [port|]; [| discriminate].
    intros Hloop Hall. eapply IH; [exact Hloop |].
    apply Forall_app; split; [assumption |].
    constructor; [apply clusterIpEndpoint_tagged | constructor].
Qed.

Lemma ingressLoop_tagged (protocol : string) (rules : list kubectl.IngressRule)
    (relativePath : string) :
  forall (lb : list kubectl.LoadBalancerIngress) (index : nat)
         (endpoints result : list string),
    ingressLoop protocol rules relativePath index lb endpoints = Ok result ->
    Forall tagged endpoints -> Forall tagged result.
Proof.
  induction lb as [|resource rest IH]; intros index endpoints result; simpl.
  - now intros [= <-].
  - destruct (rules !! index) as [rule|]; [| discriminate].
    destruct (url_JoinPath _ _) as [url|err]; [| discriminate].
    intros Hloop Hall. eapply IH; [exact Hloop |].
    apply Forall_app; split; [assumption |].
    constructor; [apply ingressEndpoint_tagged | constructor].
Qed.

Lemma getServiceEndpoints_tagged (k : kubectl.Cluster) (serviceConfig : ServiceConfig)
    (serviceNameFilter : string) (endpoints : list string) :
  getServiceEndpoints k serviceConfig serviceNameFilter = Ok endpoints ->
  Forall tagged endpoints.
Proof.
  unfold getServiceEndpoints.
  destruct (waitForService k serviceNameFilter) as [service|err|p]; try discriminate.
  unfold serviceEndpointsOf.
  destruct (String.eqb _ kubectl.ServiceTypeLoadBalancer).
  - intros [= <-]. rewrite loadBalancerLoop_map. simpl.
    apply List.Forall_forall. intros endpoint Hin.
    apply in_map_iff in Hin as (resource & <- & _). apply loadBalancerEndpoint_tagged.
  - destruct (String.eqb _ kubectl.ServiceTypeClusterIp).
    + intros Hloop. eapply clusterIpLoop_tagged; [exact Hloop | constructor].
    + intros [= <-]. constructor.
Qed.

Lemma getIngressEndpoints_tagged (k : kubectl.Cluster) (serviceConfig : ServiceConfig)
    (resourceFilter : string) (endpoints : list string) :
  getIngressEndpoints k serviceConfig resourceFilter = Ok endpoints ->
  Forall tagged endpoints.
Proof.
  unfold getIngressEndpoints.
  destruct (waitForIngress k resourceFilter) as [ingress|err|p]; try discriminate.
  intros Hloop. eapply ingressLoop_tagged; [exact Hloop | constructor].
Qed.

(** The two branches behind a successful Endpoints. *)
Lemma Endpoints_Ok_inv (k : kubectl.Cluster) (serviceConfig : ServiceConfig)
    (targetResource : TargetResource) (endpoints : list string) :
  Endpoints k serviceConfig targetResource = Ok endpoints ->
  exists serviceEndpoints ingressEndpoints,
    endpoints = serviceEndpoints ++ ingressEndpoints
    /\ contributes (getServiceEndpoints k serviceConfig (serviceName serviceConfig))
                   serviceEndpoints
    /\ contributes (getIngressEndpoints k serviceConfig (ingressName serviceConfig))
                   ingressEndpoints.
Proof.
  unfold Endpoints, contributes, fatal.
  destruct (getServiceEndpoints _ _ _) as [l1|e1|p1]; [| | discriminate];
    [| destruct (errors_Is e1 ErrResourceNotFound) eqn:H1; simpl; [| discriminate]];
    (destruct (getIngressEndpoints _ _ _) as [l2|e2|p2]; [| | discriminate];
     [| destruct (errors_Is e2 ErrResourceNotFound) eqn:H2; simpl; [| discriminate]]);
    intros [= <-].
  - exists l1, l2. split; [reflexivity |]. split; now left.
  - exists l1, []. split; [reflexivity |]. split; [now left |].
    right. split; [reflexivity |]. now exists e2.
  - exists [], l2. split; [reflexivity |]. split; [| now left].
    right. split; [reflexivity |]. now exists e1.
  - exists [], []. split; [reflexivity |].
    split; right; (split; [reflexivity |]); [now exists e1 | now exists e2].
Qed.

Lemma Endpoints_all_tagged (k : kubectl.Cluster) (serviceConfig : ServiceConfig)
    (targetResource : TargetResource) (endpoints : list string) :
  Endpoints k serviceConfig targetResource = Ok endpoints ->
  Forall (fun endpoint => tagged endpoint /\ strings_Contains endpoint "," = true)
         endpoints.
Proof.
  intros Hrun.
  apply Endpoints_Ok_inv in Hrun as (l1 & l2 & -> & Hs & Hi).
  assert (Hall : Forall tagged (l1 ++ l2)).
  { apply Forall_app. split.
    - destruct Hs as [Hs | (-> & _)]; [| constructor].
      now apply getServiceEndpoints_tagged in Hs.
    - destruct Hi as [Hi | (-> & _)]; [| constructor].
      now apply getIngressEndpoints_tagged in Hi. }
  eapply List.Forall_impl; [| exact Hall]. simpl.
  intros endpoint Htag. split; [exact Htag |].
  destruct Htag as (url & tag & Hin & ->).
  apply strings_Contains_iff.
  destruct Hin as [<-|[<-|[<-|[]]]];
    [exists url, " (Service, Type: LoadBalancer)"
    |exists url, " (Service, Type: ClusterIP)"
    |exists url, " (Ingress, Type: LoadBalancer)"]; reflexivity.
Qed.

(** X5: every endpoint that Endpoints returns is a URL followed by one
    of the three provenance tags, so it always contains a comma. *)
Theorem Endpoints_tagged (k : kubectl.Cluster) (serviceConfig : ServiceConfig)
    (targetResource : TargetResource) (endpoints : list string) :
  Endpoints k serviceConfig targetResource = Ok endpoints ->
  Forall (fun endpoint => tagged endpoint /\ strings_Contains endpoint "," = true)
         endpoints.
Proof. exact (Endpoints_all_tagged k serviceConfig targetResource endpoints). Qed.

(** A poll that never sees a match reports that the resource was not
    found. *)
Lemma WaitForResource_no_match {T : Type} (resourceFilter readyStatusFilter : T -> bool) :
  forall cycles : list (list T),
    Forall (Forall (fun r => resourceFilter r = false)) cycles ->
    kubectl.WaitForResource_from false cycles resourceFilter readyStatusFilter
    = Err ErrResourceNotFound.
Proof.
  induction cycles as [|items later IH]; intros Hall; simpl; [reflexivity |].
  inversion Hall as [|? ? Hitems Hlater]; subst.
  assert (Hnone : List.filter resourceFilter items = []).
  { clear -Hitems. induction items as [|r items IH]; simpl; [reflexivity |].
    inversion Hitems as [|? ? Hr Hrest]; subst. rewrite Hr. now apply IH. }
  rewrite Hnone. simpl. now apply IH.
Qed.

(** X6: when no service and no ingress with a name that contains the
    service name filter is ever seen, Endpoints succeeds with no
    endpoint. *)
Theorem Endpoints_nothing_matches (k : kubectl.Cluster) (serviceConfig : ServiceConfig)
    (targetResource : TargetResource) :
  Forall (Forall (fun service =>
            nameFilter (kubectl.Name (kubectl.s_Metadata service))
                       (serviceName serviceConfig) = false))
         (kubectl.Services k) ->
  Forall (Forall (fun ingress =>
            nameFilter (kubectl.Name (kubectl.i_Metadata ingress))
                       (serviceName serviceConfig) = false))
         (kubectl.Ingresses k) ->
  Endpoints k serviceConfig targetResource = Ok [].
Proof.
  intros Hservices Hingresses.
  unfold Endpoints, getServiceEndpoints, getIngressEndpoints,
    waitForService, waitForIngress, kubectl.WaitForResource.
  rewrite (WaitForResource_no_match _ _ _ Hservices).
  change (ingressName serviceConfig) with (serviceName serviceConfig).
  rewrite (WaitForResource_no_match _ _ _ Hingresses).
  reflexivity.
Qed.

(** ** Computations that are confined to some calls *)

Lemma confined_ret {A : Type} (allowed : Call -> bool) (a : A) : confined allowed (ret a).
Proof. intros st. split; [reflexivity |]. exists []. now rewrite app_nil_r. Qed.

Lemma confined_fail {A : Type} (allowed : Call -> bool) (err : error) :
  confined allowed (@fail A err).
Proof. intros st. split; [reflexivity |]. exists []. now rewrite app_nil_r. Qed.

Lemma confined_lift {A : Type} (allowed : Call -> bool) (r : result A) :
  confined allowed (lift r).
Proof. intros st. split; [reflexivity |]. exists []. now rewrite app_nil_r. Qed.

Lemma confined_getEnv (allowed : Call -> bool) : confined allowed getEnv.
Proof. intros st. split; [reflexivity |]. exists []. now rewrite app_nil_r. Qed.

Lemma confined_invoke {A : Type} (allowed : Call -> bool) (c : Call) (answer : reply A) :
  allowed c = true -> confined allowed (invoke c answer).
Proof.
  intros Hc st. split; [reflexivity |]. exists [c]. simpl. now rewrite Hc.
Qed.

Lemma confined_bind {A B : Type} (allowed : Call -> bool) (m : M A) (k : A -> M B) :
  confined allowed m -> (forall a, confined allowed (k a)) ->
  confined allowed (bind m k).
Proof.
  intros Hm Hk st. unfold bind.
  destruct (Hm st) as (Henv & made & Hcalls & Hall).
  destruct (m st) as [[a|err|p] st1]; simpl in *.
  - destruct (Hk a st1) as (Henv' & made' & Hcalls' & Hall').
    split; [congruence |]. exists (made ++ made').
    rewrite Hcalls', Hcalls, app_assoc. split; [reflexivity |].
    rewrite forallb_app. now rewrite Hall, Hall'.
  - split; [assumption |]. now exists made.
  - split; [assumption |]. now exists made.
Qed.

Lemma confined_attempt {A : Type} (allowed : Call -> bool) (m : M A) :
  confined allowed m -> confined allowed (attempt m).
Proof.
  intros Hm st. unfold attempt. specialize (Hm st).
  now destruct (m st) as [[a|err|p] st1].
Qed.

Lemma confined_wrapped {A : Type} (allowed : Call -> bool) (msg : string) (m : M A) :
  confined allowed m -> confined allowed (wrapped msg m).
Proof.
  intros Hm st. unfold wrapped. specialize (Hm st).
  now destruct (m st) as [[a|err|p] st1].
Qed.

Lemma confined_at_index {A : Type} (allowed : Call -> bool) (s : list A) (i : nat) :
  confined allowed (at_index s i).
Proof.
  unfold at_index. destruct (s !! i); [apply confined_ret | apply confined_lift].
Qed.

Lemma confined_weaken {A : Type} (allowed allowed' : Call -> bool) (m : M A) :
  (forall c, allowed c = true -> allowed' c = true) ->
  confined allowed m -> confined allowed' m.
Proof.
  intros Hsub Hm st. destruct (Hm st) as (Henv & made & Hcalls & Hall).
  split; [assumption |]. exists made. split; [assumption |].
  apply forallb_forall. intros c Hin. apply Hsub.
  now apply (proj1 (forallb_forall _ _) Hall).
Qed.

Ltac confine :=
  repeat first
    [ apply confined_bind; [| intro]
    | apply confined_wrapped
    | apply confined_attempt
    | apply confined_invoke; reflexivity
    | apply confined_ret
    | apply confined_fail
    | apply confined_lift
    | apply confined_getEnv
    | apply confined_at_index ].

(** The calls of the bootstrap other than the warning. *)
Lemma ensureNamespace_confined (t : aksTarget) (namespace : string) :
  confined (fun c => bootstrapCall c && negb (isMessage c)) (ensureNamespace t namespace).
Proof. unfold ensureNamespace. confine. Qed.

Lemma configureK8sContext_confined (t : aksTarget) (clusterName namespace : string)
    (credentialResult : CredentialResult) :
  confined (fun c => bootstrapCall c && negb (isMessage c))
           (configureK8sContext t clusterName namespace credentialResult).
Proof. unfold configureK8sContext, setDefaultNamespace. confine. Qed.

Lemma ensureClusterContext_confined (t : aksTarget) (serviceConfig : ServiceConfig)
    (targetResource : TargetResource) (defaultNamespace : string) :
  confined (fun c => bootstrapCall c && negb (isMessage c))
           (ensureClusterContext t serviceConfig targetResource defaultNamespace).
Proof.
  unfold ensureClusterContext. confine.
  destruct (negb _); [confine |].
  destruct (LookupEnv _ _) as [clusterName has].
  destruct (negb has); [confine |]. confine.
  destruct (Nat.eqb _ _); confine.
Qed.

(** ** Bootstrap, continued *)

Lemma quiet_bootstrapCall (c : Call) :
  bootstrapCall c && negb (isMessage c) = true -> bootstrapCall c = true.
Proof. intros Hc. now apply andb_true_iff in Hc as [Hc _]. Qed.

Lemma setK8sContext_bootstrapCalls (t : aksTarget) (serviceConfig : ServiceConfig)
    (eventName : string) :
  confined bootstrapCall (setK8sContext t serviceConfig eventName).
Proof.
  unfold setK8sContext.
  apply confined_bind; [confine | intro e].
  apply confined_bind; [confine | intro].
  apply confined_bind; [destruct (negb _); confine | intro hasCustomKubeConfig].
  apply confined_bind; [confine | intro targetResource].
  apply confined_bind; [| intro].
  { eapply confined_weaken; [apply quiet_bootstrapCall |].
    apply ensureClusterContext_confined. }
  apply confined_bind; [| intro].
  { eapply confined_weaken; [apply quiet_bootstrapCall |].
    apply ensureNamespace_confined. }
  apply confined_bind; [| intro; confine].
  destruct (_ && _); confine.
Qed.

(** X7: a bootstrap run, whatever its collaborators answer and whatever
    the event is, leaves the environment as it was and makes none of the
    calls of a deploy: it applies no manifests, asks for no rollout status,
    runs no container deploy, reports no progress and does not save the
    environment. *)
Theorem setK8sContext_confined (t : aksTarget) (serviceConfig : ServiceConfig)
    (eventName : string) (st : State) :
  let run := setK8sContext t serviceConfig eventName st in
  env (snd run) = env st
  /\ exists made,
       calls (snd run) = calls st ++ made
       /\ Forall (fun c => match c with
                           | CallApply _ | CallRolloutStatus _ | CallSave _
                           | CallContainerDeploy _ _ _ | CallSetProgress _ => False
                           | _ => True
                           end) made.
Proof.
  intros run.
  destruct (setK8sContext_bootstrapCalls t serviceConfig eventName st)
    as (Henv & made & Hcalls & Hall).
  split; [exact Henv |]. exists made. split; [exact Hcalls |].
  apply List.Forall_forall. intros c Hin.
  apply (proj1 (forallb_forall _ _) Hall) in Hin. now destruct c.
Qed.

(** What a bootstrap run does apart from the warning does not depend on
    the event. *)
Lemma setK8sContext_shape (t : aksTarget) (serviceConfig : ServiceConfig) (st : State) :
  let kubeConfigPath := Getenv (env st) KubeConfigEnvVarName in
  exists (r : result unit) (made : list Call),
    forallb (fun c => negb (isMessage c)) made = true
    /\ forall eventName,
         setK8sContext t serviceConfig eventName st
         = (r,
            {| env := env st;
               calls :=
                 calls st ++ made
                 ++ (if String.eqb eventName "predeploy"
                        && negb (String.eqb kubeConfigPath "")
                        && match r with Ok _ => true | _ => false end
                     then [CallMessage ("Using KUBECONFIG @ " +:+ kubeConfigPath
                                          +:+ String (ascii_of_nat 10) EmptyString)]
                     else []) |}).
Proof.
  intros kubeConfigPath.
  assert (Hquiet : forall c, bootstrapCall c && negb (isMessage c) = true ->
                             negb (isMessage c) = true).
  { intros c Hc. now apply andb_true_iff in Hc as [_ Hc]. }
  set (pre := (if String.eqb kubeConfigPath ""
               then [CallSetEnv (Dotenv (env st))]
               else [CallSetEnv (Dotenv (env st)); CallSetKubeConfig kubeConfigPath])
              ++ [CallGetTargetResource (GetSubscriptionId (env st)) serviceConfig]).
  assert (Hpre : forallb (fun c => negb (isMessage c)) pre = true).
  { unfold pre. now destruct (String.eqb kubeConfigPath ""). }
  (* the run up to the resolution of the target resource *)
  assert (Hstart : forall eventName,
            setK8sContext t serviceConfig eventName st
            = match resourceManager_GetTargetResource t (GetSubscriptionId (env st))
                      serviceConfig with
              | inr err => (Err err, {| env := env st; calls := calls st ++ pre |})
              | inl targetResource =>
                  bind (ensureClusterContext t serviceConfig targetResource
                          (getK8sNamespace serviceConfig))
                       (fun _ =>
                          bind (ensureNamespace t (getK8sNamespace serviceConfig))
                               (fun _ =>
                                  bind (if negb (String.eqb kubeConfigPath "")
                                           && String.eqb eventName "predeploy"
                                        then invoke
                                               (CallMessage
                                                  ("Using KUBECONFIG @ " +:+ kubeConfigPath
                                                     +:+ String (ascii_of_nat 10) EmptyString))
                                               (inl tt)
                                        else ret tt)
                                       (fun _ => ret tt)))
                       {| env := env st; calls := calls st ++ pre |}
              end).
  { intros eventName. unfold setK8sContext.
    unfold bind at 1. unfold getEnv at 1. simpl.
    unfold bind at 1. unfold invoke at 1. simpl.
    unfold bind at 1. fold kubeConfigPath. unfold pre.
    destruct (String.eqb kubeConfigPath ""); simpl.
    - unfold ret at 1. unfold bind at 1. unfold invoke at 1. simpl.
      repeat rewrite <- app_assoc. simpl.
      now destruct (resourceManager_GetTargetResource t _ serviceConfig).
    - unfold bind at 1. unfold invoke at 1. simpl. unfold ret at 1.
      unfold bind at 1. unfold invoke at 1. simpl.
      repeat rewrite <- app_assoc. simpl.
      now destruct (resourceManager_GetTargetResource t _ serviceConfig). }
  destruct (resourceManager_GetTargetResource t (GetSubscriptionId (env st)) serviceConfig)
    as [targetResource|err].
  2:{ exists (Err err), pre. split; [exact Hpre |].
      intros eventName. rewrite Hstart, andb_false_r. now rewrite app_nil_r. }
  destruct (confined_weaken _ _ _ Hquiet
              (ensureClusterContext_confined t serviceConfig targetResource
                 (getK8sNamespace serviceConfig))
              {| env := env st; calls := calls st ++ pre |})
    as (Henv1 & made1 & Hcalls1 & Hall1).
  destruct (ensureClusterContext t serviceConfig targetResource
              (getK8sNamespace serviceConfig)
              {| env := env st; calls := calls st ++ pre |})
    as [r1 [env1 calls1]] eqn:Hrun1.
  simpl in Henv1, Hcalls1. subst env1 calls1.
  assert (Hall01 : forallb (fun c => negb (isMessage c)) (pre ++ made1) = true).
  { rewrite forallb_app. now rewrite Hpre, Hall1. }
  destruct r1 as [path1|err1|p1].
  2:{ exists (Err err1), (pre ++ made1). split; [exact Hall01 |].
      intros eventName. rewrite Hstart. unfold bind at 1. rewrite Hrun1.
      rewrite andb_false_r, app_nil_r. now rewrite app_assoc. }
  2:{ exists (Panic p1), (pre ++ made1). split; [exact Hall01 |].
      intros eventName. rewrite Hstart. unfold bind at 1. rewrite Hrun1.
      rewrite andb_false_r, app_nil_r. now rewrite app_assoc. }
  destruct (confined_weaken _ _ _ Hquiet
              (ensureNamespace_confined t (getK8sNamespace serviceConfig))
              {| env := env st; calls := (calls st ++ pre) ++ made1 |})
    as (Henv2 & made2 & Hcalls2 & Hall2).
  destruct (ensureNamespace t (getK8sNamespace serviceConfig)
              {| env := env st; calls := (calls st ++ pre) ++ made1 |})
    as [r2 [env2 calls2]] eqn:Hrun2.
  simpl in Henv2, Hcalls2. subst env2 calls2.
  assert (Hall012 : forallb (fun c => negb (isMessage c)) (pre ++ made1 ++ made2) = true).
  { rewrite !forallb_app. now rewrite Hpre, Hall1, Hall2. }
  assert (Hcalls012 : ((calls st ++ pre) ++ made1) ++ made2
                      = calls st ++ pre ++ made1 ++ made2).
  { now rewrite <- !app_assoc. }
  destruct r2 as [[]|err2|p2].
  2:{ exists (Err err2), (pre ++ made1 ++ made2). split; [exact Hall012 |].
      intros eventName. rewrite Hstart. unfold bind at 1. rewrite Hrun1.
      unfold bind at 1. rewrite Hrun2.
      rewrite andb_false_r, app_nil_r. now rewrite Hcalls012. }
  2:{ exists (Panic p2), (pre ++ made1 ++ made2). split; [exact Hall012 |].
      intros eventName. rewrite Hstart. unfold bind at 1. rewrite Hrun1.
      unfold bind at 1. rewrite Hrun2.
      rewrite andb_false_r, app_nil_r. now rewrite Hcalls012. }
  exists (Ok tt), (pre ++ made1 ++ made2). split; [exact Hall012 |].
  intros eventName. rewrite Hstart. unfold bind at 1. rewrite Hrun1.
  unfold bind at 1. rewrite Hrun2. rewrite andb_true_r.
  rewrite (andb_comm (String.eqb eventName "predeploy")).
  unfold bind, invoke, ret.
  destruct (negb (String.eqb kubeConfigPath "") && String.eqb eventName "predeploy");
    simpl; rewrite Hcalls012.
  - now rewrite <- !app_assoc.
  - now rewrite app_nil_r.
Qed.

(** X8: the event only decides the warning. A bootstrap run for any
    event has the result of the run for "postprovision", which never warns,
    and makes the same calls; it adds the warning "Using KUBECONFIG @
    <path>", as its last call, exactly when the event is "predeploy", the
    kubeconfig override is set and the run succeeds. *)
Theorem setK8sContext_event (t : aksTarget) (serviceConfig : ServiceConfig)
    (eventName : string) (st : State) :
  let kubeConfigPath := Getenv (env st) KubeConfigEnvVarName in
  let base := setK8sContext t serviceConfig "postprovision" st in
  let run := setK8sContext t serviceConfig eventName st in
  fst run = fst base
  /\ (exists made,
        calls (snd base) = calls st ++ made
        /\ forallb (fun c => negb (isMessage c)) made = true)
  /\ calls (snd run)
     = calls (snd base)
       ++ (if String.eqb eventName "predeploy"
              && negb (String.eqb kubeConfigPath "")
              && match fst base with Ok _ => true | _ => false end
           then [CallMessage ("Using KUBECONFIG @ " +:+ kubeConfigPath
                                +:+ String (ascii_of_nat 10) EmptyString)]
           else []).
Proof.
  intros kubeConfigPath base run.
  destruct (setK8sContext_shape t serviceConfig st) as (r & made & Hall & Hshape).
  fold kubeConfigPath in Hshape.
  unfold base, run. rewrite (Hshape eventName), (Hshape "postprovision"). simpl.
  rewrite app_nil_r.
  split; [reflexivity |]. split; [now exists made |].
  now rewrite <- app_assoc.
Qed.

Lemma confined_bind_ret {A B : Type} (allowed : Call -> bool) (a : A) (k : A -> M B) :
  confined allowed (k a) -> confined allowed (bind (ret a) k).
Proof. intros Hk st. exact (Hk st). Qed.

Lemma confined_bind_panic {A B : Type} (allowed : Call -> bool) (p : panic) (k : A -> M B) :
  confined allowed (bind (lift (Panic p)) k).
Proof. intros st. exact (confined_lift allowed (@Panic B p) st). Qed.

Lemma ensureNamespace_inNamespace (t : aksTarget) (namespace : string) :
  confined (inNamespace namespace) (ensureNamespace t namespace).
Proof.
  unfold ensureNamespace.
  apply confined_bind; [| intro; confine].
  apply confined_wrapped, confined_invoke. apply String.eqb_refl.
Qed.

Lemma configureK8sContext_inNamespace (t : aksTarget) (clusterName namespace : string)
    (credentialResult : CredentialResult) :
  confined (inNamespace namespace)
           (configureK8sContext t clusterName namespace credentialResult).
Proof.
  unfold configureK8sContext.
  apply confined_bind; [confine | intro].
  apply confined_bind; [confine | intro kubeConfig].
  unfold setDefaultNamespace, at_index.
  destruct (kubectl.Contexts kubeConfig) as [|first others]; simpl.
  - apply confined_bind_panic.
  - apply confined_bind_ret.
    apply confined_bind; [| intro; confine].
    apply confined_wrapped, confined_invoke. apply String.eqb_refl.
Qed.

Lemma ensureClusterContext_inNamespace (t : aksTarget) (serviceConfig : ServiceConfig)
    (targetResource : TargetResource) (defaultNamespace : string) :
  confined (inNamespace defaultNamespace)
           (ensureClusterContext t serviceConfig targetResource defaultNamespace).
Proof.
  unfold ensureClusterContext. confine.
  destruct (negb _); [confine |].
  destruct (LookupEnv _ _) as [clusterName has].
  destruct (negb has); [confine |].
  apply confined_bind; [confine | intro].
  apply confined_bind; [confine | intro Kubeconfigs].
  destruct (Nat.eqb _ _); [confine |].
  apply confined_bind; [confine | intro first].
  apply configureK8sContext_inNamespace.
Qed.

(** X9: a bootstrap run works in one namespace, the K8s.Namespace of the
    service or, when that is empty, the name of its project: it is the
    namespace of the first context of every kubeconfig that the run merges,
    and the only namespace that the run creates. *)
Theorem setK8sContext_one_namespace (t : aksTarget) (serviceConfig : ServiceConfig)
    (eventName : string) (st : State) :
  let namespace :=
    if String.eqb (Namespace (K8s serviceConfig)) ""
    then p_Name (Project serviceConfig)
    else Namespace (K8s serviceConfig) in
  exists made,
    calls (snd (setK8sContext t serviceConfig eventName st)) = calls st ++ made
    /\ Forall (fun c =>
                 match c with
                 | CallCreateNamespace created => created = namespace
                 | CallAddOrUpdateContext _ kubeConfig =>
                     exists first others,
                       kubectl.Contexts kubeConfig = first :: others
                       /\ kubectl.kc_Namespace first = namespace
                 | _ => True
                 end) made.
Proof.
  intros namespace.
  assert (Hrun : confined (inNamespace namespace) (setK8sContext t serviceConfig eventName)).
  { unfold setK8sContext.
    apply confined_bind; [confine | intro e].
    apply confined_bind; [confine | intro].
    apply confined_bind; [destruct (negb _); confine | intro hasCustomKubeConfig].
    apply confined_bind; [confine | intro targetResource].
    apply confined_bind; [apply ensureClusterContext_inNamespace | intro].
    apply confined_bind; [apply ensureNamespace_inNamespace | intro].
    apply confined_bind; [| intro; confine].
    destruct (_ && _); confine. }
  destruct (Hrun st) as (_ & made & Hcalls & Hall).
  exists made. split; [exact Hcalls |].
  apply List.Forall_forall. intros c Hin.
  apply (proj1 (forallb_forall _ _) Hall) in Hin.
  destruct c; simpl in Hin; try exact I.
  - now apply String.eqb_eq.
  - destruct (kubectl.Contexts kubeConfig) as [|first others]; [discriminate |].
    exists first, others. split; [reflexivity |]. now apply String.eqb_eq.
Qed.

(** X10: configureK8sContext overwrites the namespace of the first
    context of the parsed kubeconfig and of no other, keeps its name, and
    merges the result under the cluster name before it activates that
    context; when the parsed kubeconfig has no context, the write to
    Contexts[0] panics, after the parse and before anything is merged. *)
Theorem configureK8sContext_first_context (t : aksTarget) (clusterName namespace : string)
    (credentialResult : CredentialResult) (st : State) (kubeConfig : kubectl.KubeConfig) :
  kubectl_NewKubeConfigManager t = inl tt ->
  kubectl_ParseKubeConfig t (Value credentialResult) = inl kubeConfig ->
  let run := configureK8sContext t clusterName namespace credentialResult st in
  let parsed := [CallNewKubeConfigManager; CallParseKubeConfig (Value credentialResult)] in
  match kubectl.Contexts kubeConfig with
  | [] =>
      run = (Panic (IndexOutOfRange 0 0), {| env := env st; calls := calls st ++ parsed |})
  | first :: others =>
      let merged :=
        {| kubectl.Contexts :=
             {| kubectl.kc_Name := kubectl.kc_Name first;
                kubectl.kc_Namespace := namespace |} :: others |} in
      match kubeConfigManager_AddOrUpdateContext t clusterName merged with
      | inr err =>
          run = (Err (Wrap "failed adding/updating kube context, " err),
                 {| env := env st;
                    calls := calls st ++ parsed
                               ++ [CallAddOrUpdateContext clusterName merged] |})
      | inl kubeConfigPath =>
          snd run = {| env := env st;
                       calls := calls st ++ parsed
                                  ++ [CallAddOrUpdateContext clusterName merged;
                                      CallConfigUseContext clusterName] |}
          /\ (kubectl_ConfigUseContext t clusterName = inl tt ->
              fst run = Ok kubeConfigPath)
      end
  end.
Proof.
  intros Hmanager Hparse run parsed. unfold run, configureK8sContext, setDefaultNamespace.
  unfold bind, wrapped, invoke, at_index, ret, lift. simpl.
  rewrite Hmanager, Hparse. simpl.
  destruct (kubectl.Contexts kubeConfig) as [|first others]; simpl.
  - now rewrite <- app_assoc.
  - destruct (kubeConfigManager_AddOrUpdateContext t clusterName _) as [path|err]; simpl.
    + destruct (kubectl_ConfigUseContext t clusterName) as [[]|err]; simpl;
        (split; [now repeat rewrite <- app_assoc | intros Hok; congruence]).
    + now repeat rewrite <- app_assoc.
Qed.

(** X11: of the credentials returned for the cluster only the first is
    used: after the log line and the fetch, ensureClusterContext continues
    as configureK8sContext on the first credential, with the cluster name of
    the environment and the default namespace it was given. *)
Theorem ensureClusterContext_first_credential (t : aksTarget)
    (serviceConfig : ServiceConfig) (targetResource : TargetResource)
    (defaultNamespace : string) (st : State) (clusterName : string)
    (first : CredentialResult) (others : list CredentialResult) :
  Getenv (env st) KubeConfigEnvVarName = "" ->
  LookupEnv (env st) AksClusterEnvVarName = (clusterName, true) ->
  managedClustersService_GetUserCredentials t (SubscriptionId targetResource)
    (ResourceGroupName targetResource) clusterName = inl (first :: others) ->
  ensureClusterContext t serviceConfig targetResource defaultNamespace st
  = configureK8sContext t clusterName defaultNamespace first
      {| env := env st;
         calls := calls st
                    ++ [CallPrintf ("getting AKS credentials for cluster '" +:+ clusterName
                                      +:+ "'" +:+ String (ascii_of_nat 10) EmptyString);
                        CallGetUserCredentials (SubscriptionId targetResource)
                          (ResourceGroupName targetResource) clusterName] |}.
Proof.
  intros Hunset Hcluster Hcredentials.
  unfold ensureClusterContext.
  unfold bind at 1. unfold getEnv at 1. simpl.
  rewrite Hunset, Hcluster. simpl.
  unfold bind at 1. unfold invoke at 1. simpl.
  unfold bind at 1. unfold wrapped at 1, invoke at 1. rewrite Hcredentials. simpl.
  unfold bind at 1. unfold at_index, ret. simpl.
  now rewrite <- app_assoc.
Qed.

(** X12: without the override and with the cluster name, a failed fetch
    of the credentials and an empty list of credentials both end the login
    with an error, the error of the fetch wrapped or the one of lines
    310-313, after the log line and the fetch alone: no kubeconfig is parsed
    or merged. *)
Theorem ensureClusterContext_credentials_failure (t : aksTarget)
    (serviceConfig : ServiceConfig) (targetResource : TargetResource)
    (defaultNamespace : string) (st : State) (clusterName : string) :
  Getenv (env st) KubeConfigEnvVarName = "" ->
  LookupEnv (env st) AksClusterEnvVarName = (clusterName, true) ->
  let answer :=
    managedClustersService_GetUserCredentials t (SubscriptionId targetResource)
      (ResourceGroupName targetResource) clusterName in
  let after :=
    {| env := env st;
       calls := calls st
                  ++ [CallPrintf ("getting AKS credentials for cluster '" +:+ clusterName
                                    +:+ "'" +:+ String (ascii_of_nat 10) EmptyString);
                      CallGetUserCredentials (SubscriptionId targetResource)
                        (ResourceGroupName targetResource) clusterName] |} in
  let run := ensureClusterContext t serviceConfig targetResource defaultNamespace st in
  (forall err,
      answer = inr err ->
      run = (Err (Wrap ("failed retrieving cluster admin credentials. "
                          +:+ "Ensure your cluster has been configured to support admin credentials, ")
                       err), after))
  /\ (answer = inl [] -> run = (Err errNoCredentials, after)).
Proof.
  intros Hunset Hcluster answer after run.
  assert (Hrun : run
            = match answer with
              | inr err =>
                  (Err (Wrap ("failed retrieving cluster admin credentials. "
                     +:+ "Ensure your cluster has been configured to support admin credentials, ")
                     err), after)
              | inl [] => (Err errNoCredentials, after)
              | inl (first :: _) =>
                  configureK8sContext t clusterName defaultNamespace first after
              end).
  { unfold run, ensureClusterContext, answer, after.
    unfold bind at 1. unfold getEnv at 1. simpl.
    rewrite Hunset, Hcluster. simpl.
    unfold bind at 1. unfold invoke at 1. simpl.
    unfold bind at 1. unfold wrapped at 1, invoke at 1.
    destruct (managedClustersService_GetUserCredentials t _ _ _) as [[|first others]|err];
      simpl; repeat rewrite <- app_assoc; reflexivity. }
  split.
  - intros err Hanswer. now rewrite Hrun, Hanswer.
  - intros Hanswer. now rewrite Hrun, Hanswer.
Qed.

(** ** Rollout *)

Lemma waitForDeployment_cases (t : aksTarget) (deploymentNameFilter : string)
    (st : State) :
  let run := waitForDeployment t deploymentNameFilter st in
  (exists err, run = (Err err, st))
  \/ exists deployment,
       let name := kubectl.Name (kubectl.d_Metadata deployment) in
       nameFilter name deploymentNameFilter = true
       /\ deploymentReady deployment = true
       /\ snd run = {| env := env st; calls := calls st ++ [CallRolloutStatus name] |}
       /\ fst run = match kubectl_RolloutStatus t name with
                    | inl _ => Ok deployment
                    | inr err => Err err
                    end.
Proof.
  intros run. unfold run, waitForDeployment, bind, lift, invoke, ret.
  destruct (kubectl.WaitForResource _ _ _) as [deployment|err|p] eqn:Hwait; simpl.
  - right. exists deployment. apply WaitForResource_Ok in Hwait as [Hmatch Hready].
    split; [exact Hmatch |]. split; [exact Hready |].
    now destruct (kubectl_RolloutStatus t _) as [[]|err].
  - left. now exists err.
  - now apply WaitForResource_from_no_panic in Hwait.
Qed.

(** X13: waitForDeployment returns what the poll for a ready deployment
    whose name contains the filter returns, followed by one rollout status.
    When the poll fails, its error is returned as it is and no rollout
    status is asked for. When the poll finds a deployment, which is then
    ready and has a name that contains the filter, the rollout status is
    asked for once, under the exact name of that deployment: the deployment
    is returned when it succeeds, and its error, as it is, when it fails.
    The poll does not panic. *)
Theorem waitForDeployment_rollout (t : aksTarget) (deploymentNameFilter : string)
    (st : State) :
  let poll :=
    kubectl.WaitForResource (kubectl.Deployments (cluster t))
      (fun deployment =>
         nameFilter (kubectl.Name (kubectl.d_Metadata deployment)) deploymentNameFilter)
      deploymentReady in
  let run := waitForDeployment t deploymentNameFilter st in
  match poll with
  | Err err => run = (Err err, st)
  | Panic _ => False
  | Ok deployment =>
      let name := kubectl.Name (kubectl.d_Metadata deployment) in
      nameFilter name deploymentNameFilter = true
      /\ deploymentReady deployment = true
      /\ run = (match kubectl_RolloutStatus t name with
                | inl _ => Ok deployment
                | inr err => Err err
                end,
                {| env := env st; calls := calls st ++ [CallRolloutStatus name] |})
  end.
Proof.
  intros poll run. unfold run, waitForDeployment, bind, lift, invoke, ret.
  fold poll. destruct poll as [deployment|err|p] eqn:Hpoll; simpl.
  - apply WaitForResource_Ok in Hpoll as [Hmatch Hready].
    split; [exact Hmatch |]. split; [exact Hready |].
    now destruct (kubectl_RolloutStatus t _) as [[]|err].
  - reflexivity.
  - now apply WaitForResource_from_no_panic in Hpoll.
Qed.

(** ** Initialize *)

(** X14: Initialize passes the project's "postprovision" handler first and
    the service's "predeploy" handler second, the second only when the
    first was accepted, and wraps the error of the registration that was
    refused. Each handler it passes runs the bootstrap for its event, and so
    leaves the environment alone and makes no call of a deploy. *)
Theorem Initialize_handlers (AddHandler : HandlerOwner -> string -> reply unit)
    (t : aksTarget) (serviceConfig : ServiceConfig) :
  let handlers := fst (Initialize AddHandler t serviceConfig) in
  let outcome := snd (Initialize AddHandler t serviceConfig) in
  Forall (fun h => h_run h = setK8sContext t serviceConfig (h_event h)
                   /\ confined bootstrapCall (h_run h)) handlers
  /\ match AddHandler OfProject "postprovision" with
     | inr err =>
         List.map (fun h => (h_owner h, h_event h)) handlers = [(OfProject, "postprovision")]
         /\ outcome = Some (Wrap "failed adding postprovision handler, " err)
     | inl _ =>
         List.map (fun h => (h_owner h, h_event h)) handlers
         = [(OfProject, "postprovision"); (OfService, "predeploy")]
         /\ outcome = match AddHandler OfService "predeploy" with
                      | inr err => Some (Wrap "failed adding predeploy handler, " err)
                      | inl _ => None
                      end
     end.
Proof.
  intros handlers outcome. unfold handlers, outcome, Initialize.
  destruct (AddHandler OfProject "postprovision") as [[]|err1]; simpl.
  - destruct (AddHandler OfService "predeploy") as [[]|err2]; simpl;
      (split; [| now split]);
      repeat constructor; simpl; apply setK8sContext_bootstrapCalls.
  - split; [| now split].
    repeat constructor; simpl; apply setK8sContext_bootstrapCalls.
Qed.

(** ** Deploy, continued *)

Lemma saveFree_forallb (made : list Call) :
  forallb (fun c => negb (isSave c)) made = true -> saveFree made.
Proof.
  intros Hall e Hin. apply (proj1 (forallb_forall _ _) Hall) in Hin. discriminate.
Qed.

Lemma confined_storesEndpointOnly {A : Type} (serviceConfig : ServiceConfig) (m : M A) :
  confined (fun c => negb (isSave c)) m -> storesEndpointOnly serviceConfig m.
Proof.
  intros Hm st. destruct (Hm st) as (Henv & made & Hcalls & Hall).
  exists made. split; [assumption |]. left. split; [assumption |].
  now apply saveFree_forallb.
Qed.

Lemma storesEndpointOnly_bind {A B : Type} (serviceConfig : ServiceConfig)
    (m : M A) (k : A -> M B) :
  confined (fun c => negb (isSave c)) m ->
  (forall a, storesEndpointOnly serviceConfig (k a)) ->
  storesEndpointOnly serviceConfig (bind m k).
Proof.
  intros Hm Hk st. unfold bind.
  destruct (Hm st) as (Henv & made & Hcalls & Hall).
  apply saveFree_forallb in Hall.
  destruct (m st) as [[a|err|p] st1]; simpl in *.
  - destruct (Hk a st1) as (made' & Hcalls' & Hstore).
    exists (made ++ made'). rewrite Hcalls', Hcalls, app_assoc.
    split; [reflexivity |].
    destruct Hstore as [[Henv' Hfree] | (url & before & Henv' & -> & Hfree)].
    + left. split; [congruence | now apply saveFree_app].
    + right. exists url, (made ++ before). rewrite Henv', Henv.
      split; [reflexivity |]. split; [now rewrite app_assoc | now apply saveFree_app].
  - exists made. split; [assumption |]. left. now split.
  - exists made. split; [assumption |]. left. now split.
Qed.

Lemma storesEndpointOnly_then_ret {A B : Type} (serviceConfig : ServiceConfig)
    (m : M A) (b : B) :
  storesEndpointOnly serviceConfig m ->
  storesEndpointOnly serviceConfig (bind m (fun _ => ret b)).
Proof.
  intros Hm st. unfold bind, ret. specialize (Hm st).
  now destruct (m st) as [[a|err|p] st1].
Qed.

Lemma saveEndpoint_storesEndpointOnly (t : aksTarget) (serviceConfig : ServiceConfig)
    (endpoints : list string) :
  storesEndpointOnly serviceConfig (saveEndpoint t serviceConfig endpoints).
Proof.
  intros st. destruct endpoints as [|first others].
  - rewrite saveEndpoint_none. exists []. rewrite app_nil_r.
    split; [reflexivity |]. left. split; [reflexivity | apply saveFree_nil].
  - destruct (saveEndpoint_some t serviceConfig (first :: others) st)
      as (url & _ & Hsave); [discriminate |].
    simpl in Hsave. rewrite Hsave. simpl.
    eexists. split; [reflexivity |]. right. exists url, [].
    split; [reflexivity |]. split; [reflexivity | apply saveFree_nil].
Qed.

Lemma syncProgress_confined (allowed : Call -> bool) (progress : list string) :
  (forall message, allowed (CallSetProgress message) = true) ->
  confined allowed (syncProgress progress).
Proof.
  intros Hallowed. induction progress as [|message rest IH]; simpl.
  - apply confined_ret.
  - apply confined_bind; [| intro; exact IH].
    unfold SetProgress. now apply confined_invoke.
Qed.

Lemma waitForDeployment_confined (t : aksTarget) (deploymentNameFilter : string) :
  confined (fun c => negb (isSave c)) (waitForDeployment t deploymentNameFilter).
Proof. unfold waitForDeployment. confine. Qed.

Lemma Deploy_storesEndpointOnly (t : aksTarget) (serviceConfig : ServiceConfig)
    (packageOutput : option ServicePackageResult) (targetResource : TargetResource) :
  storesEndpointOnly serviceConfig (Deploy t serviceConfig packageOutput targetResource).
Proof.
  unfold Deploy.
  destruct (validateTargetResource serviceConfig targetResource) as [_|err];
    [| apply confined_storesEndpointOnly, confined_fail].
  destruct packageOutput as [package|];
    [| apply confined_storesEndpointOnly, confined_fail].
  apply storesEndpointOnly_bind; [confine | intro].
  apply storesEndpointOnly_bind; [now apply syncProgress_confined | intro].
  apply storesEndpointOnly_bind; [confine | intro e].
  apply storesEndpointOnly_bind; [confine | intro].
  apply storesEndpointOnly_bind; [unfold SetProgress; confine | intro].
  apply storesEndpointOnly_bind; [confine | intro].
  apply storesEndpointOnly_bind; [unfold SetProgress; confine | intro].
  apply storesEndpointOnly_bind;
    [apply confined_attempt, waitForDeployment_confined | intro found].
  apply storesEndpointOnly_bind.
  { destruct found as [deployment|err]; [confine |]. destruct (fatal err); confine. }
  intro deployment.
  apply storesEndpointOnly_bind; [unfold SetProgress; confine | intro].
  apply storesEndpointOnly_bind; [confine | intro endpoints].
  apply storesEndpointOnly_then_ret, saveEndpoint_storesEndpointOnly.
Qed.

(** X15: in every run of Deploy, whatever the inputs and the answers of
    the collaborators, either the environment is left as it was and is not
    saved, or a value is stored for the ENDPOINT_URL property of the
    service and the environment that holds it is handed to Save, as the
    last call of the run and after no other Save. *)
Theorem Deploy_saves_at_most_once (t : aksTarget) (serviceConfig : ServiceConfig)
    (packageOutput : option ServicePackageResult) (targetResource : TargetResource)
    (st : State) :
  let run := Deploy t serviceConfig packageOutput targetResource st in
  exists made,
    calls (snd run) = calls st ++ made
    /\ ((env (snd run) = env st /\ saveFree made)
        \/ exists url before,
             env (snd run)
             = SetServiceProperty (env st) (Name serviceConfig) "ENDPOINT_URL" url
             /\ made = before ++ [CallSave (env (snd run))]
             /\ saveFree before).
Proof. exact (Deploy_storesEndpointOnly t serviceConfig packageOutput targetResource st). Qed.

(** X16: Deploy checks the target resource before the package: with an
    empty resource group name it fails with the validation error, wrapped,
    even when the package is missing too; with a resource group and no
    package it fails with "missing package output". In both cases no
    collaborator has been called and the state is as it was. *)
Theorem Deploy_fails_fast (t : aksTarget) (serviceConfig : ServiceConfig)
    (packageOutput : option ServicePackageResult) (targetResource : TargetResource)
    (st : State) :
  (ResourceGroupName targetResource = "" ->
   Deploy t serviceConfig packageOutput targetResource st
   = (Err (Wrap "validating target resource: " (New "missing resource group name: ")), st))
  /\ (ResourceGroupName targetResource <> "" ->
      Deploy t serviceConfig None targetResource st
      = (Err (New "missing package output"), st)).
Proof.
  unfold Deploy, validateTargetResource. split.
  - intros ->. reflexivity.
  - intros Hne.
    destruct (String.eqb_spec (ResourceGroupName targetResource) "");
      [contradiction | reflexivity].
Qed.

Ltac deploy_to_apply Hvalid :=
  unfold Deploy; rewrite Hvalid;
  unfold bind at 1; unfold invoke at 1; simpl;
  unfold bind at 1; rewrite syncProgress_run; simpl;
  unfold bind at 1; unfold getEnv at 1; simpl;
  unfold bind at 1; unfold invoke at 1; simpl;
  unfold bind at 1; unfold SetProgress at 1, invoke at 1; simpl;
  unfold bind at 1; unfold wrapped at 1, invoke at 1.

Lemma Deploy_not_applied (t : aksTarget) (serviceConfig : ServiceConfig)
    (package : ServicePackageResult) (targetResource : TargetResource)
    (st : State) (err : error) :
  validateTargetResource serviceConfig targetResource = inl tt ->
  kubectl_Apply t (manifestsPath serviceConfig) = inr err ->
  Deploy t serviceConfig (Some package) targetResource st
  = (Err (Wrap "failed applying kube manifests: " err),
     {| env := env st;
        calls := calls st
          ++ [CallContainerDeploy serviceConfig package targetResource]
          ++ List.map CallSetProgress (containerHelper_Progress t)
          ++ [CallSetEnv (Dotenv (env st));
              CallSetProgress "Applying k8s manifests";
              CallApply (manifestsPath serviceConfig)] |}).
Proof.
  intros Hvalid Happly. deploy_to_apply Hvalid. rewrite Happly. simpl.
  now repeat rewrite <- app_assoc.
Qed.

(** X17: when the apply of the manifests fails, Deploy returns its error
    wrapped with "failed applying kube manifests: " and stops there: the
    apply is its last call, so no deployment is verified, no endpoint is
    resolved or stored, and the environment is as it was. *)
Theorem Deploy_apply_failure (t : aksTarget) (serviceConfig : ServiceConfig)
    (package : ServicePackageResult) (targetResource : TargetResource)
    (st : State) (err : error) :
  validateTargetResource serviceConfig targetResource = inl tt ->
  kubectl_Apply t (manifestsPath serviceConfig) = inr err ->
  Deploy t serviceConfig (Some package) targetResource st
  = (Err (Wrap "failed applying kube manifests: " err),
     {| env := env st;
        calls := calls st
          ++ [CallContainerDeploy serviceConfig package targetResource]
          ++ List.map CallSetProgress (containerHelper_Progress t)
          ++ [CallSetEnv (Dotenv (env st));
              CallSetProgress "Applying k8s manifests";
              CallApply (manifestsPath serviceConfig)] |}).
Proof. exact (Deploy_not_applied t serviceConfig package targetResource st err). Qed.

Lemma waitForDeployment_fst (t : aksTarget) (deploymentNameFilter : string)
    (st st' : State) :
  fst (waitForDeployment t deploymentNameFilter st)
  = fst (waitForDeployment t deploymentNameFilter st').
Proof.
  unfold waitForDeployment, bind, lift, invoke, ret.
  destruct (kubectl.WaitForResource _ _ _) as [deployment|err|p]; simpl;
    [| reflexivity | reflexivity].
  now destruct (kubectl_RolloutStatus t _).
Qed.

(** A deploy whose manifests are applied, step by step from the
    verification of the deployment on. *)
Lemma Deploy_applied (t : aksTarget) (serviceConfig : ServiceConfig)
    (package : ServicePackageResult) (targetResource : TargetResource) (st : State) :
  validateTargetResource serviceConfig targetResource = inl tt ->
  kubectl_Apply t (manifestsPath serviceConfig) = inl tt ->
  let verifying :=
    {| env := env st;
       calls := calls st
         ++ [CallContainerDeploy serviceConfig package targetResource]
         ++ List.map CallSetProgress (containerHelper_Progress t)
         ++ [CallSetEnv (Dotenv (env st));
             CallSetProgress "Applying k8s manifests";
             CallApply (manifestsPath serviceConfig);
             CallSetProgress "Verifying deployment"] |} in
  let resolve (deployment : option kubectl.Deployment) (st1 : State) :=
    let fetching :=
      {| env := env st1;
         calls := calls st1 ++ [CallSetProgress "Fetching endpoints for AKS service"] |} in
    match Endpoints (cluster t) serviceConfig targetResource with
    | Err err => (Err err, fetching)
    | Panic p => (Panic p, fetching)
    | Ok endpoints =>
        match saveEndpoint t serviceConfig endpoints fetching with
        | (Ok _, st2) =>
            (Ok {| Package := package;
                   TargetResourceId :=
                     KubernetesServiceRID (SubscriptionId targetResource)
                                          (ResourceGroupName targetResource)
                                          (ResourceName targetResource);
                   Kind := AksTarget;
                   Details := deployment;
                   Endpoints_ := endpoints |}, st2)
        | (Err err, st2) => (Err err, st2)
        | (Panic p, st2) => (Panic p, st2)
        end
    end in
  Deploy t serviceConfig (Some package) targetResource st
  = match waitForDeployment t (deploymentName serviceConfig) verifying with
    | (Ok deployment, st1) => resolve (Some deployment) st1
    | (Err err, st1) => if fatal err then (Err err, st1) else resolve None st1
    | (Panic p, st1) => (Panic p, st1)
    end.
Proof.
  intros Hvalid Happly verifying resolve.
  deploy_to_apply Hvalid. rewrite Happly. simpl.
  unfold bind at 1. unfold SetProgress at 1, invoke at 1. simpl.
  unfold bind at 1. unfold attempt at 1.
  match goal with
  | |- context [waitForDeployment t _ ?s] =>
      replace s with verifying
        by (unfold verifying; f_equal; now repeat rewrite <- app_assoc)
  end.
  destruct (waitForDeployment t (deploymentName serviceConfig) verifying)
    as [[deployment|err|p] st1]; [| | reflexivity].
  - unfold bind at 1. unfold ret at 1.
    unfold bind at 1. unfold SetProgress at 1, invoke at 1. simpl.
    unfold bind at 1. unfold lift at 1. unfold resolve.
    destruct (Endpoints (cluster t) serviceConfig targetResource) as [endpoints| |];
      [| reflexivity | reflexivity].
    unfold bind at 1. unfold ret.
    now destruct (saveEndpoint _ _ _ _) as [[[]| |] st2].
  - unfold bind at 1. destruct (fatal err); [reflexivity |]. unfold ret at 1.
    unfold bind at 1. unfold SetProgress at 1, invoke at 1. simpl.
    unfold bind at 1. unfold lift at 1. unfold resolve.
    destruct (Endpoints (cluster t) serviceConfig targetResource) as [endpoints| |];
      [| reflexivity | reflexivity].
    unfold bind at 1. unfold ret.
    now destruct (saveEndpoint _ _ _ _) as [[[]| |] st2].
Qed.

(** X18: an error of the deployment verification other than
    ResourceNotFound, be it from the poll or from the rollout status, is
    returned by Deploy as it is, without any wrapping; the environment is
    left as it was and is not saved. *)
Theorem Deploy_deployment_failure (t : aksTarget) (serviceConfig : ServiceConfig)
    (package : ServicePackageResult) (targetResource : TargetResource)
    (st : State) (err : error) :
  validateTargetResource serviceConfig targetResource = inl tt ->
  kubectl_Apply t (manifestsPath serviceConfig) = inl tt ->
  fst (waitForDeployment t (deploymentName serviceConfig) st) = Err err ->
  errors_Is err ErrResourceNotFound = false ->
  let run := Deploy t serviceConfig (Some package) targetResource st in
  fst run = Err err
  /\ env (snd run) = env st
  /\ exists made, calls (snd run) = calls st ++ made /\ saveFree made.
Proof.
  intros Hvalid Happly Hwait Hfatal run. unfold run.
  rewrite (Deploy_applied t serviceConfig package targetResource st Hvalid Happly).
  match goal with
  | |- context [waitForDeployment t ?f ?s] =>
      rewrite (waitForDeployment_fst t f st s) in Hwait;
      destruct (waitForDeployment_confined t f s) as (Henv1 & made1 & Hcalls1 & Hall1);
      destruct (waitForDeployment t f s) as [found st1]
  end.
  simpl in Hwait, Henv1, Hcalls1. subst found.
  unfold fatal. rewrite Hfatal. simpl.
  split; [reflexivity |]. split; [exact Henv1 |].
  eexists. rewrite Hcalls1, <- app_assoc. split; [reflexivity |].
  apply saveFree_forallb in Hall1.
  repeat first [ apply saveFree_app | apply saveFree_progress
               | apply saveFree_cons; [discriminate |] | apply saveFree_nil
               | assumption ].
Qed.

(** What a successful deploy went through. *)
Lemma Deploy_Ok_inv (t : aksTarget) (serviceConfig : ServiceConfig)
    (packageOutput : option ServicePackageResult) (targetResource : TargetResource)
    (st : State) (result : ServiceDeployResult) :
  let run := Deploy t serviceConfig packageOutput targetResource st in
  fst run = Ok result ->
  packageOutput = Some (Package result)
  /\ ResourceGroupName targetResource <> ""
  /\ kubectl_Apply t (manifestsPath serviceConfig) = inl tt
  /\ Endpoints (cluster t) serviceConfig targetResource = Ok (Endpoints_ result)
  /\ TargetResourceId result
     = KubernetesServiceRID (SubscriptionId targetResource)
                            (ResourceGroupName targetResource)
                            (ResourceName targetResource)
  /\ Kind result = AksTarget
  /\ match Details result with
     | Some deployment =>
         let name := kubectl.Name (kubectl.d_Metadata deployment) in
         nameFilter name (deploymentName serviceConfig) = true
         /\ deploymentReady deployment = true
         /\ kubectl_RolloutStatus t name = inl tt
     | None =>
         exists err,
           fst (waitForDeployment t (deploymentName serviceConfig) st) = Err err
           /\ errors_Is err ErrResourceNotFound = true
     end
  /\ (Endpoints_ result <> [] -> envManager_Save t (env (snd run)) = inl tt)
  /\ match Endpoints_ result with
     | [] => env (snd run) = env st
     | _ :: _ =>
         exists url,
           beforeFirstComma (List.last (Endpoints_ result) "") url
           /\ env (snd run)
              = SetServiceProperty (env st) (Name serviceConfig) "ENDPOINT_URL" url
     end.
Proof.
  intros run Hok. unfold run in *. clear run.
  destruct (validateTargetResource serviceConfig targetResource) as [[]|verr] eqn:Hvalid.
  2:{ unfold Deploy in Hok. rewrite Hvalid in Hok. discriminate. }
  assert (Hgroup : ResourceGroupName targetResource <> "").
  { unfold validateTargetResource in Hvalid.
    destruct (String.eqb_spec (ResourceGroupName targetResource) "");
      [discriminate | assumption]. }
  destruct packageOutput as [package|].
  2:{ unfold Deploy in Hok. rewrite Hvalid in Hok. discriminate. }
  destruct (kubectl_Apply t (manifestsPath serviceConfig)) as [[]|aerr] eqn:Happly.
  2:{ rewrite (Deploy_not_applied _ _ _ _ _ _ Hvalid Happly) in Hok. discriminate. }
  rewrite (Deploy_applied t serviceConfig package targetResource st Hvalid Happly) in *.
  match type of Hok with
  | context [waitForDeployment t ?f ?s] =>
      pose proof (waitForDeployment_fst t f st s) as Hsame;
      pose proof (waitForDeployment_cases t f s) as Hcases;
      destruct (waitForDeployment t f s) as [found st1]
  end.
  simpl in Hsame, Hcases.
  (* what the result needs of the wait, by the details it holds *)
  assert (Hdetails : forall deployment,
            match deployment with
            | Some d => found = Ok d
            | None => exists err, found = Err err /\ fatal err = false
            end ->
            match deployment with
            | Some deployment =>
                let name := kubectl.Name (kubectl.d_Metadata deployment) in
                nameFilter name (deploymentName serviceConfig) = true
                /\ deploymentReady deployment = true
                /\ kubectl_RolloutStatus t name = inl tt
            | None =>
                exists err,
                  fst (waitForDeployment t (deploymentName serviceConfig) st) = Err err
                  /\ errors_Is err ErrResourceNotFound = true
            end).
  { intros [d|]; simpl.
    - intros Hfound.
      destruct Hcases as [[e He] | (d' & Hm & Hr & _ & Hfst)]; [congruence |].
      rewrite Hfound in Hfst.
      destruct (kubectl_RolloutStatus t _) as [[]|e] eqn:Hroll; [| discriminate].
      injection Hfst as <-. now rewrite Hroll.
    - intros (e & Hfound & Hnf). exists e. rewrite Hsame, Hfound. split; [reflexivity |].
      unfold fatal in Hnf. now apply negb_false_iff in Hnf. }
  assert (Henv1 : env st1 = env st).
  { destruct Hcases as [[e He] | (d' & _ & _ & Hsnd & _)].
    - now injection He as _ ->.
    - now rewrite Hsnd. }
  clear Hcases Hsame.
  (* the resolution of the endpoints and the result *)
  assert (Hresolve : forall deployment,
            match deployment with
            | Some d => found = Ok d
            | None => exists err, found = Err err /\ fatal err = false
            end ->
            forall run,
              run = match Endpoints (cluster t) serviceConfig targetResource with
                    | Err err =>
                        (Err err,
                         {| env := env st1;
                            calls := calls st1
                              ++ [CallSetProgress "Fetching endpoints for AKS service"] |})
                    | Panic p =>
                        (Panic p,
                         {| env := env st1;
                            calls := calls st1
                              ++ [CallSetProgress "Fetching endpoints for AKS service"] |})
                    | Ok endpoints =>
                        match saveEndpoint t serviceConfig endpoints
                                {| env := env st1;
                                   calls := calls st1
                                     ++ [CallSetProgress
                                           "Fetching endpoints for AKS service"] |} with
                        | (Ok _, st2) =>
                            (Ok {| Package := package;
                                   TargetResourceId :=
                                     KubernetesServiceRID (SubscriptionId targetResource)
                                       (ResourceGroupName targetResource)
                                       (ResourceName targetResource);
                                   Kind := AksTarget;
                                   Details := deployment;
                                   Endpoints_ := endpoints |}, st2)
                        | (Err err, st2) => (Err err, st2)
                        | (Panic p, st2) => (Panic p, st2)
                        end
                    end ->
              fst run = Ok result ->
              Some package = Some (Package result)
              /\ ResourceGroupName targetResource <> ""
              /\ @inl unit error tt = inl tt
              /\ Endpoints (cluster t) serviceConfig targetResource = Ok (Endpoints_ result)
              /\ TargetResourceId result
                 = KubernetesServiceRID (SubscriptionId targetResource)
                                        (ResourceGroupName targetResource)
                                        (ResourceName targetResource)
              /\ Kind result = AksTarget
              /\ match Details result with
                 | Some deployment =>
                     let name := kubectl.Name (kubectl.d_Metadata deployment) in
                     nameFilter name (deploymentName serviceConfig) = true
                     /\ deploymentReady deployment = true
                     /\ kubectl_RolloutStatus t name = inl tt
                 | None =>
                     exists err,
                       fst (waitForDeployment t (deploymentName serviceConfig) st) = Err err
                       /\ errors_Is err ErrResourceNotFound = true
                 end
              /\ (Endpoints_ result <> [] -> envManager_Save t (env (snd run)) = inl tt)
              /\ match Endpoints_ result with
                 | [] => env (snd run) = env st
                 | _ :: _ =>
                     exists url,
                       beforeFirstComma (List.last (Endpoints_ result) "") url
                       /\ env (snd run)
                          = SetServiceProperty (env st) (Name serviceConfig)
                                               "ENDPOINT_URL" url
                 end).
  { intros deployment Hfound run0 Hrun0 Hok0.
    apply Hdetails in Hfound.
    destruct (Endpoints (cluster t) serviceConfig targetResource) as [endpoints|e|p];
      [| subst run0; discriminate | subst run0; discriminate].
    destruct endpoints as [|first others].
    - rewrite saveEndpoint_none in Hrun0. subst run0. simpl in *.
      injection Hok0 as <-. simpl.
      repeat (split; [reflexivity || assumption |]).
      split; [intros Hne; now contradiction Hne | exact Henv1].
    - destruct (saveEndpoint_some t serviceConfig (first :: others)
                  {| env := env st1;
                     calls := calls st1
                       ++ [CallSetProgress "Fetching endpoints for AKS service"] |})
        as (url & Hurl & Hsave); [discriminate |].
      simpl in Hsave. rewrite Hsave in Hrun0.
      destruct (envManager_Save t _) as [[]|serr] eqn:Hanswer;
        subst run0; simpl in *; [| discriminate].
      injection Hok0 as <-. simpl.
      repeat (split; [reflexivity || assumption |]).
      split; [intros _; exact Hanswer |].
      exists url. split; [exact Hurl | now rewrite Henv1]. }
  destruct found as [deployment|werr|p]; [| | discriminate].
  - now apply (Hresolve (Some deployment) eq_refl _ eq_refl).
  - destruct (fatal werr) eqn:Hfatal; [discriminate |].
    apply (Hresolve None); [now exists werr | reflexivity | assumption].
Qed.

(** X19: a deploy that succeeds had a package and a resource group, its
    manifests were applied, and its result holds that package, the
    resource id of the cluster, the kind of the target and exactly the
    endpoints that Endpoints resolves. The deployment in its details, when
    there is one, is ready, has a name that contains the deployment name
    filter, and passed the rollout status; and when there are endpoints the
    environment was saved successfully. *)
Theorem Deploy_Ok (t : aksTarget) (serviceConfig : ServiceConfig)
    (packageOutput : option ServicePackageResult) (targetResource : TargetResource)
    (st : State) (result : ServiceDeployResult) :
  let run := Deploy t serviceConfig packageOutput targetResource st in
  fst run = Ok result ->
  packageOutput = Some (Package result)
  /\ ResourceGroupName targetResource <> ""
  /\ kubectl_Apply t (manifestsPath serviceConfig) = inl tt
  /\ Endpoints (cluster t) serviceConfig targetResource = Ok (Endpoints_ result)
  /\ TargetResourceId result
     = KubernetesServiceRID (SubscriptionId targetResource)
                            (ResourceGroupName targetResource)
                            (ResourceName targetResource)
  /\ Kind result = AksTarget
  /\ match Details result with
     | Some deployment =>
         let name := kubectl.Name (kubectl.d_Metadata deployment) in
         nameFilter name (deploymentName serviceConfig) = true
         /\ deploymentReady deployment = true
         /\ kubectl_RolloutStatus t name = inl tt
     | None =>
         exists err,
           fst (waitForDeployment t (deploymentName serviceConfig) st) = Err err
           /\ errors_Is err ErrResourceNotFound = true
     end
  /\ (Endpoints_ result <> [] -> envManager_Save t (env (snd run)) = inl tt).
Proof.
  intros run Hok.
  destruct (Deploy_Ok_inv t serviceConfig packageOutput targetResource st result Hok)
    as (Hpackage & Hgroup & Happly & Hendpoints & Hid & Hkind & Hdetails & Hsave & _).
  repeat (split; [assumption |]). exact Hsave.
Qed.

Lemma strings_Contains_tail (c : ascii) (s substr : string) :
  strings_Contains (String c s) substr = false -> strings_Contains s substr = false.
Proof.
  rewrite strings_Contains_cons. intros Hc. now apply orb_false_iff in Hc as [_ Hc].
Qed.

Lemma strings_Contains_head (s rest : string) :
  strings_Contains (s +:+ rest) s = true.
Proof. apply strings_Contains_iff. now exists "", rest. Qed.

(** The text before the first comma is determined by the whole text. *)
Lemma beforeFirstComma_unique (u1 : string) :
  forall u2 r1 r2 : string,
    strings_Contains u1 "," = false -> strings_Contains u2 "," = false ->
    u1 +:+ "," +:+ r1 = u2 +:+ "," +:+ r2 -> u1 = u2.
Proof.
  induction u1 as [|c u1 IH]; intros [|d u2] r1 r2 H1 H2 Heq.
  - reflexivity.
  - rewrite append_cons in Heq.
    change ("" +:+ "," +:+ r1) with (String "," r1) in Heq.
    injection Heq as <- _.
    pose proof (strings_Contains_head "," u2) as Hc.
    change ("," +:+ u2) with (String "," u2) in Hc. congruence.
  - rewrite append_cons in Heq.
    change ("" +:+ "," +:+ r2) with (String "," r2) in Heq.
    injection Heq as -> _.
    pose proof (strings_Contains_head "," u1) as Hc.
    change ("," +:+ u1) with (String "," u1) in Hc. congruence.
  - rewrite !append_cons in Heq. injection Heq as -> Heq.
    f_equal. apply (IH u2 r1 r2); [| | exact Heq].
    + exact (strings_Contains_tail _ _ _ H1).
    + exact (strings_Contains_tail _ _ _ H2).
Qed.

(** X20: a deploy that succeeds with endpoints stores a proper prefix of
    the last one: every endpoint carries its provenance tag, so the last
    endpoint is the stored value, a comma, and more, and the stored value
    has no comma. It is the URL of the last endpoint whenever that URL has
    no comma itself. *)
Theorem Deploy_stores_untagged_url (t : aksTarget) (serviceConfig : ServiceConfig)
    (packageOutput : option ServicePackageResult) (targetResource : TargetResource)
    (st : State) (result : ServiceDeployResult) :
  let run := Deploy t serviceConfig packageOutput targetResource st in
  let last_endpoint := List.last (Endpoints_ result) "" in
  fst run = Ok result ->
  Endpoints_ result <> [] ->
  exists url rest,
    last_endpoint = url +:+ "," +:+ rest
    /\ strings_Contains url "," = false
    /\ env (snd run) = SetServiceProperty (env st) (Name serviceConfig) "ENDPOINT_URL" url
    /\ forall u tag,
         last_endpoint = u +:+ tag -> In tag endpointTags ->
         strings_Contains u "," = false -> url = u.
Proof.
  intros run last_endpoint Hok Hne. subst last_endpoint.
  destruct (Deploy_Ok_inv t serviceConfig packageOutput targetResource st result Hok)
    as (_ & _ & _ & Hendpoints & _ & _ & _ & _ & Hstore).
  apply Endpoints_all_tagged in Hendpoints.
  pose proof (Forall_lookup_1 _ _ _ _ Hendpoints (lookup_last _ "" Hne)) as [_ Hcomma].
  assert (Hstored : exists url,
            beforeFirstComma (List.last (Endpoints_ result) "") url
            /\ env (snd run)
               = SetServiceProperty (env st) (Name serviceConfig) "ENDPOINT_URL" url).
  { destruct (Endpoints_ result); [contradiction | exact Hstore]. }
  destruct Hstored as (url & [Hfree Hshape] & Henv).
  destruct Hshape as [Hwhole | [rest Hrest]]; [congruence |].
  exists url, rest. split; [exact Hrest |]. split; [exact Hfree |].
  split; [exact Henv |].
  intros u tag Hu Htag Hufree.
  assert (Hsplit : exists tail, tag = "," +:+ tail).
  { destruct Htag as [<-|[<-|[<-|[]]]]; eexists; reflexivity. }
  destruct Hsplit as [tail ->].
  apply (beforeFirstComma_unique url u rest tail Hfree Hufree). congruence.
Qed.

End Target.

(** * The definitions and the properties on concrete inputs *)

Example strings_Split_endpoint :
  strings_Split "http://10.0.0.5:8080, (Service, Type: ClusterIP)" ","
  = ["http://10.0.0.5:8080"; " (Service"; " Type: ClusterIP)"].
Proof. reflexivity. Qed.

Example strings_Split_no_separator : strings_Split "http://10.0.0.5" "," = ["http://10.0.0.5"].
Proof. reflexivity. Qed.

Example strings_Contains_filter :
  strings_Contains "web-frontend" "web" = true
  /\ strings_Contains "web-frontend" "" = true
  /\ strings_Contains "web" "web-frontend" = false.
Proof. repeat split. Qed.

Example fmt_d_port : fmt_d 8080 = "8080" /\ fmt_d 0 = "0" /\ fmt_d (-1) = "-1".
Proof. repeat split. Qed.

Example errors_Is_wrapped :
  errors_Is (Wrap "failed waiting for resource, " ErrResourceNotFound) ErrResourceNotFound
  = true
  /\ errors_Is (Wrap "failed waiting for resource, " (New "connection refused"))
               ErrResourceNotFound = false.
Proof. split; reflexivity. Qed.

(** A service that never shows up is not found; one that shows up and
    never gets an IP runs into the deadline. *)
Example waitForService_outcomes :
  waitForService (Examples.steady [] [] []) "web" = Err ErrResourceNotFound
  /\ waitForService
       (Examples.steady []
          [Examples.service "web" kubectl.ServiceTypeLoadBalancer [] [] [""]] [])
       "web"
     = Err kubectl.ErrDeadline.
Proof. split; reflexivity. Qed.

(** C1, as stated, fails: the load balancer below is ready, since its
    second entry has an IP, and two endpoints are produced although a single
    entry has a non-empty IP; the first endpoint is built from the empty
    IP. *)
Lemma loadBalancer_endpoint_for_empty_ip :
  let k := Examples.steady [] [Examples.halfProvisioned] [] in
  let ingress :=
    kubectl.Ingress_ (kubectl.s_LoadBalancer (kubectl.s_Status Examples.halfProvisioned)) in
  waitForService k "web" = Ok Examples.halfProvisioned
  /\ kubectl.Type_ (kubectl.s_Spec Examples.halfProvisioned) = kubectl.ServiceTypeLoadBalancer
  /\ exists endpoints,
       getServiceEndpoints k (Examples.web "") "web" = Ok endpoints
       /\ length endpoints
          <> length (List.filter (fun config => negb (String.eqb (kubectl.Ip config) "")) ingress)
       /\ endpoints !! 0%nat = Some "http://, (Service, Type: LoadBalancer)".
Proof.
  simpl. split; [reflexivity |]. split; [reflexivity |].
  eexists. split; [reflexivity |]. split; [discriminate | reflexivity].
Qed.

Lemma loadBalancer_endpoint_per_entry_witness :
  exists endpoints,
    getServiceEndpoints (Examples.steady [] [Examples.halfProvisioned] [])
                        (Examples.web "") "web" = Ok endpoints
    /\ length endpoints = 2%nat.
Proof.
  destruct (loadBalancer_endpoint_per_entry
              (Examples.steady [] [Examples.halfProvisioned] [])
              (Examples.web "") "web" Examples.halfProvisioned
              eq_refl eq_refl) as (endpoints & Hrun & Hlen & _).
  exists endpoints. split; [exact Hrun | exact Hlen].
Defined.

Lemma rollout_ready_iff_equal_witness :
  deploymentReady (Examples.deployment "web" 3 5) = false
  /\ kubectl.AvailableReplicas (kubectl.d_Status (Examples.deployment "web" 3 3))
     = kubectl.Replicas (kubectl.d_Spec (Examples.deployment "web" 3 3)).
Proof.
  pose (st := {| env := Examples.environment []; calls := [] |} : State string).
  pose (t := cooperative (Environment := Instances.Environment)
               (Examples.steady [Examples.deployment "web" 3 3] [] [])).
  split.
  - apply (rollout_ready_iff_equal string t "web" st (Examples.deployment "web" 3 5)).
    reflexivity.
  - apply (rollout_ready_iff_equal string t "web" st (Examples.deployment "web" 3 3)).
    reflexivity.
Defined.

(** The scenario of a ClusterIP service with one cluster IP and the port
    8080. *)
Lemma clusterIp_endpoint_per_ip_witness :
  exists endpoints,
    getServiceEndpoints (Examples.steady [] [Examples.internal] []) (Examples.web "") "web"
    = Ok endpoints
    /\ endpoints !! 0%nat = Some "http://10.0.0.5:8080, (Service, Type: ClusterIP)".
Proof.
  destruct (clusterIp_endpoint_per_ip
              (Examples.steady [] [Examples.internal] []) (Examples.web "") "web"
              Examples.internal eq_refl eq_refl (le_n 1))
    as (endpoints & Hrun & _ & Hith).
  exists endpoints. split; [exact Hrun |].
  exact (Hith 0%nat "10.0.0.5" (kubectl.Build_Port 8080) eq_refl eq_refl).
Defined.

(** An ingress with a TLS entry and a rule without host. *)
Lemma ingress_protocol_uniform_witness :
  ingressProtocol Examples.secured = "https"
  /\ exists address url,
       Instances.url_JoinPath ("https" +:+ "://" +:+ address) ["/app"] = inl url
       /\ "https://1.2.3.4/app, (Ingress, Type: LoadBalancer)"
          = url +:+ ", (Ingress, Type: LoadBalancer)".
Proof.
  destruct (ingress_protocol_uniform Instances.url_JoinPath
              (Examples.steady [] [] [Examples.secured]) (Examples.web "") "web"
              Examples.secured
              ["https://1.2.3.4/app, (Ingress, Type: LoadBalancer)"]
              eq_refl eq_refl)
    as (Hhttps & _ & Hith).
  split.
  - apply Hhttps. exact (le_n 1).
  - exact (Hith 0%nat _ eq_refl).
Defined.

(** The scenario of an ingress without TLS whose rule names example.com,
    with the relative path /app and the IP 1.2.3.4. *)
Lemma ingress_endpoint_base_witness :
  getIngressEndpoints Instances.url_JoinPath
    (Examples.steady [] [] [Examples.hosted]) (Examples.web "") "web"
  = Ok ["http://example.com/app, (Ingress, Type: LoadBalancer)"].
Proof.
  apply (ingress_endpoint_base Instances.url_JoinPath
           (Examples.steady [] [] [Examples.hosted]) (Examples.web "") "web"
           Examples.hosted eq_refl).
  reflexivity.
Defined.

(** No service in the cluster: the ingress endpoints are the result. *)
Lemma Endpoints_absence_policy_witness :
  Endpoints Instances.url_JoinPath (Examples.steady [] [] [Examples.hosted])
            (Examples.web "") Examples.resourceGroup
  = Ok ([] ++ ["http://example.com/app, (Ingress, Type: LoadBalancer)"]).
Proof.
  apply (Endpoints_absence_policy Instances.url_JoinPath
           (Examples.steady [] [] [Examples.hosted]) (Examples.web "")
           Examples.resourceGroup).
  - right. split; [reflexivity |]. exists ErrResourceNotFound. split; reflexivity.
  - left. reflexivity.
Defined.

(** Two cluster IPs and one port: the read of the second port panics. *)
Lemma positional_indexing_unvalidated_witness :
  getServiceEndpoints (Examples.steady [] [Examples.shortOfPorts] []) (Examples.web "") "web"
  = Panic (IndexOutOfRange 1 1).
Proof.
  destruct (positional_indexing_unvalidated Instances.url_JoinPath) as (Hservice & _).
  destruct (Hservice (Examples.steady [] [Examples.shortOfPorts] []) (Examples.web "")
                     "web" Examples.shortOfPorts eq_refl eq_refl) as (_ & Hpanic).
  exact (Hpanic (le_n 2)).
Defined.

(** A deploy in front of a cluster with a deployment, an internal service
    and a hosted ingress: the URL of the ingress endpoint, the last one, is
    stored for the service. *)
Lemma Deploy_stores_last_endpoint_witness :
  let t := cooperative (Environment := Instances.Environment)
             (Examples.steady [Examples.deployment "web" 3 3] [Examples.internal]
                              [Examples.hosted]) in
  let st := {| env := Examples.environment []; calls := [] |} : State string in
  let run := Deploy Instances.url_JoinPath Instances.filepath_Join
                    Instances.KubernetesServiceRID "aks" string
                    t (Examples.web "") (Some "web.tar") Examples.resourceGroup st in
  exists url,
    beforeFirstComma "http://example.com/app, (Ingress, Type: LoadBalancer)" url
    /\ Instances.properties (env string (snd run)) !! ("web", "ENDPOINT_URL") = Some url.
Proof.
  intros t st run.
  destruct (Deploy_stores_last_endpoint Instances.url_JoinPath Instances.filepath_Join
              Instances.KubernetesServiceRID "aks" string
              t (Examples.web "") "web.tar" Examples.resourceGroup st
              ["http://10.0.0.5:8080, (Service, Type: ClusterIP)";
               "http://example.com/app, (Ingress, Type: LoadBalancer)"])
    as (made & _ & Hsome & _).
  - split; [reflexivity |]. split; [reflexivity |]. intros st'. exact I.
  - reflexivity.
  - destruct Hsome as (url & before & Hurl & Henv & _); [discriminate |].
    exists url. split; [exact Hurl |].
    fold run in Henv. rewrite Henv. simpl. apply lookup_insert_eq.
Defined.

(** C8, as stated, fails: the override is set, and the run, whose target
    resource the resource manager does not resolve, returns that error
    after three calls, without reaching ensureClusterContext and without
    ensuring any namespace. *)
Lemma bootstrap_override_unresolved_target :
  let t := withTargetResource
             (cooperative (Environment := Instances.Environment) (Examples.steady [] [] []))
             (fun _ _ => inr (New "unable to find a resource tagged with 'azd-service-name: web'")) in
  let overridden :=
    {| env := Examples.environment [("KUBECONFIG", "/home/dev/kubeconfig")];
       calls := [] |} : State string in
  let run := setK8sContext "KUBECONFIG" "AZURE_AKS_CLUSTER_NAME" string
               t (Examples.web "") "predeploy" overridden in
  Getenv (env string overridden) "KUBECONFIG" = "/home/dev/kubeconfig"
  /\ fst run = Err (New "unable to find a resource tagged with 'azd-service-name: web'")
  /\ calls string (snd run)
     = [CallSetEnv string (Dotenv (env string overridden));
        CallSetKubeConfig string "/home/dev/kubeconfig";
        CallGetTargetResource string (GetSubscriptionId (env string overridden))
                              (Examples.web "")]
  /\ forall c, In c (calls string (snd run)) ->
               match c with
               | CallCreateNamespace _ _ | CallApplyWithStdIn _ _ => False
               | _ => True
               end.
Proof.
  intros t overridden run.
  assert (Hpath : Getenv (env string overridden) "KUBECONFIG" = "/home/dev/kubeconfig")
    by (vm_compute; reflexivity).
  assert (Hrun : run
                 = (Err (New "unable to find a resource tagged with 'azd-service-name: web'"),
                    {| env := env string overridden;
                       calls := [CallSetEnv string (Dotenv (env string overridden));
                                 CallSetKubeConfig string "/home/dev/kubeconfig";
                                 CallGetTargetResource string
                                   (GetSubscriptionId (env string overridden))
                                   (Examples.web "")] |})).
  { vm_compute. reflexivity. }
  split; [exact Hpath |]. rewrite Hrun. split; [reflexivity |]. split; [reflexivity |].
  intros c [<-|[<-|[<-|[]]]]; exact I.
Qed.

(** A bootstrap for "predeploy" with KUBECONFIG set, which ensures the
    namespace [shop] and warns, and one with neither KUBECONFIG nor the
    cluster name. *)
Lemma bootstrap_override_and_missing_cluster_witness :
  let t := cooperative (Environment := Instances.Environment) (Examples.steady [] [] []) in
  let overridden :=
    {| env := Examples.environment [("KUBECONFIG", "/home/dev/kubeconfig")];
       calls := [] |} : State string in
  let bare := {| env := Examples.environment []; calls := [] |} : State string in
  ensureClusterContext "KUBECONFIG" "AZURE_AKS_CLUSTER_NAME" string
    t (Examples.web "") Examples.resourceGroup "shop" overridden
  = (Ok "/home/dev/kubeconfig", overridden)
  /\ setK8sContext "KUBECONFIG" "AZURE_AKS_CLUSTER_NAME" string
       t (Examples.web "") "predeploy" overridden
     = (Ok tt,
        {| env := env string overridden;
           calls := [CallSetEnv string (Dotenv (env string overridden));
                     CallSetKubeConfig string "/home/dev/kubeconfig";
                     CallGetTargetResource string
                       (GetSubscriptionId (env string overridden)) (Examples.web "");
                     CallCreateNamespace string "shop";
                     CallApplyWithStdIn string "kind: Namespace, name: shop";
                     CallMessage string
                       ("Using KUBECONFIG @ /home/dev/kubeconfig"
                          +:+ String (ascii_of_nat 10) EmptyString)] |})
  /\ ensureClusterContext "KUBECONFIG" "AZURE_AKS_CLUSTER_NAME" string
       t (Examples.web "") Examples.resourceGroup "shop" bare
     = (Err (errNoCluster "AZURE_AKS_CLUSTER_NAME"), bare)
  /\ fst (setK8sContext "KUBECONFIG" "AZURE_AKS_CLUSTER_NAME" string
            t (Examples.web "") "predeploy" bare)
     = Err (errNoCluster "AZURE_AKS_CLUSTER_NAME").
Proof.
  intros t overridden bare.
  assert (Hpath : Getenv (env string overridden) "KUBECONFIG" = "/home/dev/kubeconfig")
    by (vm_compute; reflexivity).
  assert (Hset : Getenv (env string overridden) "KUBECONFIG" <> "")
    by (rewrite Hpath; discriminate).
  assert (Hunset : Getenv (env string bare) "KUBECONFIG" = "") by (vm_compute; reflexivity).
  assert (Hmissing : snd (LookupEnv (env string bare) "AZURE_AKS_CLUSTER_NAME") = false)
    by (vm_compute; reflexivity).
  destruct (bootstrap_override_and_missing_cluster "KUBECONFIG" "AZURE_AKS_CLUSTER_NAME"
              string t (Examples.web "") "predeploy" Examples.resourceGroup "shop"
              overridden) as [Hoverride _].
  destruct (bootstrap_override_and_missing_cluster "KUBECONFIG" "AZURE_AKS_CLUSTER_NAME"
              string t (Examples.web "") "predeploy" Examples.resourceGroup "shop"
              bare) as [_ Hbare].
  destruct (Hoverride Hset) as (Hreturned & _ & Hensured).
  destruct (Hbare Hunset Hmissing) as (Hfailed & Hrun).
  rewrite Hpath in Hreturned.
  split; [exact Hreturned |].
  split; [vm_compute in Hensured; vm_compute; exact Hensured |].
  split; [exact Hfailed |].
  now rewrite Hrun.
Defined.

(** * Further properties on concrete inputs *)

(** An ingress with two entries whose second rule names a host with a
    space: the join fails for it, and the endpoint of the first entry is
    not returned either. *)
Lemma getIngressEndpoints_join_failure_witness :
  getIngressEndpoints Instances.url_JoinPath
    (Examples.steady [] []
       [Examples.ingress "web" 0 [Some "example.com"; Some "bad host"]
                         ["1.2.3.4"; "1.2.3.5"]])
    (Examples.web "") "web"
  = Err (Wrap "failed constructing service endpoints, "
              (New "url.JoinPath: input not covered by this instance")).
Proof.
  apply (getIngressEndpoints_join_failure Instances.url_JoinPath
           (Examples.steady [] []
              [Examples.ingress "web" 0 [Some "example.com"; Some "bad host"]
                                ["1.2.3.4"; "1.2.3.5"]])
           (Examples.web "") "web"
           (Examples.ingress "web" 0 [Some "example.com"; Some "bad host"]
                             ["1.2.3.4"; "1.2.3.5"])
           1%nat (kubectl.Build_IngressRule (Some "bad host"))
           (kubectl.Build_LoadBalancerIngress "1.2.3.5")).
  - reflexivity.
  - reflexivity.
  - reflexivity.
  - reflexivity.
  - intros i e Hi Hlb. destruct i as [|i]; [| lia].
    injection Hlb as <-.
    exists (kubectl.Build_IngressRule (Some "example.com")), "http://example.com/app".
    split; reflexivity.
Defined.

(** The endpoints of an internal service and a hosted ingress. *)
Lemma Endpoints_tagged_witness :
  Forall (fun endpoint => tagged endpoint /\ strings_Contains endpoint "," = true)
         ["http://10.0.0.5:8080, (Service, Type: ClusterIP)";
          "http://example.com/app, (Ingress, Type: LoadBalancer)"].
Proof.
  apply (Endpoints_tagged Instances.url_JoinPath
           (Examples.steady [] [Examples.internal] [Examples.hosted])
           (Examples.web "") Examples.resourceGroup).
  reflexivity.
Defined.

(** A cluster that only holds resources of another service. *)
Lemma Endpoints_nothing_matches_witness :
  Endpoints Instances.url_JoinPath
    (Examples.steady []
       [Examples.service "api" kubectl.ServiceTypeClusterIp ["10.0.0.7"] [80%Z] []]
       [Examples.ingress "api" 0 [None] ["1.2.3.4"]])
    (Examples.web "") Examples.resourceGroup
  = Ok [].
Proof.
  apply (Endpoints_nothing_matches Instances.url_JoinPath).
  - repeat constructor.
  - repeat constructor.
Defined.

(** A kubeconfig with two contexts, and one with none. *)
Lemma configureK8sContext_first_context_witness :
  let t := cooperative (Environment := Instances.Environment) (Examples.steady [] [] []) in
  let two :=
    {| kubectl.Contexts :=
         [{| kubectl.kc_Name := "aks"; kubectl.kc_Namespace := "default" |};
          {| kubectl.kc_Name := "other"; kubectl.kc_Namespace := "kube-system" |}] |} in
  let credential := {| cr_Name := "clusterUser"; Value := "apiVersion: v1" |} in
  let st := {| env := Examples.environment []; calls := [] |} : State string in
  snd (configureK8sContext string (withParseKubeConfig t (fun _ => inl two))
         "aks" "shop" credential st)
  = {| env := Examples.environment [];
       calls := [CallNewKubeConfigManager string;
                 CallParseKubeConfig string "apiVersion: v1";
                 CallAddOrUpdateContext string "aks"
                   {| kubectl.Contexts :=
                        [{| kubectl.kc_Name := "aks"; kubectl.kc_Namespace := "shop" |};
                         {| kubectl.kc_Name := "other";
                            kubectl.kc_Namespace := "kube-system" |}] |};
                 CallConfigUseContext string "aks"] |}
  /\ configureK8sContext string
       (withParseKubeConfig t (fun _ => inl {| kubectl.Contexts := [] |}))
       "aks" "shop" credential st
     = (Panic (IndexOutOfRange 0 0),
        {| env := Examples.environment [];
           calls := [CallNewKubeConfigManager string; CallParseKubeConfig string "apiVersion: v1"] |}).
Proof.
  intros t two credential st. split.
  - exact (proj1 (configureK8sContext_first_context string
                    (withParseKubeConfig t (fun _ => inl two))
                    "aks" "shop" credential st two eq_refl eq_refl)).
  - exact (configureK8sContext_first_context string
             (withParseKubeConfig t (fun _ => inl {| kubectl.Contexts := [] |}))
             "aks" "shop" credential st {| kubectl.Contexts := [] |} eq_refl eq_refl).
Defined.

(** Two credentials for the cluster [aks]: the login goes on with the
    first. *)
Lemma ensureClusterContext_first_credential_witness :
  let user := {| cr_Name := "clusterUser"; Value := "apiVersion: v1" |} in
  let admin := {| cr_Name := "clusterAdmin"; Value := "apiVersion: v1 # admin" |} in
  let t := withCredentials
             (cooperative (Environment := Instances.Environment) (Examples.steady [] [] []))
             (fun _ _ _ => inl [user; admin]) in
  let st := {| env := Examples.environment [("AZURE_AKS_CLUSTER_NAME", "aks")];
               calls := [] |} : State string in
  ensureClusterContext "KUBECONFIG" "AZURE_AKS_CLUSTER_NAME" string
    t (Examples.web "") Examples.resourceGroup "shop" st
  = configureK8sContext string t "aks" "shop" user
      {| env := Examples.environment [("AZURE_AKS_CLUSTER_NAME", "aks")];
         calls := [CallPrintf string ("getting AKS credentials for cluster 'aks'"
                                 +:+ String (ascii_of_nat 10) EmptyString);
                   CallGetUserCredentials string "sub" "rg" "aks"] |}.
Proof.
  intros user admin t st.
  apply (ensureClusterContext_first_credential "KUBECONFIG" "AZURE_AKS_CLUSTER_NAME"
           string t (Examples.web "") Examples.resourceGroup "shop" st "aks"
           user [admin]).
  - vm_compute. reflexivity.
  - vm_compute. reflexivity.
  - reflexivity.
Defined.

(** A fetch of the credentials that is refused, and one that returns no
    credential. *)
Lemma ensureClusterContext_credentials_failure_witness :
  let t := cooperative (Environment := Instances.Environment) (Examples.steady [] [] []) in
  let st := {| env := Examples.environment [("AZURE_AKS_CLUSTER_NAME", "aks")];
               calls := [] |} : State string in
  fst (ensureClusterContext "KUBECONFIG" "AZURE_AKS_CLUSTER_NAME" string
         (withCredentials t (fun _ _ _ => inr (New "403 Forbidden")))
         (Examples.web "") Examples.resourceGroup "shop" st)
  = Err (Wrap ("failed retrieving cluster admin credentials. "
                 +:+ "Ensure your cluster has been configured to support admin credentials, ")
              (New "403 Forbidden"))
  /\ fst (ensureClusterContext "KUBECONFIG" "AZURE_AKS_CLUSTER_NAME" string
            (withCredentials t (fun _ _ _ => inl []))
            (Examples.web "") Examples.resourceGroup "shop" st)
     = Err (errNoCredentials).
Proof.
  intros t st.
  assert (Hoverride : Getenv (env string st) "KUBECONFIG" = "") by (vm_compute; reflexivity).
  assert (Hcluster : LookupEnv (env string st) "AZURE_AKS_CLUSTER_NAME" = ("aks", true))
    by (vm_compute; reflexivity).
  split.
  - destruct (ensureClusterContext_credentials_failure "KUBECONFIG" "AZURE_AKS_CLUSTER_NAME"
                string (withCredentials t (fun _ _ _ => inr (New "403 Forbidden")))
                (Examples.web "") Examples.resourceGroup "shop" st "aks"
                Hoverride Hcluster) as [Hrefused _].
    now rewrite (Hrefused (New "403 Forbidden") eq_refl).
  - destruct (ensureClusterContext_credentials_failure "KUBECONFIG" "AZURE_AKS_CLUSTER_NAME"
                string (withCredentials t (fun _ _ _ => inl []))
                (Examples.web "") Examples.resourceGroup "shop" st "aks"
                Hoverride Hcluster) as [_ Hempty].
    now rewrite (Hempty eq_refl).
Defined.

(** A deploy whose apply is refused. *)
Lemma Deploy_apply_failure_witness :
  let t := withApply
             (cooperative (Environment := Instances.Environment)
                (Examples.steady [Examples.deployment "web" 3 3] [Examples.internal] []))
             (fun _ => inr (New "connection refused")) in
  let st := {| env := Examples.environment []; calls := [] |} : State string in
  let run := Deploy Instances.url_JoinPath Instances.filepath_Join
                    Instances.KubernetesServiceRID "aks" string
                    t (Examples.web "") (Some "web.tar") Examples.resourceGroup st in
  fst run = Err (Wrap "failed applying kube manifests: " (New "connection refused"))
  /\ env string (snd run) = Examples.environment [].
Proof.
  intros t st run. unfold run.
  rewrite (Deploy_apply_failure Instances.url_JoinPath Instances.filepath_Join
             Instances.KubernetesServiceRID "aks" string
             t (Examples.web "") "web.tar" Examples.resourceGroup st
             (New "connection refused") eq_refl eq_refl).
  split; reflexivity.
Defined.

(** A deploy whose deployment is ready and whose rollout status fails. *)
Lemma Deploy_deployment_failure_witness :
  let t := withRolloutStatus
             (cooperative (Environment := Instances.Environment)
                (Examples.steady [Examples.deployment "web" 3 3] [Examples.internal] []))
             (fun _ => inr (New "rollout timed out")) in
  let st := {| env := Examples.environment []; calls := [] |} : State string in
  let run := Deploy Instances.url_JoinPath Instances.filepath_Join
                    Instances.KubernetesServiceRID "aks" string
                    t (Examples.web "") (Some "web.tar") Examples.resourceGroup st in
  fst run = Err (New "rollout timed out")
  /\ env string (snd run) = Examples.environment [].
Proof.
  intros t st run.
  destruct (Deploy_deployment_failure Instances.url_JoinPath Instances.filepath_Join
              Instances.KubernetesServiceRID "aks" string
              t (Examples.web "") "web.tar" Examples.resourceGroup st
              (New "rollout timed out") eq_refl eq_refl eq_refl eq_refl)
    as (Hfst & Henv & _).
  split; [exact Hfst | exact Henv].
Defined.

(** A deploy in front of a cluster with a ready deployment and an internal
    service. *)
Lemma Deploy_Ok_witness :
  let t := cooperative (Environment := Instances.Environment)
             (Examples.steady [Examples.deployment "web" 3 3] [Examples.internal] []) in
  let st := {| env := Examples.environment []; calls := [] |} : State string in
  Endpoints Instances.url_JoinPath (cluster t) (Examples.web "") Examples.resourceGroup
  = Ok ["http://10.0.0.5:8080, (Service, Type: ClusterIP)"]
  /\ kubectl_RolloutStatus t "web" = inl tt.
Proof.
  intros t st.
  destruct (Deploy_Ok Instances.url_JoinPath Instances.filepath_Join
              Instances.KubernetesServiceRID "aks" string
              t (Examples.web "") (Some "web.tar") Examples.resourceGroup st
              {| Package := "web.tar";
                 TargetResourceId := Instances.KubernetesServiceRID "sub" "rg" "aks";
                 Kind := "aks";
                 Details := Some (Examples.deployment "web" 3 3);
                 Endpoints_ := ["http://10.0.0.5:8080, (Service, Type: ClusterIP)"] |}
              eq_refl)
    as (_ & _ & _ & Hendpoints & _ & _ & (_ & _ & Hrollout) & _).
  split; [exact Hendpoints | exact Hrollout].
Defined.

(** The same deploy: the URL of its only endpoint is stored for the
    service, without the tag. *)
Lemma Deploy_stores_untagged_url_witness :
  let t := cooperative (Environment := Instances.Environment)
             (Examples.steady [Examples.deployment "web" 3 3] [Examples.internal] []) in
  let st := {| env := Examples.environment []; calls := [] |} : State string in
  let run := Deploy Instances.url_JoinPath Instances.filepath_Join
                    Instances.KubernetesServiceRID "aks" string
                    t (Examples.web "") (Some "web.tar") Examples.resourceGroup st in
  Instances.properties (env string (snd run)) !! ("web", "ENDPOINT_URL")
  = Some "http://10.0.0.5:8080".
Proof.
  intros t st run.
  assert (Hne : ["http://10.0.0.5:8080, (Service, Type: ClusterIP)"] <> [])
    by discriminate.
  destruct (Deploy_stores_untagged_url Instances.url_JoinPath Instances.filepath_Join
              Instances.KubernetesServiceRID "aks" string
              t (Examples.web "") (Some "web.tar") Examples.resourceGroup st
              {| Package := "web.tar";
                 TargetResourceId := Instances.KubernetesServiceRID "sub" "rg" "aks";
                 Kind := "aks";
                 Details := Some (Examples.deployment "web" 3 3);
                 Endpoints_ := ["http://10.0.0.5:8080, (Service, Type: ClusterIP)"] |}
              eq_refl Hne)
    as (url & rest & _ & _ & Henv & Hurl).
  rewrite (Hurl "http://10.0.0.5:8080" ", (Service, Type: ClusterIP)"
             eq_refl (or_intror (or_introl eq_refl)) eq_refl) in Henv.
  fold run in Henv. rewrite Henv. simpl. apply lookup_insert_eq.
Defined.
